(** * Drata agent CLI: sync orchestration and Linux telemetry collection

    A shallow embedding of the Go command-line agent (packages [config],
    [datastore], [osquery], [api], [cmd]) and of the TypeScript command-line
    agent (helpers [CliConfigHelper], [CliProcessHelper], service
    [CliApiService], commands [sync] and [configure]), followed by the
    properties of the throttling state machine, the registration handshake
    and the Linux platform adapter.

    Conventions.
    - A Go [string] is a byte string ([string] of Rocq); [range] over a string
      and the [unicode] predicates go through an explicit UTF-8 decoder.
    - A Go [int] is a [Z]; the values met here (minutes, hours, status codes)
      stay far inside 64 bits.
    - A Go [error] is its message.
    - A [map[string]interface{}] is a [gmap string Value].
    - Effects are explicit: a computation takes the store and returns a
      result, the new store and the events it emitted, in order. *)

From Stdlib Require Import ZArith Ascii String.
From stdpp Require Import base option list strings gmap pretty.

#[local] Set Warnings "-register-all".

(** ** Go runtime: strings, unicode, strconv, fmt *)

Module Go.

Definition rune := Z.
Definition error := string.

(** A fallible result [(v, err)]: either the value or the error. *)
Inductive result (A : Type) : Type :=
  | Ok (a : A)
  | Err (e : error).
Arguments Ok {A} a.
Arguments Err {A} e.

Definition is_ok {A} (r : result A) : bool :=
  match r with Ok _ => true | Err _ => false end.

Definition str_eqb (a b : string) : bool := String.eqb a b.

Definition byte_of (a : ascii) : Z := Z.of_N (N_of_ascii a).

Definition in_range (lo hi b : Z) : bool := ((lo <=? b) && (b <=? hi))%Z.

Definition RuneError : rune := 65533%Z.

(** [utf8.DecodeRuneInString]: the first rune of [s] and its width in
    bytes; an invalid or truncated encoding yields [(RuneError, 1)]. *)
Definition DecodeRuneInString (s : string) : rune * nat :=
  match s with
  | EmptyString => (RuneError, 0)
  | String a0 tl =>
    let b0 := byte_of a0 in
    if (b0 <? 128)%Z then (b0, 1)
    else if in_range 194 223 b0 then
      match tl with
      | String a1 _ =>
        let b1 := byte_of a1 in
        if in_range 128 191 b1
        then (Z.lor (Z.shiftl (Z.land b0 31) 6) (Z.land b1 63), 2)
        else (RuneError, 1)
      | _ => (RuneError, 1)
      end
    else if in_range 224 239 b0 then
      match tl with
      | String a1 (String a2 _) =>
        let b1 := byte_of a1 in
        let b2 := byte_of a2 in
        let lo := if (b0 =? 224)%Z then 160%Z else 128%Z in
        let hi := if (b0 =? 237)%Z then 159%Z else 191%Z in
        if in_range lo hi b1 && in_range 128 191 b2
        then (Z.lor (Z.shiftl (Z.land b0 15) 12)
                (Z.lor (Z.shiftl (Z.land b1 63) 6) (Z.land b2 63)), 3)
        else (RuneError, 1)
      | _ => (RuneError, 1)
      end
    else if in_range 240 244 b0 then
      match tl with
      | String a1 (String a2 (String a3 _)) =>
        let b1 := byte_of a1 in
        let b2 := byte_of a2 in
        let b3 := byte_of a3 in
        let lo := if (b0 =? 240)%Z then 144%Z else 128%Z in
        let hi := if (b0 =? 244)%Z then 143%Z else 191%Z in
        if in_range lo hi b1 && in_range 128 191 b2 && in_range 128 191 b3
        then (Z.lor (Z.shiftl (Z.land b0 7) 18)
                (Z.lor (Z.shiftl (Z.land b1 63) 12)
                   (Z.lor (Z.shiftl (Z.land b2 63) 6) (Z.land b3 63))), 4)
        else (RuneError, 1)
      | _ => (RuneError, 1)
      end
    else (RuneError, 1)
  end.

(** The runes of [s] with the bytes each one spans, as [for _, r := range s]
    walks them. [skip] counts the bytes still owned by the previous rune. *)
Fixpoint chunks_from (skip : nat) (s : string) : list (rune * string) :=
  match s with
  | EmptyString => []
  | String _ tl =>
    match skip with
    | S k => chunks_from k tl
    | O =>
      let '(r, size) := DecodeRuneInString s in
      (r, String.substring 0 size s) :: chunks_from (size - 1) tl
    end
  end.

Definition chunks (s : string) : list (rune * string) := chunks_from 0 s.

Definition runes (s : string) : list rune := (chunks s).*1.

Definition unchunk (cs : list (rune * string)) : string :=
  foldr (fun c acc => c.2 +:+ acc) EmptyString cs.

(** [unicode.IsSpace]: the Latin-1 spaces and the White_Space table. *)
Definition IsSpace (r : rune) : bool :=
  in_range 9 13 r || (r =? 32)%Z || (r =? 133)%Z || (r =? 160)%Z
  || (r =? 5760)%Z || in_range 8192 8202 r || in_range 8232 8233 r
  || (r =? 8239)%Z || (r =? 8287)%Z || (r =? 12288)%Z.

Fixpoint dropWhile {A} (p : A -> bool) (l : list A) : list A :=
  match l with
  | [] => []
  | x :: tl => if p x then dropWhile p tl else l
  end.

Definition dropWhileEnd {A} (p : A -> bool) (l : list A) : list A :=
  reverse (dropWhile p (reverse l)).

(** [strings.TrimSpace]: [s] without its leading and trailing white space. *)
Definition TrimSpace (s : string) : string :=
  unchunk (dropWhileEnd (fun c => IsSpace c.1)
             (dropWhile (fun c => IsSpace c.1) (chunks s))).

(** [strings.Fields]: the maximal runs of non-space runes of [s]. *)
Fixpoint fields_go (cur : string) (cs : list (rune * string)) : list string :=
  match cs with
  | [] => if str_eqb cur EmptyString then [] else [cur]
  | c :: tl =>
    if IsSpace c.1
    then (if str_eqb cur EmptyString then fields_go EmptyString tl
          else cur :: fields_go EmptyString tl)
    else fields_go (cur +:+ c.2) tl
  end.

Definition Fields (s : string) : list string := fields_go EmptyString (chunks s).

(** [strings.Contains] on bytes. *)
Fixpoint Contains (s substr : string) : bool :=
  String.prefix substr s
  || match s with
     | EmptyString => false
     | String _ tl => Contains tl substr
     end.

(** The tables of package [unicode] above Latin-1 (categories L and Nd);
    the standard library's data, taken as a parameter. *)
Record UnicodeTables := {
    tableLetter : rune -> bool;
    tableDigit : rune -> bool;
  }.

(** [unicode.IsLetter]: Latin-1 through the property array, the rest
    through the table. *)
Definition IsLetter (U : UnicodeTables) (r : rune) : bool :=
  if (r <=? 255)%Z then
    in_range 65 90 r || in_range 97 122 r
    || (r =? 170)%Z || (r =? 181)%Z || (r =? 186)%Z
    || in_range 192 214 r || in_range 216 246 r || in_range 248 255 r
  else tableLetter U r.

(** [unicode.IsDigit]. *)
Definition IsDigit (U : UnicodeTables) (r : rune) : bool :=
  if (r <=? 255)%Z then in_range 48 57 r else tableDigit U r.

(** [%d] of package [fmt]. *)
Definition fmt_d (n : Z) : string := pretty n.

(** Decimal digits of [s] read left to right onto [acc]; [None] on a byte
    that is not a digit. *)
Fixpoint digits (acc : Z) (s : string) : option Z :=
  match s with
  | EmptyString => Some acc
  | String a tl =>
    let d := (byte_of a - 48)%Z in
    if in_range 0 9 d then digits (acc * 10 + d)%Z tl else None
  end.

(** [strconv.Atoi] on a 64-bit platform: an optional sign, at least one
    digit, nothing else, and a value that fits an [int]. *)
Definition Atoi (s : string) : result Z :=
  let '(neg, body) :=
    match s with
    | String a tl =>
      if (byte_of a =? 45)%Z then (true, tl)
      else if (byte_of a =? 43)%Z then (false, tl)
      else (false, s)
    | EmptyString => (false, s)
    end in
  match body with
  | EmptyString => Err "strconv.Atoi: invalid syntax"
  | _ =>
    match digits 0 body with
    | None => Err "strconv.Atoi: invalid syntax"
    | Some n =>
      let v := if neg then (- n)%Z else n in
      if in_range (- 2 ^ 63) (2 ^ 63 - 1) v then Ok v
      else Err "strconv.Atoi: value out of range"
    end
  end.

(** What an [interface{}] holds in this program: JSON-like data. *)
Inductive Value : Type :=
  | VNil
  | VBool (b : bool)
  | VInt (n : Z)
  | VStr (s : string)
  | VList (l : list Value)
  | VMap (m : gmap string Value).

End Go.

Import Go.


(** ** Effects: a store, a result, and the events emitted *)

Module Eff.

Definition M (S E A : Type) : Type := S -> result A * S * list E.

Section Ops.
Context {S E : Type}.

Definition ret {A} (a : A) : M S E A := fun s => (Ok a, s, []).

Definition throw {A} (e : error) : M S E A := fun s => (Err e, s, []).

Definition bind {A B} (m : M S E A) (k : A -> M S E B) : M S E B :=
  fun s =>
    match m s with
    | (Ok a, s1, t1) => let '(r, s2, t2) := k a s1 in (r, s2, t1 ++ t2)
    | (Err e, s1, t1) => (Err e, s1, t1)
    end.

(** Runs [m] and hands its outcome to the caller, as [v, err := m()]. *)
Definition try {A} (m : M S E A) : M S E (result A) :=
  fun s => let '(r, s1, t) := m s in (Ok r, s1, t).

Definition emit (e : E) : M S E unit := fun s => (Ok tt, s, [e]).

Definition get : M S E S := fun s => (Ok s, s, []).

Definition put (s' : S) : M S E unit := fun _ => (Ok tt, s', []).

(** [if err != nil { return fmt.Errorf(prefix + ": %w", err) }]. *)
Definition wrap {A} (pre : string) (m : M S E A) : M S E A :=
  fun s =>
    match m s with
    | (Err e, s1, t) => (Err (pre +:+ ": " +:+ e), s1, t)
    | r => r
    end.

Definition outcome {A} (x : result A * S * list E) : result A := x.1.1.
Definition final {A} (x : result A * S * list E) : S := x.1.2.
Definition events {A} (x : result A * S * list E) : list E := x.2.
End Ops.

End Eff.

Import Eff.

Declare Scope eff_scope.
Delimit Scope eff_scope with eff.
Bind Scope eff_scope with M.
Notation "x ← y ; z" := (bind y (fun x => z))
  (at level 20, y at level 100, z at level 200, only parsing) : eff_scope.
Notation "y ;; z" := (bind y (fun _ => z))
  (at level 100, z at level 200, only parsing, right associativity) : eff_scope.
#[local] Open Scope eff_scope.

(** ** Probes: a value and the external processes started to get it *)

Module Probe.

(** One run of an external process: a shell command or an osquery query. *)
Inductive Call :=
| Command (line : string)
| Query (sql : string).

Definition W (A : Type) : Type := A * list Call.

Definition wret {A} (a : A) : W A := (a, []).

Definition wbind {A B} (m : W A) (k : A -> W B) : W B :=
  let '(a, t1) := m in let '(b, t2) := k a in (b, t1 ++ t2).

End Probe.

Import Probe.

Declare Scope probe_scope.
Delimit Scope probe_scope with probe.
Notation "x ← y ; z" := (wbind y (fun x => z))
  (at level 20, y at level 100, z at level 200, only parsing) : probe_scope.

(** ** Package config *)

Module Config.

Definition RegionNA : string := "NA".
Definition RegionEU : string := "EU".
Definition RegionAPAC : string := "APAC".

Definition EnvLocal : string := "LOCAL".
Definition EnvDev : string := "DEV".
Definition EnvQA : string := "QA".
Definition EnvProd : string := "PROD".

Record Config := {
    Region : string;
    TargetEnv : string;
    SyncIntervalHours : Z;
    MinHoursSinceLastSync : Z;
    MinMinutesBetweenSyncs : Z;
    OsqueryPath : string;
    Version : string;
  }.

Definition DefaultConfig : Config := {|
    Region := RegionNA;
    TargetEnv := EnvProd;
    SyncIntervalHours := 2;
    MinHoursSinceLastSync := 24;
    MinMinutesBetweenSyncs := 15;
    OsqueryPath := EmptyString;
    Version := "3.9.0-cli";
  |}.

Definition apiURLs : gmap string (gmap string string) :=
  {[ EnvLocal := {[ RegionNA := "http://localhost:3000";
                    RegionEU := "http://localhost:3001";
                    RegionAPAC := "http://localhost:3002" ]};
     EnvDev := {[ RegionNA := "https://agent.dev.drata.com";
                  RegionEU := "https://agent.dev.drata.com";
                  RegionAPAC := "https://agent.dev.drata.com" ]};
     EnvQA := {[ RegionNA := "https://agent.qa.drata.com";
                 RegionEU := "https://agent.qa.drata.com";
                 RegionAPAC := "https://agent.qa.drata.com" ]};
     EnvProd := {[ RegionNA := "https://agent.drata.com";
                   RegionEU := "https://agent.eu.drata.com";
                   RegionAPAC := "https://agent.apac.drata.com" ]} ]}.

(** [APIHostURL], with the region the request resolves. *)
Definition APIHostURL (targetEnv region : string) : string :=
  match apiURLs !! targetEnv with
  | Some envURLs =>
    match envURLs !! region with
    | Some url => url
    | None => "https://agent.drata.com"
    end
  | None => "https://agent.drata.com"
  end.

End Config.

(** ** Package api: the bodies exchanged with the backend *)

Module Wire.

Record AuthResponse := { AccessToken : string }.

Record MeResponse := {
    ID : Z;
    EntryID : string;
    Email : string;
    FirstName : string;
    LastName : string;
    JobTitle : string;
    AvatarURL : string;
    Roles : list string;
    DrataTermsAgreedAt : string;
    CreatedAt : string;
    UpdatedAt : string;
    Signature : string;
    Language : string;
  }.

(** A Go slice is [None] when nil; [len] of a nil slice is 0. *)
Definition slice_len {A} (l : option (list A)) : nat :=
  match l with Some x => length x | None => 0 end.

Record AgentV2Response := {
    LastCheckedAt : string;
    Data : Value;
    WinAvServicesMatchList : option (list string);
  }.

Record SyncResponse := {
    SyncData : AgentV2Response;
    SyncWinAvServicesMatchList : option (list string);
  }.

Record InitDataResponse := {
    InitWinAvServicesMatchList : option (list string);
  }.

Record ErrorResponse := {
    ErrStatusCode : Z;
    Code : string;
    Message : string;
    SecondaryMessage : string;
  }.

(** An HTTP response as the client reads it: the status, the raw body, the
    body decoded as an [ErrorResponse] (when [json.Unmarshal] accepts it),
    and the body decoded as the expected type. *)
Record Response (A : Type) := {
    StatusCode : Z;
    body : string;
    asError : option ErrorResponse;
    decoded : result A;
  }.
Arguments StatusCode {A} _.
Arguments body {A} _.
Arguments asError {A} _.
Arguments decoded {A} _.

End Wire.

(** ** Package datastore *)

Module Datastore.

Definition SyncStateSuccess : string := "SUCCESS".
Definition SyncStateError : string := "ERROR".
Definition SyncStateRunning : string := "RUNNING".
Definition SyncStateUnknown : string := "UNKNOWN".

Record User := {
    ID : Z;
    EntryID : string;
    Email : string;
    FirstName : string;
    LastName : string;
    JobTitle : string;
    AvatarURL : string;
    Roles : list string;
    DrataTermsAgreedAt : string;
    CreatedAt : string;
    UpdatedAt : string;
    Signature : string;
    Language : string;
  }.

(** The dynamic values stored through [interface{}] in [Update] and in
    [ComplianceData], tagged with their Go type. *)
Inductive Dyn :=
  | DString (s : string)
  | DSyncState (s : string)
  | DRegion (s : string)
  | DStrings (l : option (list string))
  | DUser (u : option User)
  | DSyncResponse (r : Wire.SyncResponse).

(** The document of [app-data.json]. The field holding the user is
    [User_], the type being [User]; [path] and the mutex are not part of
    the document. A nil slice, pointer or interface is [None]. *)
Record DataStore := {
    UUID : string;
    AppVersion : string;
    AccessToken : string;
    User_ : option User;
    SyncState : string;
    LastCheckedAt : string;
    LastSyncAttemptedAt : string;
    ComplianceData : option Dyn;
    WinAvServicesMatchList : option (list string);
    Region : string;
  }.

(** The zero value, as [Clear] leaves it and as [New] starts from. *)
Definition empty : DataStore := {|
    UUID := EmptyString;
    AppVersion := EmptyString;
    AccessToken := EmptyString;
    User_ := None;
    SyncState := EmptyString;
    LastCheckedAt := EmptyString;
    LastSyncAttemptedAt := EmptyString;
    ComplianceData := None;
    WinAvServicesMatchList := None;
    Region := EmptyString;
  |}.

Definition with_UUID (v : string) (d : DataStore) : DataStore :=
  {| UUID := v; AppVersion := AppVersion d; AccessToken := AccessToken d;
     User_ := User_ d; SyncState := SyncState d;
     LastCheckedAt := LastCheckedAt d;
     LastSyncAttemptedAt := LastSyncAttemptedAt d;
     ComplianceData := ComplianceData d;
     WinAvServicesMatchList := WinAvServicesMatchList d;
     Region := Region d |}.

Definition with_AppVersion (v : string) (d : DataStore) : DataStore :=
  {| UUID := UUID d; AppVersion := v; AccessToken := AccessToken d;
     User_ := User_ d; SyncState := SyncState d;
     LastCheckedAt := LastCheckedAt d;
     LastSyncAttemptedAt := LastSyncAttemptedAt d;
     ComplianceData := ComplianceData d;
     WinAvServicesMatchList := WinAvServicesMatchList d;
     Region := Region d |}.

Definition with_AccessToken (v : string) (d : DataStore) : DataStore :=
  {| UUID := UUID d; AppVersion := AppVersion d; AccessToken := v;
     User_ := User_ d; SyncState := SyncState d;
     LastCheckedAt := LastCheckedAt d;
     LastSyncAttemptedAt := LastSyncAttemptedAt d;
     ComplianceData := ComplianceData d;
     WinAvServicesMatchList := WinAvServicesMatchList d;
     Region := Region d |}.

Definition with_User (v : option User) (d : DataStore) : DataStore :=
  {| UUID := UUID d; AppVersion := AppVersion d; AccessToken := AccessToken d;
     User_ := v; SyncState := SyncState d;
     LastCheckedAt := LastCheckedAt d;
     LastSyncAttemptedAt := LastSyncAttemptedAt d;
     ComplianceData := ComplianceData d;
     WinAvServicesMatchList := WinAvServicesMatchList d;
     Region := Region d |}.

Definition with_SyncState (v : string) (d : DataStore) : DataStore :=
  {| UUID := UUID d; AppVersion := AppVersion d; AccessToken := AccessToken d;
     User_ := User_ d; SyncState := v;
     LastCheckedAt := LastCheckedAt d;
     LastSyncAttemptedAt := LastSyncAttemptedAt d;
     ComplianceData := ComplianceData d;
     WinAvServicesMatchList := WinAvServicesMatchList d;
     Region := Region d |}.

Definition with_LastCheckedAt (v : string) (d : DataStore) : DataStore :=
  {| UUID := UUID d; AppVersion := AppVersion d; AccessToken := AccessToken d;
     User_ := User_ d; SyncState := SyncState d;
     LastCheckedAt := v;
     LastSyncAttemptedAt := LastSyncAttemptedAt d;
     ComplianceData := ComplianceData d;
     WinAvServicesMatchList := WinAvServicesMatchList d;
     Region := Region d |}.

Definition with_LastSyncAttemptedAt (v : string) (d : DataStore) : DataStore :=
  {| UUID := UUID d; AppVersion := AppVersion d; AccessToken := AccessToken d;
     User_ := User_ d; SyncState := SyncState d;
     LastCheckedAt := LastCheckedAt d;
     LastSyncAttemptedAt := v;
     ComplianceData := ComplianceData d;
     WinAvServicesMatchList := WinAvServicesMatchList d;
     Region := Region d |}.

Definition with_ComplianceData (v : option Dyn) (d : DataStore)
  : DataStore :=
  {| UUID := UUID d; AppVersion := AppVersion d; AccessToken := AccessToken d;
     User_ := User_ d; SyncState := SyncState d;
     LastCheckedAt := LastCheckedAt d;
     LastSyncAttemptedAt := LastSyncAttemptedAt d;
     ComplianceData := v;
     WinAvServicesMatchList := WinAvServicesMatchList d;
     Region := Region d |}.

Definition with_WinAvServicesMatchList (v : option (list string))
  (d : DataStore) : DataStore :=
  {| UUID := UUID d; AppVersion := AppVersion d; AccessToken := AccessToken d;
     User_ := User_ d; SyncState := SyncState d;
     LastCheckedAt := LastCheckedAt d;
     LastSyncAttemptedAt := LastSyncAttemptedAt d;
     ComplianceData := ComplianceData d;
     WinAvServicesMatchList := v;
     Region := Region d |}.

Definition with_Region (v : string) (d : DataStore) : DataStore :=
  {| UUID := UUID d; AppVersion := AppVersion d; AccessToken := AccessToken d;
     User_ := User_ d; SyncState := SyncState d;
     LastCheckedAt := LastCheckedAt d;
     LastSyncAttemptedAt := LastSyncAttemptedAt d;
     ComplianceData := ComplianceData d;
     WinAvServicesMatchList := WinAvServicesMatchList d;
     Region := v |}.

(** The store object and the file behind it: the in-memory document, the
    document last written with success, and the number of writes tried. *)
Record Store := {
    mem : DataStore;
    disk : DataStore;
    writes : nat;
  }.

Inductive Event :=
  | EvWrite (doc : DataStore)
  | EvWriteFailed
  | EvRequest (method url bearer correlation : string)
  | EvProbe (call : Call)
  | EvPrint (line : string)
  | EvLog (line : string).

(** A probe run inside a stateful computation leaves the store alone. *)
Definition lift {S A} (m : W A) : M S Event A :=
  fun s => (Ok m.1, s, EvProbe <$> m.2).

(** Package [time] as the store uses it: [time.Parse(time.RFC3339, s)],
    [int(time.Since(t).Minutes())], [int(time.Since(t).Hours())] and
    [time.Now().UTC().Format(time.RFC3339)]. [Instant] is [time.Time]. *)
Record Clock := {
    Instant : Type;
    parseRFC3339 : string -> option Instant;
    minutesSince : Instant -> Z;
    hoursSince : Instant -> Z;
    nowRFC3339 : string;
  }.

Section Store.
(** [writeFile n] is the error of the [n]-th [os.WriteFile], if any. *)
Variable writeFile : nat -> option error.
Variable clock : Clock.

(** [save]: serialise the whole document and write it. *)
Definition save : M Store Event unit :=
  fun s =>
    match writeFile (writes s) with
    | None =>
      (Ok tt, {| mem := mem s; disk := mem s; writes := S (writes s) |},
       [EvWrite (mem s)])
    | Some e =>
      (Err e, {| mem := mem s; disk := disk s; writes := S (writes s) |},
       [EvWriteFailed])
    end.

Definition read {A} (f : DataStore -> A) : M Store Event A :=
  fun s => (Ok (f (mem s)), s, []).

Definition assign (f : DataStore -> DataStore) : M Store Event unit :=
  fun s =>
    (Ok tt, {| mem := f (mem s); disk := disk s; writes := writes s |}, []).

Definition GetAccessToken := read AccessToken.
Definition SetAccessToken (token : string) := assign (with_AccessToken token) ;; save.
Definition GetUser := read User_.
Definition SetUser (user : option User) := assign (with_User user) ;; save.
Definition GetSyncState := read SyncState.
Definition SetSyncState (state : string) := assign (with_SyncState state) ;; save.
Definition GetLastCheckedAt := read LastCheckedAt.
Definition SetLastCheckedAt (timestamp : string) :=
  assign (with_LastCheckedAt timestamp) ;; save.
Definition GetLastSyncAttemptedAt := read LastSyncAttemptedAt.
Definition SetLastSyncAttemptedAt (timestamp : string) :=
  assign (with_LastSyncAttemptedAt timestamp) ;; save.
Definition GetRegion := read Region.
Definition SetRegion (region : string) := assign (with_Region region) ;; save.
Definition GetUUID := read UUID.
Definition SetUUID (uuid : string) := assign (with_UUID uuid) ;; save.
Definition GetAppVersion := read AppVersion.
Definition SetAppVersion (version : string) := assign (with_AppVersion version) ;; save.
Definition GetWinAvServicesMatchList := read WinAvServicesMatchList.
Definition SetWinAvServicesMatchList (l : option (list string)) :=
  assign (with_WinAvServicesMatchList l) ;; save.

Definition IsRegistered : M Store Event bool :=
  read (fun d => negb (str_eqb (AccessToken d) EmptyString)).

Definition IsInitDataReady : M Store Event bool :=
  read (fun d => bool_decide (is_Some (WinAvServicesMatchList d))).

Definition Clear : M Store Event unit := assign (fun _ => empty) ;; save.

(** [Update]: each entry assigns its field when the dynamic type of the
    value is the field's; the whole document is then written once. *)
Definition apply_update (kv : string * Dyn) (d : DataStore) : DataStore :=
  let '(key, value) := kv in
  if str_eqb key "uuid" then
    match value with DString v => with_UUID v d | _ => d end
  else if str_eqb key "appVersion" then
    match value with DString v => with_AppVersion v d | _ => d end
  else if str_eqb key "accessToken" then
    match value with DString v => with_AccessToken v d | _ => d end
  else if str_eqb key "syncState" then
    match value with DSyncState v => with_SyncState v d | _ => d end
  else if str_eqb key "lastCheckedAt" then
    match value with DString v => with_LastCheckedAt v d | _ => d end
  else if str_eqb key "lastSyncAttemptedAt" then
    match value with DString v => with_LastSyncAttemptedAt v d | _ => d end
  else if str_eqb key "complianceData" then
    with_ComplianceData (Some value) d
  else if str_eqb key "winAvServicesMatchList" then
    match value with DStrings v => with_WinAvServicesMatchList v d | _ => d end
  else if str_eqb key "region" then
    match value with DRegion v => with_Region v d | _ => d end
  else if str_eqb key "user" then
    match value with DUser v => with_User v d | _ => d end
  else d.

Definition Update (updates : gmap string Dyn) : M Store Event unit :=
  assign (fun d => foldr apply_update d (map_to_list updates)) ;; save.

Definition MinutesSinceLastAttempt : M Store Event Z :=
  read (fun d =>
    if str_eqb (LastSyncAttemptedAt d) EmptyString then (-1)%Z
    else match parseRFC3339 clock (LastSyncAttemptedAt d) with
         | None => (-1)%Z
         | Some lastAttempt => minutesSince clock lastAttempt
         end).

Definition HoursSinceLastSuccess : M Store Event Z :=
  read (fun d =>
    if str_eqb (LastCheckedAt d) EmptyString then (-1)%Z
    else match parseRFC3339 clock (LastCheckedAt d) with
         | None => (-1)%Z
         | Some lastSuccess => hoursSince clock lastSuccess
         end).
End Store.

End Datastore.

(** ** Package osquery *)

Module Osquery.

Import Datastore.

Definition PlatformMacOS : string := "MACOS".
Definition PlatformWindows : string := "WINDOWS".
Definition PlatformLinux : string := "LINUX".

Definition Row := gmap string Value.

Record QueryResult := {
    DrataAgentVersion : string;
    Platform : string;
    ManualRun : bool;
    RawQueryResults : gmap string Value;
  }.

Definition with_ManualRun (b : bool) (q : QueryResult) : QueryResult :=
  {| DrataAgentVersion := DrataAgentVersion q; Platform := Platform q;
     ManualRun := b; RawQueryResults := RawQueryResults q |}.

Record AgentDeviceIdentifiers := {
    HardwareSerial : string;
    BoardSerial : string;
    Mac : string;
  }.

Record Client := {
    binaryPath : string;
    platform : string;
    verbose : bool;
  }.

(** What [cmd.Output()] returns: the standard output, an [*exec.ExitError]
    with its standard error, or another error. *)
Inductive Output :=
  | Stdout (out : string)
  | ExitError (stderr : string)
  | ExecError (e : error).

(** The machine the agent runs on. [Stat p] holds when [os.Stat(p)] returns
    no error; [Exec name args] is the outcome of running a program;
    [Unmarshal] is [json.Unmarshal] into [[]map[string]interface{}] ([None]
    for a nil slice); [Join] is [filepath.Join]. The macOS and Windows
    collectors never return an error and are taken whole. *)
Record Host := {
    GOOS : string;
    Getenv : string -> string;
    Stat : string -> bool;
    IsDir : string -> bool;
    LookPath : string -> result string;
    Join : list string -> string;
    Exec : string -> list string -> Output;
    Unmarshal : string -> result (option (list Row));
    Unicode : UnicodeTables;
    getMacOSSystemInfo : string -> W QueryResult;
    getWindowsSystemInfo : string -> W QueryResult;
    getMacOSDeviceIdentifiers : W AgentDeviceIdentifiers;
    getWindowsDeviceIdentifiers : W AgentDeviceIdentifiers;
  }.

Definition rowsValue (rows : option (list Row)) : Value :=
  match rows with
  | None => VNil
  | Some l => VList (VMap <$> l)
  end.

(** [result[key]] on a row: the nil interface when the key is missing. *)
Definition field (row : Row) (key : string) : Value :=
  default VNil (row !! key).

(** [err == nil] and [err == nil && output != ""] for a command. *)
Definition succeeded (r : result string) : option string :=
  match r with Ok output => Some output | Err _ => None end.

Definition nonEmpty (r : result string) : option string :=
  match r with
  | Ok output => if str_eqb output EmptyString then None else Some output
  | Err _ => None
  end.

Section Client.
Variable h : Host.

Definition detectPlatform : result string :=
  if str_eqb (GOOS h) "darwin" then Ok PlatformMacOS
  else if str_eqb (GOOS h) "windows" then Ok PlatformWindows
  else if str_eqb (GOOS h) "linux" then Ok PlatformLinux
  else Err ("unsupported platform: " +:+ GOOS h).

Definition fileExists (path : string) : bool :=
  Stat h path && negb (IsDir h path).

Definition findOsqueryBinary : result string :=
  let binaryName :=
    if str_eqb (GOOS h) "windows" then "osqueryi.exe" else "osqueryi" in
  let home := Getenv h "HOME" in
  let searchPaths :=
    (if str_eqb home EmptyString then []
     else [Join h [home; ".local"; "bin"; "osqueryi"];
           Join h [home; ".local"; "lib"; "drata-agent"; "bin"; "osqueryi"]])
    ++ ["/app/bin/osqueryi"; "/app/lib/drata-agent/bin/osqueryi"]
    ++ ["/usr/local/bin/osqueryi"; "/usr/bin/osqueryi";
        "/opt/osquery/bin/osqueryi"; "/usr/lib/drata-agent/bin/osqueryi";
        "/usr/lib64/drata-agent/bin/osqueryi";
        "C:\Program Files\osquery\osqueryi.exe";
        "C:\ProgramData\osquery\osqueryi.exe"] in
  match LookPath h binaryName with
  | Ok path => Ok path
  | Err _ =>
    match List.find fileExists searchPaths with
    | Some path => Ok path
    | None => Err (binaryName +:+ " not found in PATH or common locations")
    end
  end.

Definition NewClientWithVerbose (binaryPath : string) (verbose : bool)
  : result Client :=
  match detectPlatform with
  | Err e => Err e
  | Ok platform =>
    if str_eqb binaryPath EmptyString then
      match findOsqueryBinary with
      | Err e => Err ("osquery binary not found: " +:+ e)
      | Ok found =>
        Ok {| binaryPath := found; platform := platform; verbose := verbose |}
      end
    else
      Ok {| binaryPath := binaryPath; platform := platform; verbose := verbose |}
  end.

Definition NewClient (binaryPath : string) : result Client :=
  NewClientWithVerbose binaryPath false.

Variable c : Client.

(** [RunQuery]: one run of the osquery binary. The verbose log lines go
    to the terminal only and are left out. *)
Definition RunQuery (query : string) : W (result (option (list Row))) :=
  (match Exec h (binaryPath c) ["--json"; query] with
   | ExitError stderr => Err ("osquery error: " +:+ stderr)
   | ExecError e => Err e
   | Stdout output =>
     match Unmarshal h output with
     | Err e => Err ("failed to parse osquery output: " +:+ e)
     | Ok rows => Ok rows
     end
   end, [Query query]).

(** [RunCommand]: one run of the platform shell on [command]. *)
Definition RunCommand (command : string) : W (result string) :=
  (match
     (if str_eqb (platform c) PlatformWindows
      then Exec h "cmd" ["/c"; "cmd /c chcp 65001>nul && " +:+ command]
      else Exec h "sh" ["-c"; command])
   with
   | ExitError stderr => Err ("command error: " +:+ stderr)
   | ExecError e => Err e
   | Stdout output => Ok (TrimSpace output)
   end, [Command command]).

(** [queryFirst]: the first row, or nil without error when there is none. *)
Definition queryFirst (query : string) : W (result (option Row)) :=
  (r ← RunQuery query;
   wret match r with
        | Err e => Err e
        | Ok rows =>
          match rows with
          | Some (first :: _) => Ok (Some first)
          | _ => Ok None
          end
        end)%probe.

(** [err == nil && result != nil] for [queryFirst]. *)
Definition found (r : result (option Row)) : option Row :=
  match r with Ok (Some row) => Some row | _ => None end.

Definition isRPMBasedDistro : bool :=
  if Stat h "/etc/redhat-release" then true
  else if Stat h "/etc/fedora-release" then true
  else if Stat h "/usr/bin/dnf" then true
  else if Stat h "/usr/bin/yum" then true
  else false.

Definition isValidSessionUser (user : string) : bool :=
  if str_eqb user EmptyString || str_eqb user "root" then false
  else forallb (fun r => IsLetter (Unicode h) r || IsDigit (Unicode h) r
                         || (r =? 45)%Z || (r =? 95)%Z) (runes user).

(** The loop of [getDesktopSessionUser] over the environment hints. *)
Fixpoint firstValid (candidates : list string) : option string :=
  match candidates with
  | [] => None
  | candidate :: rest =>
    let candidate := TrimSpace candidate in
    if isValidSessionUser candidate then Some candidate else firstValid rest
  end.

Definition getDesktopSessionUser : W string :=
  let candidates :=
    [Getenv h "SUDO_USER"; Getenv h "LOGNAME"; Getenv h "USER"] in
  match firstValid candidates with
  | Some candidate => wret candidate
  | None =>
    (r ← RunCommand "logname";
     wret match r with
          | Ok output =>
            let candidate := TrimSpace output in
            if isValidSessionUser candidate then candidate else EmptyString
          | Err _ => EmptyString
          end)%probe
  end.

Definition runGsettingsCommand (args : string) : W (result string) :=
  (let baseCmd := "gsettings " +:+ args in
   user ← getDesktopSessionUser;
   if str_eqb user EmptyString then RunCommand baseCmd
   else
     let userCmd :=
       "uid=$(id -u " +:+ user +:+ ") && sudo -u " +:+ user
       +:+ " env XDG_RUNTIME_DIR=/run/user/$uid DBUS_SESSION_BUS_ADDRESS=unix:path=/run/user/$uid/bus "
       +:+ baseCmd in
     r ← RunCommand userCmd;
     match r with
     | Ok output => wret (Ok output)
     | Err _ => RunCommand baseCmd
     end)%probe.

Definition parseGsettingsUint (output : string) : result Z :=
  let value := TrimSpace output in
  if str_eqb value EmptyString then Err "empty gsettings output"
  else
    match last (Fields value) with
    | None => Err ("invalid gsettings output: " +:+ output)
    | Some tok => Atoi tok
    end.
End Client.

End Osquery.

(** ** Package osquery, Linux collector

    [getLinuxSystemInfo] fills [rawResults] one fact after the other; each
    fact below is one stretch of the function, named after its comment in the
    source, and takes the map built so far. *)

Module Linux.

Import Datastore Osquery.

Section Collector.
Variable h : Host.
Variable c : Client.

#[local] Abbreviation RunCommand := (RunCommand h c).
#[local] Abbreviation RunQuery := (RunQuery h c).
#[local] Abbreviation queryFirst := (queryFirst h c).
#[local] Abbreviation runGsettingsCommand := (runGsettingsCommand h c).

Definition installed (output : string) : Value :=
  VMap {[ "installed" := VBool true; "version" := VStr output ]}.

Definition osVersion (rawResults : gmap string Value) : W (gmap string Value) :=
  (r ← queryFirst "SELECT name, version, platform FROM os_version";
   wret match found r with
        | Some result => <["osVersion" := VMap result]> rawResults
        | None => rawResults
        end)%probe.

Definition hardwareSerial (rawResults : gmap string Value) : W (gmap string Value) :=
  (r ← queryFirst "SELECT hardware_serial FROM system_info";
   wret match found r with
        | Some result => <["hwSerial" := VMap result]> rawResults
        | None => rawResults
        end)%probe.

Definition hardwareModel (rawResults : gmap string Value) : W (gmap string Value) :=
  (r ← queryFirst "SELECT hardware_model FROM system_info";
   wret match found r with
        | Some result => <["hwModel" := VMap result]> rawResults
        | None => rawResults
        end)%probe.

Definition systemInformation (rawResults : gmap string Value)
  : W (gmap string Value) :=
  (r ← queryFirst "SELECT board_serial, board_model, computer_name, hostname, local_hostname FROM system_info";
   wret match found r with
        | Some result =>
          <["localHostName" := field result "local_hostname"]>
          (<["hostName" := field result "hostname"]>
          (<["computerName" := field result "computer_name"]>
          (<["boardModel" := field result "board_model"]>
          (<["boardSerial" := field result "board_serial"]> rawResults))))
        | None => rawResults
        end)%probe.

Definition firewallStatus (rawResults : gmap string Value)
  : W (gmap string Value) :=
  (if isRPMBasedDistro h then
     r ← RunCommand "systemctl is-active firewalld";
     wret match succeeded r with
          | Some output =>
            <["firewallStatus" :=
                VMap {[ "passed" := VBool (str_eqb output "active");
                        "type" := VStr "firewalld";
                        "status" := VStr output ]}]> rawResults
          | None => rawResults
          end
   else
     r ← queryFirst "SELECT COUNT(*) AS passed FROM augeas WHERE path = '/etc/ufw/ufw.conf' AND label = 'ENABLED' AND value = 'yes'";
     wret match found r with
          | Some result => <["firewallStatus" := VMap result]> rawResults
          | None => rawResults
          end)%probe.

Definition applicationList (rawResults : gmap string Value)
  : W (gmap string Value) :=
  (r ← RunQuery (if isRPMBasedDistro h
                 then "SELECT name, version FROM rpm_packages"
                 else "SELECT name, version FROM deb_packages");
   wret match r with
        | Ok result => <["appList" := rowsValue result]> rawResults
        | Err _ => rawResults
        end)%probe.

(** The package-manager probe of the antivirus check. *)
Definition clamavProbe : string :=
  if isRPMBasedDistro h then "rpm -q clamav"
  else "dpkg -l clamav | grep -E '^ii'".

Definition flatpakScopes : list (string * string) :=
  [("system", "flatpak list --app --system | grep -i clam");
   ("user", "flatpak list --app --user | grep -i clam")].

(** The loop over [flatpakScopes], left at the first scope that answers. *)
Fixpoint flatpakLoop (scopes : list (string * string))
  (antivirusStatus : gmap string Value) : W (gmap string Value) :=
  match scopes with
  | [] => wret antivirusStatus
  | (label, command) :: rest =>
    (r ← RunCommand command;
     match nonEmpty r with
     | Some output =>
       wret (<["passed" := VBool true]>
             (<["flatpak" := VMap {[ "installed" := VBool true;
                                     "scope" := VStr label;
                                     "details" := VStr output ]}]>
                antivirusStatus))
     | None => flatpakLoop rest antivirusStatus
     end)%probe
  end.

Definition antivirusStatus : W (gmap string Value) :=
  (let antivirusStatus : gmap string Value := {[ "passed" := VBool false ]} in
   r ← RunCommand clamavProbe;
   let antivirusStatus :=
     match nonEmpty r with
     | Some output =>
       <["passed" := VBool true]>
       (<["clamav" := installed output]> antivirusStatus)
     | None => antivirusStatus
     end in
   flatpakLoop flatpakScopes antivirusStatus)%probe.

Definition antivirusCheck (rawResults : gmap string Value)
  : W (gmap string Value) :=
  (status ← antivirusStatus;
   wret (<["antivirusStatus" := VMap status]> rawResults))%probe.

(** One browser: the query runs only if the profile directory exists. *)
Definition browserProbe (dir : list string) (query : string)
  (extensions : list Value) : W (list Value) :=
  (if Stat h (Join h dir) then
     r ← RunQuery query;
     wret match r with
          | Ok result => extensions ++ (VMap <$> default [] result)
          | Err _ => extensions
          end
   else wret extensions)%probe.

Definition browserExtensions (rawResults : gmap string Value)
  : W (gmap string Value) :=
  (let homeDir :=
     if str_eqb (Getenv h "HOME") EmptyString then "/root"
     else Getenv h "HOME" in
   extensions ← browserProbe [homeDir; ".mozilla"; "firefox"]
                  "SELECT name FROM firefox_addons" [];
   extensions ← browserProbe [homeDir; ".config"; "google-chrome"]
                  "SELECT name FROM chrome_extensions" extensions;
   wret (<["browserExtensions" := VList extensions]> rawResults))%probe.

Definition macAddress (rawResults : gmap string Value) : W (gmap string Value) :=
  (r ← queryFirst "SELECT mac FROM interface_details WHERE interface in (SELECT DISTINCT interface FROM interface_addresses WHERE interface NOT IN ('lo')) LIMIT 1";
   wret match found r with
        | Some result => <["macAddress" := VMap result]> rawResults
        | None => rawResults
        end)%probe.

(** One diagnostic command: its output, when it ran, goes to the list of
    settings under [key]. *)
Definition diagnostic (key command : string) (settings : list Value)
  : W (list Value) :=
  (r ← RunCommand command;
   wret match succeeded r with
        | Some output => settings ++ [VMap {[ key := VStr output ]}]
        | None => settings
        end)%probe.

Definition rpmDiagnostics (settings : list Value) : W (list Value) :=
  (settings ← diagnostic "autoUpdateService"
     "systemctl is-enabled dnf-automatic.timer || systemctl is-enabled yum-cron" settings;
   settings ← diagnostic "recentUpdates"
     "dnf history list --last 10 || yum history list last 10" settings;
   settings ← diagnostic "autoUpdateConfig"
     "cat /etc/dnf/automatic.conf || cat /etc/yum/yum-cron.conf" settings;
   diagnostic "recentPackages" "rpm -q --last | head -20" settings)%probe.

Definition aptDiagnostics (settings : list Value) : W (list Value) :=
  (settings ← diagnostic "aptConfig"
     "apt-config dump | grep -E '^(APT::Periodic|Unattended-Upgrade)::'" settings;
   settings ← diagnostic "aptDailyStatus"
     "systemctl show apt-daily* --property=NextElapseUSecMonotonic,NextElapseUSecRealtime,Unit,Description,UnitFileState,LastTriggerUSec" settings;
   diagnostic "aptDailyLogs"
     "journalctl --user -u apt-daily.service -u apt-daily-upgrade.service --since -7day -n 10 --no-pager --quiet || journalctl -u apt-daily.service -u apt-daily-upgrade.service --since -7day -n 10 --no-pager --quiet" settings)%probe.

(** The GNOME Software probe: the only one that sets [autoUpdateEnabled]. *)
Definition downloadUpdates : string := "get org.gnome.software download-updates".

Definition autoUpdate (rawResults : gmap string Value) : W (gmap string Value) :=
  (r ← runGsettingsCommand downloadUpdates;
   let '(autoUpdateSettings, rawResults) :=
     match succeeded r with
     | Some output =>
       ([VMap {[ "gnomeSoftwareDownloadUpdates" := VStr output ]}],
        if str_eqb output "true"
        then <["autoUpdateEnabled" := VMap {[ "passed" := VInt 1 ]}]> rawResults
        else rawResults)
     | None => ([], rawResults)
     end in
   autoUpdateSettings ←
     (if isRPMBasedDistro h then rpmDiagnostics autoUpdateSettings
      else aptDiagnostics autoUpdateSettings);
   wret (<["autoUpdateSettings" := VList autoUpdateSettings]> rawResults))%probe.

(** One delay setting: the number of seconds when the output parses, the
    output itself otherwise. *)
Definition delayProbe (args parsedKey rawKey : string) (status : list Value)
  : W (list Value) :=
  (r ← runGsettingsCommand args;
   wret match succeeded r with
        | Some output =>
          match parseGsettingsUint output with
          | Ok seconds => status ++ [VMap {[ parsedKey := VInt seconds ]}]
          | Err _ => status ++ [VMap {[ rawKey := VStr output ]}]
          end
        | None => status
        end)%probe.

Definition screenLockStatus (rawResults : gmap string Value)
  : W (gmap string Value) :=
  (status ← delayProbe "get org.gnome.desktop.session idle-delay"
              "idleDelaySeconds" "idleDelay" [];
   status ← delayProbe "get org.gnome.desktop.screensaver lock-delay"
              "lockDelaySeconds" "lockDelay" status;
   wret (<["screenLockStatus" := VList status]> rawResults))%probe.

Definition locationServices (rawResults : gmap string Value)
  : W (gmap string Value) :=
  (r ← runGsettingsCommand "get org.gnome.system.location enabled";
   let services : gmap string Value :=
     match succeeded r with
     | Some output => {[ "gnomeLocation" := VStr output ]}
     | None => ∅
     end in
   wret (<["locationServices" := VMap services]> rawResults))%probe.

Definition settingProbe (args key : string) (settings : gmap string Value)
  : W (gmap string Value) :=
  (r ← runGsettingsCommand args;
   wret match nonEmpty r with
        | Some output => <[key := VStr output]> settings
        | None => settings
        end)%probe.

Definition screenLockSettings (rawResults : gmap string Value)
  : W (gmap string Value) :=
  (settings ← settingProbe "list-recursively org.gnome.settings-daemon.plugins.power"
                "powerSettings" ∅;
   settings ← settingProbe "list-recursively org.gnome.desktop.screensaver"
                "screenSettings" settings;
   settings ← settingProbe "list-recursively org.gnome.desktop.session"
                "sessionSettings" settings;
   wret (<["screenLockSettings" := VMap settings]> rawResults))%probe.

Definition collect : W (gmap string Value) :=
  (rawResults ← osVersion ∅;
   rawResults ← hardwareSerial rawResults;
   rawResults ← hardwareModel rawResults;
   rawResults ← systemInformation rawResults;
   rawResults ← firewallStatus rawResults;
   rawResults ← applicationList rawResults;
   rawResults ← antivirusCheck rawResults;
   rawResults ← browserExtensions rawResults;
   rawResults ← macAddress rawResults;
   rawResults ← autoUpdate rawResults;
   rawResults ← screenLockStatus rawResults;
   rawResults ← locationServices rawResults;
   screenLockSettings rawResults)%probe.

Definition getLinuxSystemInfo (version : string) : W (result QueryResult) :=
  (rawResults ← collect;
   wret (Ok {| DrataAgentVersion := version;
               Platform := PlatformLinux;
               ManualRun := false;
               RawQueryResults := rawResults |}))%probe.

Definition stringOf (v : Value) : option string :=
  match v with VStr s => Some s | _ => None end.

Definition getLinuxDeviceIdentifiers : W (result AgentDeviceIdentifiers) :=
  (r ← queryFirst "SELECT hardware_serial, board_serial FROM system_info";
   let '(hw, board) :=
     match found r with
     | Some result =>
       (default EmptyString (stringOf (field result "hardware_serial")),
        default EmptyString (stringOf (field result "board_serial")))
     | None => (EmptyString, EmptyString)
     end in
   r ← queryFirst "SELECT mac FROM interface_details WHERE interface in (SELECT DISTINCT interface FROM interface_addresses WHERE interface NOT IN ('lo')) LIMIT 1";
   let mac :=
     match found r with
     | Some result => default EmptyString (stringOf (field result "mac"))
     | None => EmptyString
     end in
   wret (Ok {| HardwareSerial := hw; BoardSerial := board; Mac := mac |}))%probe.
End Collector.

End Linux.

(** ** Package osquery, Linux collector, variant without session lookup

    The other copy of [linux.go] in the repository: the same function up to
    the application list, then an antivirus check that also asks for clamtk,
    one unscoped flatpak probe, gsettings run as the current user, and an
    auto-update check that depends on the distribution family. *)

Module LinuxPlain.

Import Datastore Osquery.

Section Collector.
Variable h : Host.
Variable c : Client.

#[local] Abbreviation RunCommand := (RunCommand h c).
#[local] Abbreviation queryFirst := (queryFirst h c).

(** One package-manager probe of the antivirus check. *)
Definition packageProbe (key command : string) (antivirusStatus : gmap string Value)
  : W (gmap string Value) :=
  (r ← RunCommand command;
   wret match nonEmpty r with
        | Some output =>
          <["passed" := VBool true]>
          (<[key := Linux.installed output]> antivirusStatus)
        | None => antivirusStatus
        end)%probe.

Definition clamtkProbe : string :=
  if isRPMBasedDistro h then "rpm -q clamtk"
  else "dpkg -l clamtk | grep -E '^ii'".

Definition clamavProbe : string :=
  if isRPMBasedDistro h then "rpm -q clamav"
  else "dpkg -l clamav | grep -E '^ii'".

Definition flatpakProbe : string := "flatpak list --app | grep -i clam".

Definition antivirusStatus : W (gmap string Value) :=
  (let antivirusStatus : gmap string Value := {[ "passed" := VBool false ]} in
   antivirusStatus ← packageProbe "clamtk" clamtkProbe antivirusStatus;
   antivirusStatus ← packageProbe "clamav" clamavProbe antivirusStatus;
   packageProbe "flatpak" flatpakProbe antivirusStatus)%probe.

Definition antivirusCheck (rawResults : gmap string Value)
  : W (gmap string Value) :=
  (status ← antivirusStatus;
   wret (<["antivirusStatus" := VMap status]> rawResults))%probe.

Definition downloadUpdates : string :=
  "gsettings get org.gnome.software download-updates".

Definition unattendedUpgrades : string :=
  "SELECT COUNT(*) AS passed FROM file WHERE path = '/etc/apt/apt.conf.d/50unattended-upgrades'".

Definition autoUpdateRPM (rawResults : gmap string Value) : W (gmap string Value) :=
  (autoUpdateSettings ← Linux.diagnostic h c "autoUpdateService"
     "systemctl is-enabled dnf-automatic.timer || systemctl is-enabled yum-cron" [];
   r ← RunCommand downloadUpdates;
   let '(autoUpdateSettings, rawResults) :=
     match succeeded r with
     | Some output =>
       (autoUpdateSettings ++ [VMap {[ "gnomeSoftwareDownloadUpdates" := VStr output ]}],
        if str_eqb output "true"
        then <["autoUpdateEnabled" := VMap {[ "passed" := VInt 1 ]}]> rawResults
        else rawResults)
     | None => (autoUpdateSettings, rawResults)
     end in
   autoUpdateSettings ← Linux.diagnostic h c "recentUpdates"
     "dnf history list --last 10 || yum history list last 10" autoUpdateSettings;
   autoUpdateSettings ← Linux.diagnostic h c "autoUpdateConfig"
     "cat /etc/dnf/automatic.conf || cat /etc/yum/yum-cron.conf" autoUpdateSettings;
   autoUpdateSettings ← Linux.diagnostic h c "recentPackages"
     "rpm -q --last | head -20" autoUpdateSettings;
   wret (<["autoUpdateSettings" := VList autoUpdateSettings]> rawResults))%probe.

Definition autoUpdateDebian (rawResults : gmap string Value) : W (gmap string Value) :=
  (r ← queryFirst unattendedUpgrades;
   let rawResults :=
     match found r with
     | Some result => <["autoUpdateEnabled" := VMap result]> rawResults
     | None => rawResults
     end in
   autoUpdateSettings ← Linux.aptDiagnostics h c [];
   wret (<["autoUpdateSettings" := VList autoUpdateSettings]> rawResults))%probe.

Definition autoUpdate (rawResults : gmap string Value) : W (gmap string Value) :=
  if isRPMBasedDistro h then autoUpdateRPM rawResults
  else autoUpdateDebian rawResults.

Definition screenLockStatus (rawResults : gmap string Value)
  : W (gmap string Value) :=
  (status ← Linux.diagnostic h c "idleDelay"
              "gsettings get org.gnome.desktop.session idle-delay" [];
   wret (<["screenLockStatus" := VList status]> rawResults))%probe.

Definition locationServices (rawResults : gmap string Value)
  : W (gmap string Value) :=
  (r ← RunCommand "gsettings get org.gnome.system.location enabled";
   let services : gmap string Value :=
     match succeeded r with
     | Some output => {[ "gnomeLocation" := VStr output ]}
     | None => ∅
     end in
   wret (<["locationServices" := VMap services]> rawResults))%probe.

Definition settingProbe (command key : string) (settings : gmap string Value)
  : W (gmap string Value) :=
  (r ← RunCommand command;
   wret match nonEmpty r with
        | Some output => <[key := VStr output]> settings
        | None => settings
        end)%probe.

Definition screenLockSettings (rawResults : gmap string Value)
  : W (gmap string Value) :=
  (settings ← settingProbe "gsettings list-recursively org.gnome.settings-daemon.plugins.power"
                "powerSettings" ∅;
   settings ← settingProbe "gsettings list-recursively org.gnome.desktop.screensaver"
                "screenSettings" settings;
   settings ← settingProbe "gsettings list-recursively org.gnome.desktop.session"
                "sessionSettings" settings;
   wret (<["screenLockSettings" := VMap settings]> rawResults))%probe.

Definition collect : W (gmap string Value) :=
  (rawResults ← Linux.osVersion h c ∅;
   rawResults ← Linux.hardwareSerial h c rawResults;
   rawResults ← Linux.hardwareModel h c rawResults;
   rawResults ← Linux.systemInformation h c rawResults;
   rawResults ← Linux.firewallStatus h c rawResults;
   rawResults ← Linux.applicationList h c rawResults;
   rawResults ← antivirusCheck rawResults;
   rawResults ← Linux.browserExtensions h c rawResults;
   rawResults ← Linux.macAddress h c rawResults;
   rawResults ← autoUpdate rawResults;
   rawResults ← screenLockStatus rawResults;
   rawResults ← locationServices rawResults;
   screenLockSettings rawResults)%probe.

Definition getLinuxSystemInfo (version : string) : W (result QueryResult) :=
  (rawResults ← collect;
   wret (Ok {| DrataAgentVersion := version;
               Platform := PlatformLinux;
               ManualRun := false;
               RawQueryResults := rawResults |}))%probe.
End Collector.

End LinuxPlain.

(** ** Package osquery: dispatch on the platform *)

Module Collector.

Import Datastore Osquery.

Section Dispatch.
Variable h : Host.
Variable c : Client.

Definition GetSystemInfo (version : string) : W (result QueryResult) :=
  if str_eqb (platform c) PlatformMacOS then
    (q ← getMacOSSystemInfo h version; wret (Ok q))%probe
  else if str_eqb (platform c) PlatformWindows then
    (q ← getWindowsSystemInfo h version; wret (Ok q))%probe
  else if str_eqb (platform c) PlatformLinux then
    Linux.getLinuxSystemInfo h c version
  else wret (Err ("unsupported platform: " +:+ platform c)).

Definition GetAgentDeviceIdentifiers : W (result AgentDeviceIdentifiers) :=
  if str_eqb (platform c) PlatformMacOS then
    (i ← getMacOSDeviceIdentifiers h; wret (Ok i))%probe
  else if str_eqb (platform c) PlatformWindows then
    (i ← getWindowsDeviceIdentifiers h; wret (Ok i))%probe
  else if str_eqb (platform c) PlatformLinux then
    Linux.getLinuxDeviceIdentifiers h c
  else wret (Err ("unsupported platform: " +:+ platform c)).
End Dispatch.

End Collector.

(** ** Package api: the client *)

Module Api.

Import Config Datastore Osquery Wire.

(** The backend and the transport as the client meets them: what
    [httpClient.Do] returns for each request of the agent, and the error of
    [http.NewRequest] for a URL it refuses. *)
Record Backend := {
  newRequestError : string -> string -> option error;
  postMagicLink : string -> result (Response AuthResponse);
  getUsersMe : result (Response MeResponse);
  postRegister : AgentDeviceIdentifiers -> result (Response AgentV2Response);
  postSync : QueryResult -> result (Response SyncResponse);
  getInit : result (Response InitDataResponse);
}.

Definition StatusOK : Z := 200.
Definition StatusCreated : Z := 201.
Definition StatusUnauthorized : Z := 401.

Section Client.
Variable writeFile : nat -> option error.
Variable clock : Clock.
Variable backend : Backend.
Variable cfg : Config.

(** [doRequest]: the base URL comes from the region of the store, or of the
    configuration when the store has none; the correlation and bearer headers
    are set when the store has a UUID and an access token. [reply] is what
    the transport returns for this request. *)
Definition doRequest {A} (method path : string) (reply : result (Response A))
  : M Store Event (Response A) :=
  region ← GetRegion;
  let region := if str_eqb region EmptyString then Config.Region cfg else region in
  let url := APIHostURL (TargetEnv cfg) region +:+ path in
  match newRequestError backend method url with
  | Some e => throw ("failed to create request: " +:+ e)
  | None =>
    uuid ← GetUUID;
    accessToken ← GetAccessToken;
    emit (EvRequest method url accessToken uuid) ;;
    match reply with
    | Ok resp => ret resp
    | Err e => throw e
    end
  end.

Definition handleErrorResponse {A} (resp : Response A) : error :=
  match asError resp with
  | None =>
    "API error (status " +:+ fmt_d (StatusCode resp) +:+ "): " +:+ body resp
  | Some errResp =>
    if str_eqb (Code errResp) "MAGIC_TOKEN_NOT_FOUND" then
      "magic token not found or expired. Please request a new registration link"
    else if str_eqb (Code errResp) "REFRESH_TOKEN_NOT_FOUND" then
      "refresh token not found. Please register the agent"
    else if str_eqb (Code errResp) "TOKEN_EXPIRED" then
      "authorization has expired. Please register the agent again"
    else if str_eqb (Code errResp) "ACCOUNT_PENDING" then
      "account configuration is being completed. Please try again in a few minutes"
    else if str_eqb (Code errResp) "ACCOUNT_MAINTENANCE" then
      "Drata is under maintenance. Please try again in a few minutes"
    else if str_eqb (Code errResp) "ACCOUNT_ADMIN_DISABLED"
            || str_eqb (Code errResp) "ACCOUNT_NON_PAYMENT" then
      "your company's account is disabled. Please contact your system administrator"
    else if str_eqb (Code errResp) "ACCOUNT_USER_DELETED" then
      "your user account was deleted. Please contact your system administrator"
    else if (StatusCode resp =? StatusUnauthorized)%Z then
      "unauthorized: please register the agent or check your credentials"
    else if negb (str_eqb (Message errResp) EmptyString) then
      if negb (str_eqb (SecondaryMessage errResp) EmptyString)
      then Message errResp +:+ ": " +:+ SecondaryMessage errResp
      else Message errResp
    else "API error (status " +:+ fmt_d (StatusCode resp) +:+ ")"
  end.

Definition userOf (meResp : MeResponse) : User := {|
  Datastore.ID := Wire.ID meResp;
  Datastore.EntryID := Wire.EntryID meResp;
  Datastore.Email := Wire.Email meResp;
  Datastore.FirstName := Wire.FirstName meResp;
  Datastore.LastName := Wire.LastName meResp;
  Datastore.JobTitle := Wire.JobTitle meResp;
  Datastore.AvatarURL := Wire.AvatarURL meResp;
  Datastore.Roles := Wire.Roles meResp;
  Datastore.DrataTermsAgreedAt := Wire.DrataTermsAgreedAt meResp;
  Datastore.CreatedAt := Wire.CreatedAt meResp;
  Datastore.UpdatedAt := Wire.UpdatedAt meResp;
  Datastore.Signature := Wire.Signature meResp;
  Datastore.Language := Wire.Language meResp;
|}.

Definition GetMe : M Store Event MeResponse :=
  resp ← wrap "failed to get user info"
           (doRequest "GET" "/users/me" (getUsersMe backend));
  if negb (StatusCode resp =? StatusOK)%Z then throw (handleErrorResponse resp)
  else
    match decoded resp with
    | Err e => throw ("failed to decode user response: " +:+ e)
    | Ok meResp =>
      wrap "failed to save user" (SetUser writeFile (Some (userOf meResp))) ;;
      ret meResp
    end.

Definition LoginWithMagicLink (token : string) : M Store Event MeResponse :=
  resp ← wrap "failed to authenticate"
           (doRequest "POST" ("/auth/magic-link/" +:+ token)
              (postMagicLink backend token));
  if negb (StatusCode resp =? StatusOK)%Z
     && negb (StatusCode resp =? StatusCreated)%Z
  then throw (handleErrorResponse resp)
  else
    match decoded resp with
    | Err e => throw ("failed to decode auth response: " +:+ e)
    | Ok authResp =>
      (if negb (str_eqb (Wire.AccessToken authResp) EmptyString)
       then wrap "failed to save access token"
              (SetAccessToken writeFile (Wire.AccessToken authResp))
       else ret tt) ;;
      GetMe
    end.

Definition Register (identifiers : AgentDeviceIdentifiers)
  : M Store Event AgentV2Response :=
  resp ← wrap "failed to register"
           (doRequest "POST" "/agentv2/register" (postRegister backend identifiers));
  if negb (StatusCode resp =? StatusOK)%Z
     && negb (StatusCode resp =? StatusCreated)%Z
  then throw (handleErrorResponse resp)
  else
    match decoded resp with
    | Err e => throw ("failed to decode register response: " +:+ e)
    | Ok agentResp =>
      (if negb (str_eqb (Wire.LastCheckedAt agentResp) EmptyString)
       then wrap "failed to save last checked at"
              (SetLastCheckedAt writeFile (Wire.LastCheckedAt agentResp))
       else ret tt) ;;
      ret agentResp
    end.

Definition Sync (queryResult : QueryResult) : M Store Event SyncResponse :=
  resp ← wrap "failed to sync"
           (doRequest "POST" "/agentv2/sync" (postSync backend queryResult));
  if negb (StatusCode resp =? StatusOK)%Z
     && negb (StatusCode resp =? StatusCreated)%Z
  then throw (handleErrorResponse resp)
  else
    match decoded resp with
    | Err e => throw ("failed to decode sync response: " +:+ e)
    | Ok syncResp =>
      let updates : gmap string Dyn :=
        {[ "complianceData" := DSyncResponse syncResp;
           "lastCheckedAt" := DString (Wire.LastCheckedAt (SyncData syncResp)) ]} in
      let updates :=
        if bool_decide (0 < slice_len (SyncWinAvServicesMatchList syncResp))
        then <["winAvServicesMatchList" :=
                 DStrings (SyncWinAvServicesMatchList syncResp)]> updates
        else updates in
      wrap "failed to update datastore" (Update writeFile updates) ;;
      ret syncResp
    end.

Definition GetInitData : M Store Event InitDataResponse :=
  resp ← wrap "failed to get init data"
           (doRequest "GET" "/agentv2/init" (getInit backend));
  if negb (StatusCode resp =? StatusOK)%Z then throw (handleErrorResponse resp)
  else
    match decoded resp with
    | Err e => throw ("failed to decode init response: " +:+ e)
    | Ok initResp =>
      (if bool_decide (0 < slice_len (InitWinAvServicesMatchList initResp))
       then wrap "failed to save init data"
              (SetWinAvServicesMatchList writeFile
                 (InitWinAvServicesMatchList initResp))
       else ret tt) ;;
      ret initResp
    end.
End Client.

End Api.

(** ** Package cmd: sync, daemon, register

    Every command starts by loading the configuration and opening the store,
    and returns at once when either fails. The functions below start from the
    loaded configuration [cfg] and the opened store. *)

Module Cmd.

Import Config Datastore Osquery Wire.

Section Commands.
Variable writeFile : nat -> option error.
Variable clock : Clock.
Variable h : Host.
Variable backend : Api.Backend.
(** [uuid.New().String()]. *)
Variable newUUID : string.

#[local] Abbreviation SetSyncState := (SetSyncState writeFile).
#[local] Abbreviation SetLastSyncAttemptedAt := (SetLastSyncAttemptedAt writeFile).
#[local] Abbreviation MinutesSinceLastAttempt := (MinutesSinceLastAttempt clock).
#[local] Abbreviation HoursSinceLastSuccess := (HoursSinceLastSuccess clock).

Definition Println (line : string) : M Store Event unit := emit (EvPrint line).
Definition logPrintln (line : string) : M Store Event unit := emit (EvLog line).

(** The check mark printed after a sync ([sync.go] holds it in UTF-8; the
    daemon's file holds the same mark encoded a second time). *)
Definition checkMark : string := "✓".

(** [runSync], in an error branch: the store is set to [ERROR] and a warning
    is printed when that write fails. *)
Definition markError : M Store Event unit :=
  r ← try (SetSyncState SyncStateError);
  match r with
  | Err e => Println ("Warning: failed to update sync state: " +:+ e)
  | Ok _ => ret tt
  end.

(** [runSync] once the throttle lets the call through: from the creation of
    the osquery client to the end of the function. *)
Definition runSyncPipeline (cfg : Config) (forceSync verboseSync : bool)
  : M Store Event unit :=
  osq ← wrap "failed to initialize osquery"
          (fun s => (NewClientWithVerbose h (OsqueryPath cfg) verboseSync, s, []));
  (if verboseSync then
     Println "Verbose mode enabled" ;;
     Println ("Platform: " +:+ platform osq) ;;
     Println ("Agent version: " +:+ Version cfg)
   else ret tt) ;;
  wrap "failed to update sync state" (SetSyncState SyncStateRunning) ;;
  wrap "failed to update last sync attempted"
    (SetLastSyncAttemptedAt (nowRFC3339 clock)) ;;
  Println "Syncing system information with Drata..." ;;
  ready ← IsInitDataReady;
  (if negb ready then
     Println "Fetching initialization data..." ;;
     r ← try (Api.GetInitData writeFile backend cfg);
     match r with
     | Err e => markError ;; throw ("failed to get initialization data: " +:+ e)
     | Ok _ => ret tt
     end
   else ret tt) ;;
  Println "Collecting system information..." ;;
  r ← lift (Collector.GetSystemInfo h osq (Version cfg));
  match r with
  | Err e => markError ;; throw ("failed to collect system information: " +:+ e)
  | Ok queryResult =>
    let queryResult := with_ManualRun forceSync queryResult in
    Println "Sending data to Drata..." ;;
    r ← try (Api.Sync writeFile backend cfg queryResult);
    match r with
    | Err e => markError ;; throw ("failed to sync: " +:+ e)
    | Ok _ =>
      wrap "failed to update sync state" (SetSyncState SyncStateSuccess) ;;
      Println (checkMark +:+ " Sync completed successfully!") ;;
      lastChecked ← GetLastCheckedAt;
      if negb (str_eqb lastChecked EmptyString)
      then Println ("Last successful sync: " +:+ lastChecked)
      else ret tt
    end
  end.

(** [runSync]: the registration check and the throttle, which [--force]
    skips as a whole, then the pipeline. *)
Definition runSync (cfg : Config) (forceSync verboseSync : bool)
  : M Store Event unit :=
  registered ← IsRegistered;
  if negb registered
  then throw "agent is not registered. Use 'drata-agent register' first"
  else if negb forceSync then
    state ← GetSyncState;
    if str_eqb state SyncStateRunning then throw "sync is already in progress"
    else
      minutesSinceLastAttempt ← MinutesSinceLastAttempt;
      if (0 <=? minutesSinceLastAttempt)%Z
         && (minutesSinceLastAttempt <? MinMinutesBetweenSyncs cfg)%Z
      then throw ("sync was attempted " +:+ fmt_d minutesSinceLastAttempt
                  +:+ " minutes ago. Wait "
                  +:+ fmt_d (MinMinutesBetweenSyncs cfg - minutesSinceLastAttempt)
                  +:+ " more minutes or use --force")
      else
        hoursSinceLastSuccess ← HoursSinceLastSuccess;
        if (0 <=? hoursSinceLastSuccess)%Z
           && (hoursSinceLastSuccess <? MinHoursSinceLastSync cfg)%Z
        then
          Println ("Last successful sync was " +:+ fmt_d hoursSinceLastSuccess
                   +:+ " hours ago. Skipping automatic sync.") ;;
          Println "Use --force to sync anyway."
        else runSyncPipeline cfg forceSync verboseSync
  else runSyncPipeline cfg forceSync verboseSync.

(** [performSync] once the throttle lets the call through: from the write of
    [RUNNING] to the end of the function. An error of [SetSyncState] in an
    error branch is dropped. *)
Definition performSyncPipeline (cfg : Config) (osq : Client)
  : M Store Event unit :=
  wrap "failed to update sync state" (SetSyncState SyncStateRunning) ;;
  wrap "failed to update last sync attempted"
    (SetLastSyncAttemptedAt (nowRFC3339 clock)) ;;
  logPrintln "Starting sync..." ;;
  ready ← IsInitDataReady;
  (if negb ready then
     logPrintln "Fetching initialization data..." ;;
     r ← try (Api.GetInitData writeFile backend cfg);
     match r with
     | Err e =>
       try (SetSyncState SyncStateError) ;;
       throw ("failed to get init data: " +:+ e)
     | Ok _ => ret tt
     end
   else ret tt) ;;
  logPrintln "Collecting system information..." ;;
  r ← lift (Collector.GetSystemInfo h osq (Version cfg));
  match r with
  | Err e =>
    try (SetSyncState SyncStateError) ;;
    throw ("failed to collect system info: " +:+ e)
  | Ok queryResult =>
    logPrintln "Sending data to Drata..." ;;
    r ← try (Api.Sync writeFile backend cfg queryResult);
    match r with
    | Err e =>
      try (SetSyncState SyncStateError) ;;
      throw ("failed to sync: " +:+ e)
    | Ok _ =>
      wrap "failed to update sync state" (SetSyncState SyncStateSuccess) ;;
      logPrintln (checkMark +:+ " Sync completed successfully")
    end
  end.

(** [performSync], the action of the daemon; [osq] is the client built when
    the daemon started. *)
Definition performSync (cfg : Config) (osq : Client) : M Store Event unit :=
  state ← GetSyncState;
  if str_eqb state SyncStateRunning
  then logPrintln "Sync already in progress, skipping"
  else
    minutesSinceLastAttempt ← MinutesSinceLastAttempt;
    if (0 <=? minutesSinceLastAttempt)%Z
       && (minutesSinceLastAttempt <? MinMinutesBetweenSyncs cfg)%Z
    then logPrintln ("Last sync attempt was " +:+ fmt_d minutesSinceLastAttempt
                     +:+ " minutes ago, skipping (min: "
                     +:+ fmt_d (MinMinutesBetweenSyncs cfg) +:+ ")")
    else
      hoursSinceLastSuccess ← HoursSinceLastSuccess;
      if (0 <=? hoursSinceLastSuccess)%Z
         && (hoursSinceLastSuccess <? MinHoursSinceLastSync cfg)%Z
      then logPrintln ("Last successful sync was " +:+ fmt_d hoursSinceLastSuccess
                       +:+ " hours ago, skipping (min: "
                       +:+ fmt_d (MinHoursSinceLastSync cfg) +:+ ")")
      else performSyncPipeline cfg osq.

(** [runRegister], from the check of the registration on; [region] is the
    parsed flag and [cfg] already carries it. *)
Definition runRegister (cfg : Config) (token region : string)
  : M Store Event unit :=
  registered ← IsRegistered;
  if registered
  then throw "agent is already registered. Use 'drata-agent unregister' first"
  else
    wrap "failed to set region" (SetRegion writeFile region) ;;
    uuid ← GetUUID;
    (if str_eqb uuid EmptyString
     then wrap "failed to set UUID" (SetUUID writeFile newUUID)
     else ret tt) ;;
    osq ← wrap "failed to initialize osquery"
            (fun s => (NewClient h (OsqueryPath cfg), s, []));
    Println ("Registering agent with Drata (" +:+ region +:+ " region)...") ;;
    user ← wrap "authentication failed"
             (Api.LoginWithMagicLink writeFile backend cfg token);
    Println ("Authenticated as: " +:+ Wire.FirstName user +:+ " "
             +:+ Wire.LastName user +:+ " (" +:+ Wire.Email user +:+ ")") ;;
    r ← lift (Collector.GetAgentDeviceIdentifiers h osq);
    match r with
    | Err e => throw ("failed to get device identifiers: " +:+ e)
    | Ok identifiers =>
      wrap "registration failed" (Api.Register writeFile backend cfg identifiers) ;;
      wrap "failed to set app version" (SetAppVersion writeFile (Version cfg)) ;;
      Println (checkMark +:+ " Agent registered successfully!") ;;
      Println EmptyString ;;
      Println "You can now run 'drata-agent sync' to sync your system information." ;;
      Println "To run periodic syncs, use 'drata-agent daemon'."
    end.
End Commands.

End Cmd.

(** ** The TypeScript command-line agent *)

Module Ts.

(** Modelled from the spec: the enum of [enums/sync-state.enum], whose file
    is not in the repository; its members are the sync states of the
    specification's data model. *)
Inductive SyncState := NEVER | RUNNING | SUCCESS | ERROR.

Record CliUser := {
  id : Z;
  email : string;
  firstName : string;
  lastName : string;
}.

(** [CliConfig]: every field is optional, [None] being [undefined]. *)
Record CliConfig := {
  uuid : option string;
  appVersion : option string;
  accessToken : option string;
  user : option CliUser;
  syncState : option SyncState;
  lastCheckedAt : option string;
  lastSyncAttemptedAt : option string;
  winAvServicesMatchList : option (list string);
  region : option string;
}.

Definition emptyConfig : CliConfig := {|
  uuid := None; appVersion := None; accessToken := None; user := None;
  syncState := None; lastCheckedAt := None; lastSyncAttemptedAt := None;
  winAvServicesMatchList := None; region := None;
|}.

Definition with_uuid (v : option string) (d : CliConfig) : CliConfig :=
  {| uuid := v; appVersion := appVersion d; accessToken := accessToken d;
     user := user d; syncState := syncState d; lastCheckedAt := lastCheckedAt d;
     lastSyncAttemptedAt := lastSyncAttemptedAt d;
     winAvServicesMatchList := winAvServicesMatchList d; region := region d |}.

Definition with_appVersion (v : option string) (d : CliConfig) : CliConfig :=
  {| uuid := uuid d; appVersion := v; accessToken := accessToken d;
     user := user d; syncState := syncState d; lastCheckedAt := lastCheckedAt d;
     lastSyncAttemptedAt := lastSyncAttemptedAt d;
     winAvServicesMatchList := winAvServicesMatchList d; region := region d |}.

Definition with_accessToken (v : option string) (d : CliConfig) : CliConfig :=
  {| uuid := uuid d; appVersion := appVersion d; accessToken := v;
     user := user d; syncState := syncState d; lastCheckedAt := lastCheckedAt d;
     lastSyncAttemptedAt := lastSyncAttemptedAt d;
     winAvServicesMatchList := winAvServicesMatchList d; region := region d |}.

Definition with_user (v : option CliUser) (d : CliConfig) : CliConfig :=
  {| uuid := uuid d; appVersion := appVersion d; accessToken := accessToken d;
     user := v; syncState := syncState d; lastCheckedAt := lastCheckedAt d;
     lastSyncAttemptedAt := lastSyncAttemptedAt d;
     winAvServicesMatchList := winAvServicesMatchList d; region := region d |}.

Definition with_syncState (v : option SyncState) (d : CliConfig) : CliConfig :=
  {| uuid := uuid d; appVersion := appVersion d; accessToken := accessToken d;
     user := user d; syncState := v; lastCheckedAt := lastCheckedAt d;
     lastSyncAttemptedAt := lastSyncAttemptedAt d;
     winAvServicesMatchList := winAvServicesMatchList d; region := region d |}.

Definition with_lastCheckedAt (v : option string) (d : CliConfig) : CliConfig :=
  {| uuid := uuid d; appVersion := appVersion d; accessToken := accessToken d;
     user := user d; syncState := syncState d; lastCheckedAt := v;
     lastSyncAttemptedAt := lastSyncAttemptedAt d;
     winAvServicesMatchList := winAvServicesMatchList d; region := region d |}.

Definition with_lastSyncAttemptedAt (v : option string) (d : CliConfig)
  : CliConfig :=
  {| uuid := uuid d; appVersion := appVersion d; accessToken := accessToken d;
     user := user d; syncState := syncState d; lastCheckedAt := lastCheckedAt d;
     lastSyncAttemptedAt := v;
     winAvServicesMatchList := winAvServicesMatchList d; region := region d |}.

Definition with_winAvServicesMatchList (v : option (list string))
  (d : CliConfig) : CliConfig :=
  {| uuid := uuid d; appVersion := appVersion d; accessToken := accessToken d;
     user := user d; syncState := syncState d; lastCheckedAt := lastCheckedAt d;
     lastSyncAttemptedAt := lastSyncAttemptedAt d;
     winAvServicesMatchList := v; region := region d |}.

Definition with_region (v : option string) (d : CliConfig) : CliConfig :=
  {| uuid := uuid d; appVersion := appVersion d; accessToken := accessToken d;
     user := user d; syncState := syncState d; lastCheckedAt := lastCheckedAt d;
     lastSyncAttemptedAt := lastSyncAttemptedAt d;
     winAvServicesMatchList := winAvServicesMatchList d; region := v |}.

(** [CliConfigHelper]: the configuration object, the document last written
    with success to [config.json], and the number of writes tried. *)
Record Helper := {
  config : CliConfig;
  file : CliConfig;
  writes : nat;
}.

Record QueryResult := {
  drataAgentVersion : string;
  platform : string;
  manualRun : bool;
  rawQueryResults : gmap string Value;
}.

Inductive Event :=
| EvWrite (doc : CliConfig)
| EvWriteFailed
| EvRequest (method url authorization correlation : string)
| EvCollect
| EvIdentify
| EvExecFile (file : string) (args : list string)
| EvConsole (line : string)
| EvExit (code : Z).

Record AuthResponse := { authAccessToken : option string }.

Record MeResponseDto := {
  meId : Z;
  meEmail : string;
  meFirstName : string;
  meLastName : string;
}.

Record AgentV2Response := { regLastCheckedAt : option string }.

Record AgentV2ResponseDto := {
  data : option (option string);
  syncWinAvServicesMatchList : option (list string);
}.

Record AgentInitializationDataResponseDto := {
  initWinAvServicesMatchList : option (list string);
}.

(** Node, axios and the backend as the agent meets them. A request is
    rejected ([Err]) on a transport error or a status outside 2xx; the data
    of a response may be nil ([None]). [getSystemInfo] and
    [getAgentDeviceIdentifiers] of [CliSystemQueryService] catch every probe
    error and always return. *)
Record Node := {
  writeFileSync : nat -> option error;
  TARGET_ENV : string;
  randomUUID : string;
  nowISO : string;
  postMagicLink : string -> result (option AuthResponse);
  getUsersMe : result (option MeResponseDto);
  postRegister : result (option AgentV2Response);
  postSync : QueryResult -> result (option AgentV2ResponseDto);
  getInit : result (option AgentInitializationDataResponseDto);
  getSystemInfo : QueryResult;
  normalize : string -> string;
  basename : string -> string;
  existsSync : string -> bool;
  execFile : string -> list string -> result string;
  trim : string -> string;
}.

Definition VERSION : string := "3.9.0".

(** The double quote put around the binary path. *)
Definition dquote : string := String (ascii_of_nat 34) EmptyString.

Section Agent.
Variable node : Node.

Definition writeConfig : M Helper Event unit :=
  fun s =>
    match writeFileSync node (writes s) with
    | None =>
      (Ok tt, {| config := config s; file := config s; writes := S (writes s) |},
       [EvWrite (config s)])
    | Some e =>
      (Err e, {| config := config s; file := file s; writes := S (writes s) |},
       [EvConsole "Error writing configuration:"; EvWriteFailed])
    end.

Definition get {A} (f : CliConfig -> A) : M Helper Event A :=
  fun s => (Ok (f (config s)), s, []).

Definition assign (f : CliConfig -> CliConfig) : M Helper Event unit :=
  fun s => (Ok tt, {| config := f (config s); file := file s; writes := writes s |}, []).

(** [set(key, val)], [remove(key)] and [multiSet(update)], given as the
    change of the configuration object. *)
Definition set (f : CliConfig -> CliConfig) : M Helper Event unit :=
  assign f ;; writeConfig.

Definition clearData : M Helper Event unit :=
  assign (fun _ => emptyConfig) ;; writeConfig.

(** A JavaScript string is truthy when defined and not empty. *)
Definition truthy (v : option string) : bool :=
  match v with
  | Some s => negb (str_eqb s EmptyString)
  | None => false
  end.

Definition isInitDataReady : M Helper Event bool :=
  get (fun d => bool_decide (is_Some (winAvServicesMatchList d))).

Definition isRegistered : M Helper Event bool :=
  get (fun d => truthy (accessToken d)).

(** [console.log]; the colours of chalk, the icon that opens some lines and
    the blank lines around them are left out of [line]. *)
Definition console (line : string) : M Helper Event unit := emit (EvConsole line).

(** [process.exit]: nothing runs after it. *)
Definition exit {A} (code : Z) : M Helper Event A :=
  emit (EvExit code) ;; throw "process.exit".

Definition resolveBaseUrl (region : option string) : M Helper Event string :=
  let targetEnv :=
    if str_eqb (TARGET_ENV node) EmptyString then "PROD" else TARGET_ENV node in
  let resolvedRegion := if truthy region then default "NA" region else "NA" in
  match Config.apiURLs !! targetEnv ≫= (.!! resolvedRegion) with
  | Some hostUrl => ret hostUrl
  | None => throw ("Unable to resolve region " +:+ resolvedRegion
                   +:+ " for environment " +:+ targetEnv +:+ ".")
  end.

(** One request through the axios instance: the interceptor first gives the
    agent a UUID when it has none, then sets the base URL and the headers. *)
Definition request {A} (method path : string) (reply : result A)
  : M Helper Event A :=
  region ← get region;
  stored ← get uuid;
  correlation ←
    (if truthy stored then ret (default EmptyString stored)
     else set (with_uuid (Some (randomUUID node))) ;; ret (randomUUID node));
  baseURL ← resolveBaseUrl region;
  token ← get accessToken;
  emit (EvRequest method (baseURL +:+ path)
          ("Bearer " +:+ default "undefined" token) correlation) ;;
  match reply with
  | Ok data => ret data
  | Err e => throw e
  end.

Definition register : M Helper Event unit :=
  data ← request "POST" "/agentv2/register" (postRegister node);
  match data with
  | None => throw "Missing data on register request."
  | Some data => set (with_lastCheckedAt (regLastCheckedAt data))
  end.

Definition loginWithMagicLink (token : string) : M Helper Event MeResponseDto :=
  data ← request "POST" ("/auth/magic-link/" +:+ token) (postMagicLink node token);
  match data with
  | None => throw "Missing data from auth request."
  | Some data =>
    match authAccessToken data with
    | Some t => set (with_accessToken (Some t))
    | None => set (with_accessToken None) ;; set (with_user None)
    end ;;
    me ← request "GET" "/users/me" (getUsersMe node);
    match me with
    | None =>
      clearData ;;
      set (with_accessToken None) ;;
      set (with_user None) ;;
      throw "Missing data from get user info request."
    | Some me =>
      set (with_user (Some {| id := meId me; email := meEmail me;
                              firstName := meFirstName me;
                              lastName := meLastName me |})) ;;
      ret me
    end
  end.

Definition apiSync (results : QueryResult) : M Helper Event AgentV2ResponseDto :=
  reply ← request "POST" "/agentv2/sync" (postSync node results);
  match reply with
  | None => throw "Missing data on set personnel checks request."
  | Some dto =>
    match data dto with
    | None => throw "TypeError: Cannot read properties of undefined (reading 'lastcheckedAt')"
    | Some checked =>
      set (fun d => with_winAvServicesMatchList (syncWinAvServicesMatchList dto)
                      (with_lastCheckedAt checked d)) ;;
      ret dto
    end
  end.

Definition initialData : M Helper Event AgentInitializationDataResponseDto :=
  reply ← request "GET" "/agentv2/init" (getInit node);
  match reply with
  | None => throw "Missing data on get initialization data request."
  | Some dto =>
    set (with_winAvServicesMatchList (initWinAvServicesMatchList dto)) ;;
    ret dto
  end.

(** The command [sync]. *)
Definition sync (verbose : bool) : M Helper Event unit :=
  registered ← isRegistered;
  if negb registered then
    console ("Agent is not registered. Run " +:+ dquote
             +:+ "drata-agent configure" +:+ dquote +:+ " first.") ;;
    exit 1
  else
    console "Running sync..." ;;
    r ← try (
      ready ← isInitDataReady;
      (if negb ready then
         console "Fetching initialization data..." ;;
         initialData ;; ret tt
       else ret tt) ;;
      set (with_lastSyncAttemptedAt (Some (nowISO node))) ;;
      set (with_syncState (Some RUNNING)) ;;
      (if verbose then console "Querying system information..." else ret tt) ;;
      emit EvCollect ;;
      let queryResults :=
        {| drataAgentVersion := drataAgentVersion (getSystemInfo node);
           platform := platform (getSystemInfo node);
           manualRun := true;
           rawQueryResults := rawQueryResults (getSystemInfo node) |} in
      (if verbose then console "System info collected. Sending to Drata..."
       else ret tt) ;;
      apiSync queryResults ;;
      set (with_syncState (Some SUCCESS)) ;;
      console "Sync completed successfully!" ;;
      checked ← get lastCheckedAt;
      console ("  Last sync: " +:+ (if truthy checked then default EmptyString checked
                                    else "N/A")));
    match r with
    | Ok _ => ret tt
    | Err e =>
      set (with_syncState (Some ERROR)) ;;
      console "Sync failed:" ;;
      console ("  " +:+ (if str_eqb e EmptyString then "Unknown error" else e)) ;;
      exit 1
    end.

(** The command [configure], from the moment the token (trimmed) and the
    region have been entered. *)
Definition configure (token chosen : string) : M Helper Event unit :=
  set (with_region (Some chosen)) ;;
  set (with_appVersion (Some VERSION)) ;;
  r ← try (
    loginWithMagicLink token ;;
    emit EvIdentify ;;
    register ;;
    console "Agent registered successfully!");
  match r with
  | Ok _ => ret tt
  | Err e =>
    console "Registration failed:" ;;
    console ("  " +:+ (if str_eqb e EmptyString then "Unknown error" else e)) ;;
    clearData ;;
    exit 1
  end.

(** [/[;&|`$(){}[\]<>!]/.test(s)]. *)
Definition unsafeChars : list Z :=
  [59; 38; 124; 96; 36; 40; 41; 123; 125; 91; 93; 60; 62; 33]%Z.

Fixpoint hasUnsafeChar (s : string) : bool :=
  match s with
  | EmptyString => false
  | String a tl => bool_decide (byte_of a ∈ unsafeChars) || hasUnsafeChar tl
  end.

Definition validateOsqueryPath (osqueryiBinaryPath : string) : M Helper Event unit :=
  let normalizedPath := normalize node osqueryiBinaryPath in
  let basename := basename node normalizedPath in
  if negb (str_eqb basename "osqueryi") then
    throw ("Invalid osqueryi binary path: must end with " +:+ dquote
           +:+ "osqueryi" +:+ dquote)
  else if hasUnsafeChar normalizedPath then
    throw "Invalid osqueryi binary path: contains unsafe characters"
  else if negb (existsSync node normalizedPath) then
    throw ("osqueryi binary not found at: " +:+ normalizedPath)
  else ret tt.

Definition promiseExecFile (file : string) (args : list string)
  : M Helper Event string :=
  emit (EvExecFile file args) ;;
  match execFile node file args with
  | Ok stdout => ret stdout
  | Err e => throw e
  end.

Definition runQuery (osqueryiBinaryPath query : string) : M Helper Event string :=
  validateOsqueryPath osqueryiBinaryPath ;;
  result ← promiseExecFile (dquote +:+ osqueryiBinaryPath +:+ dquote) [query];
  ret (trim node result).
End Agent.

End Ts.

(** ** Package scheduler *)

Module Scheduler.

(** Package [cron] (robfig/cron/v3) as the scheduler uses it. The entries
    are kept by their id; [AddFunc] hands out the ids in increasing order
    from 1 and refuses a schedule that its parser refuses; [Remove] of an
    id that is not there does nothing; [Entry] of such an id is the zero
    entry, whose id is 0. An action is a [func()], kept as a value of
    [Action]. *)
Section Jobs.
Variable Action : Type.
(** The parser of [cron]: the error for a schedule it refuses. *)
Variable parseSpec : string -> option error.

Record Entry := {
    Schedule : string;
    Job : Action;
  }.

Record Scheduler := {
    cronEntries : gmap Z Entry;
    cronNextID : Z;
    cronRunning : bool;
    jobs : gmap string Z;
    running : bool;
  }.

Inductive Event :=
  | EvLog (line : string)
  | EvRun (action : Action).

Definition NewScheduler : Scheduler :=
  {| cronEntries := ∅; cronNextID := 0; cronRunning := false;
     jobs := ∅; running := false |}.

Definition cronRemove (entryID : Z) : M Scheduler Event unit :=
  fun s =>
    (Ok tt,
     {| cronEntries := delete entryID (cronEntries s);
        cronNextID := cronNextID s; cronRunning := cronRunning s;
        jobs := jobs s; running := running s |}, []).

Definition cronAddFunc (spec : string) (action : Action) : M Scheduler Event Z :=
  fun s =>
    match parseSpec spec with
    | Some e => (Err e, s, [])
    | None =>
      let entryID := (cronNextID s + 1)%Z in
      (Ok entryID,
       {| cronEntries :=
            <[entryID := {| Schedule := spec; Job := action |}]> (cronEntries s);
          cronNextID := entryID; cronRunning := cronRunning s;
          jobs := jobs s; running := running s |}, [])
    end.

Definition setJob (id : string) (entryID : Z) : M Scheduler Event unit :=
  fun s =>
    (Ok tt,
     {| cronEntries := cronEntries s; cronNextID := cronNextID s;
        cronRunning := cronRunning s;
        jobs := <[id := entryID]> (jobs s); running := running s |}, []).

Definition deleteJob (id : string) : M Scheduler Event unit :=
  fun s =>
    (Ok tt,
     {| cronEntries := cronEntries s; cronNextID := cronNextID s;
        cronRunning := cronRunning s;
        jobs := delete id (jobs s); running := running s |}, []).

Definition setRunning (cronFlag flag : bool) : M Scheduler Event unit :=
  fun s =>
    (Ok tt,
     {| cronEntries := cronEntries s; cronNextID := cronNextID s;
        cronRunning := cronFlag; jobs := jobs s; running := flag |}, []).

Definition logPrintf (line : string) : M Scheduler Event unit := emit (EvLog line).

(** [ScheduleJob]. The mutex is left out: the calls are taken one after
    the other. *)
Definition ScheduleJob (id : string) (intervalHours : Z) (action : Action)
  : M Scheduler Event unit :=
  s ← get;
  match jobs s !! id with
  | Some entryID => cronRemove entryID
  | None => ret tt
  end ;;
  let cronExpr := "0 0 */" +:+ fmt_d intervalHours +:+ " * * *" in
  r ← try (cronAddFunc cronExpr action);
  match r with
  | Err e => throw ("failed to schedule job " +:+ id +:+ ": " +:+ e)
  | Ok entryID =>
    setJob id entryID ;;
    logPrintf ("Scheduled job '" +:+ id +:+ "' to run every "
               +:+ fmt_d intervalHours +:+ " hours")
  end.

Definition ScheduleJobWithMinutes (id : string) (intervalMinutes : Z)
  (action : Action) : M Scheduler Event unit :=
  s ← get;
  match jobs s !! id with
  | Some entryID => cronRemove entryID
  | None => ret tt
  end ;;
  let cronExpr := "0 */" +:+ fmt_d intervalMinutes +:+ " * * * *" in
  r ← try (cronAddFunc cronExpr action);
  match r with
  | Err e => throw ("failed to schedule job " +:+ id +:+ ": " +:+ e)
  | Ok entryID =>
    setJob id entryID ;;
    logPrintf ("Scheduled job '" +:+ id +:+ "' to run every "
               +:+ fmt_d intervalMinutes +:+ " minutes")
  end.

Definition RemoveJob (id : string) : M Scheduler Event unit :=
  s ← get;
  match jobs s !! id with
  | Some entryID =>
    cronRemove entryID ;; deleteJob id ;;
    logPrintf ("Removed job '" +:+ id +:+ "'")
  | None => ret tt
  end.

Definition Start : M Scheduler Event unit :=
  s ← get;
  if negb (running s)
  then setRunning true true ;; logPrintf "Scheduler started"
  else ret tt.

Definition Stop : M Scheduler Event unit :=
  s ← get;
  if running s
  then setRunning false false ;; logPrintf "Scheduler stopped"
  else ret tt.

Definition RunJobNow (id : string) (action : Action) : M Scheduler Event unit :=
  logPrintf ("Running job '" +:+ id +:+ "' immediately") ;;
  emit (EvRun action).

(** [GetNextRun]: the pointer to the [Next] field of the job's entry, given
    here by that entry; [None] is nil. *)
Definition GetNextRun (id : string) (s : Scheduler) : option Entry :=
  match jobs s !! id with
  | Some entryID =>
    match cronEntries s !! entryID with
    | Some entry => if (entryID =? 0)%Z then None else Some entry
    | None => None
    end
  | None => None
  end.

Definition IsRunning (s : Scheduler) : bool := running s.

Definition JobCount (s : Scheduler) : nat := size (jobs s).
End Jobs.

Arguments Schedule {Action} _.
Arguments Job {Action} _.
Arguments cronEntries {Action} _.
Arguments cronNextID {Action} _.
Arguments cronRunning {Action} _.
Arguments jobs {Action} _.
Arguments running {Action} _.
Arguments EvLog {Action} line.
Arguments EvRun {Action} action.
Arguments NewScheduler {Action}.
Arguments ScheduleJob {Action} parseSpec id intervalHours action.
Arguments ScheduleJobWithMinutes {Action} parseSpec id intervalMinutes action.
Arguments RemoveJob {Action} id.
Arguments Start {Action}.
Arguments Stop {Action}.
Arguments RunJobNow {Action} id action.
Arguments GetNextRun {Action} id s.
Arguments IsRunning {Action} s.
Arguments JobCount {Action} s.

End Scheduler.

(** * Properties *)

(** ** Vocabulary of the statements *)

Module Spec.

Import Datastore Osquery.

(** The bytes a decoded rune spans after its first one are continuation
    bytes: none of them is an ASCII byte. *)
Fixpoint conts (n : nat) (s : string) : Prop :=
  match n, s with
  | S k, String b tl => (128 <= byte_of b)%Z /\ conts k tl
  | _, _ => True
  end.

(** A character a session user may hold: a letter, a digit, [-] or [_]. *)
Definition sessionChar (h : Host) (r : rune) : bool :=
  IsLetter (Unicode h) r || IsDigit (Unicode h) r || (r =? 45)%Z || (r =? 95)%Z.

(** The marker files and binaries of an RPM-family distribution. *)
Definition rpmMarkers : list string :=
  ["/etc/redhat-release"; "/etc/fedora-release"; "/usr/bin/dnf"; "/usr/bin/yum"].

(** A shell probe answers when it runs without error and prints something. *)
Definition answers (h : Host) (c : Client) (command : string) : Prop :=
  exists output, (RunCommand h c command).1 = Ok output /\ output ≠ EmptyString.

Definition answersb (h : Host) (c : Client) (command : string) : bool :=
  match nonEmpty (RunCommand h c command).1 with Some _ => true | None => false end.

(** The installed-product probes of the antivirus check in the
    session-aware collector: the package-manager query for clamav of the
    family, then the flatpak listings of the system and user scopes. *)
Definition antivirusProbes (rpm : bool) : list string :=
  [if rpm then "rpm -q clamav" else "dpkg -l clamav | grep -E '^ii'";
   "flatpak list --app --system | grep -i clam";
   "flatpak list --app --user | grep -i clam"].

(** The same in the collector without session lookup: the package-manager
    queries for clamtk and clamav of the family, then one flatpak listing. *)
Definition plainAntivirusProbes (rpm : bool) : list string :=
  [if rpm then "rpm -q clamtk" else "dpkg -l clamtk | grep -E '^ii'";
   if rpm then "rpm -q clamav" else "dpkg -l clamav | grep -E '^ii'";
   "flatpak list --app | grep -i clam"].

(** The value [{"passed": 1}]. *)
Definition passed1 : Value := VMap {[ "passed" := VInt 1 ]}.

(** What the authoritative probe makes of [autoUpdateEnabled]. *)
Definition enabledBy (probe : result string) : option Value :=
  match probe with
  | Ok output => if str_eqb output "true" then Some passed1 else None
  | Err _ => None
  end.

(** The entry a diagnostic command leaves in the list of settings. *)
Definition entry (h : Host) (c : Client) (key command : string) : list Value :=
  match (RunCommand h c command).1 with
  | Ok output => [VMap {[ key := VStr output ]}]
  | Err _ => []
  end.

Definition rpmDiagnosticCommands : list (string * string) :=
  [("autoUpdateService",
    "systemctl is-enabled dnf-automatic.timer || systemctl is-enabled yum-cron");
   ("recentUpdates", "dnf history list --last 10 || yum history list last 10");
   ("autoUpdateConfig", "cat /etc/dnf/automatic.conf || cat /etc/yum/yum-cron.conf");
   ("recentPackages", "rpm -q --last | head -20")].

Definition aptDiagnosticCommands : list (string * string) :=
  [("aptConfig", "apt-config dump | grep -E '^(APT::Periodic|Unattended-Upgrade)::'");
   ("aptDailyStatus",
    "systemctl show apt-daily* --property=NextElapseUSecMonotonic,NextElapseUSecRealtime,Unit,Description,UnitFileState,LastTriggerUSec");
   ("aptDailyLogs",
    "journalctl --user -u apt-daily.service -u apt-daily-upgrade.service --since -7day -n 10 --no-pager --quiet || journalctl -u apt-daily.service -u apt-daily-upgrade.service --since -7day -n 10 --no-pager --quiet")].

Definition entries (h : Host) (c : Client) (l : list (string * string)) : list Value :=
  flat_map (fun kc => entry h c kc.1 kc.2) l.

(** The probe set of a distribution family in the session-aware collector:
    the shell commands and the osquery tables only that family is asked. *)
Definition familyCommands (rpm : bool) : list string :=
  if rpm
  then "systemctl is-active firewalld" :: "rpm -q clamav" :: rpmDiagnosticCommands.*2
  else "dpkg -l clamav | grep -E '^ii'" :: aptDiagnosticCommands.*2.

Definition familyQueries (rpm : bool) : list string :=
  if rpm
  then ["SELECT name, version FROM rpm_packages"]
  else ["SELECT COUNT(*) AS passed FROM augeas WHERE path = '/etc/ufw/ufw.conf' AND label = 'ENABLED' AND value = 'yes'";
        "SELECT name, version FROM deb_packages"].

(** The same for the collector without session lookup, where the GNOME
    Software probe and the unattended-upgrades file query are asked of one
    family each. *)
Definition plainFamilyCommands (rpm : bool) : list string :=
  if rpm
  then "systemctl is-active firewalld" :: "rpm -q clamtk" :: "rpm -q clamav"
       :: "gsettings get org.gnome.software download-updates"
       :: rpmDiagnosticCommands.*2
  else "dpkg -l clamtk | grep -E '^ii'" :: "dpkg -l clamav | grep -E '^ii'"
       :: aptDiagnosticCommands.*2.

Definition plainFamilyQueries (rpm : bool) : list string :=
  if rpm
  then ["SELECT name, version FROM rpm_packages"]
  else ["SELECT COUNT(*) AS passed FROM augeas WHERE path = '/etc/ufw/ufw.conf' AND label = 'ENABLED' AND value = 'yes'";
        "SELECT name, version FROM deb_packages";
        "SELECT COUNT(*) AS passed FROM file WHERE path = '/etc/apt/apt.conf.d/50unattended-upgrades'"].

Definition inFamily (rpm : bool) (e : Call) : bool :=
  match e with
  | Command command => existsb (String.eqb command) (familyCommands rpm)
  | Query sql => existsb (String.eqb sql) (familyQueries rpm)
  end.

Definition inPlainFamily (rpm : bool) (e : Call) : bool :=
  match e with
  | Command command => existsb (String.eqb command) (plainFamilyCommands rpm)
  | Query sql => existsb (String.eqb sql) (plainFamilyQueries rpm)
  end.

(** The calls of a collector are those of the family [rpm]: every probe of
    that family is among them, and no probe of the other family is. *)
Definition runsFamily (commands queries : bool -> list string) (rpm : bool)
  (calls : list Call) : Prop :=
  (forall command, command ∈ commands rpm -> Command command ∈ calls)
  /\ (forall sql, sql ∈ queries rpm -> Query sql ∈ calls)
  /\ (forall command, command ∈ commands (negb rpm) -> Command command ∉ calls)
  /\ (forall sql, sql ∈ queries (negb rpm) -> Query sql ∉ calls).

End Spec.

(** Finds an element in a concatenation of lists. *)
Ltac find_mem :=
  lazymatch goal with
  | |- _ ∈ _ ++ _ => apply elem_of_app; first [ left; find_mem | right; find_mem ]
  | |- _ ∈ _ :: _ =>
    first [ apply list_elem_of_here | apply list_elem_of_further; find_mem ]
  end.

(** ** Vocabulary of the runs *)

Module Trace.

Import Datastore.

(** The requests sent during a run, by method and URL. *)
Definition requests (t : list Event) : list (string * string) :=
  omap (fun e => match e with
                 | EvRequest method url _ _ => Some (method, url)
                 | _ => None
                 end) t.

(** The probes run: shell commands and osquery queries. *)
Definition probes (t : list Event) : list string :=
  omap (fun e => match e with
                 | EvProbe (Command command) => Some command
                 | EvProbe (Query sql) => Some sql
                 | _ => None
                 end) t.

(** The documents written with success, oldest first. *)
Definition written (t : list Event) : list DataStore :=
  omap (fun e => match e with EvWrite doc => Some doc | _ => None end) t.

(** The sync states persisted, oldest first. *)
Definition states (t : list Event) : list string := SyncState <$> written t.

(** The lines logged by the daemon. *)
Definition logged (t : list Event) : list string :=
  omap (fun e => match e with EvLog line => Some line | _ => None end) t.

(** [RUNNING] is persisted before the first request: either no request is
    sent, or a document in state [RUNNING] is written before any request. *)
Definition runningBeforeNetwork (t : list Event) : Prop :=
  requests t = []
  \/ exists pre doc post,
       t = pre ++ EvWrite doc :: post
       /\ requests pre = [] /\ SyncState doc = SyncStateRunning.

(** The name of a probe: the shell command or the osquery query. *)
Definition callName (call : Call) : string :=
  match call with Command command => command | Query sql => sql end.

(** What a sync does once the throttle has let it through. It first
    persists [RUNNING]. And when every write succeeds, the initialization
    data are there and the collector returns a snapshot, it runs the probes
    of the collector and sends one request, which posts the snapshot to
    [/agentv2/sync] on the host of the agent's region. [collected] is the
    run of the collector; [r] is the run of the sync from the store [s]. *)
Definition entersSync (writeFile : nat -> option error) (backend : Api.Backend)
  (cfg : Config.Config) (collected : W (result Osquery.QueryResult))
  (s : Store) (r : result unit * Store * list Event) : Prop :=
  (writeFile (writes s) = None ->
   head (written (events r)) = Some (with_SyncState SyncStateRunning (mem s)))
  /\ ((forall n, writeFile n = None) ->
      WinAvServicesMatchList (mem s) ≠ None ->
      is_ok collected.1 = true ->
      let url :=
        Config.APIHostURL (Config.TargetEnv cfg)
          (if str_eqb (Region (mem s)) EmptyString then Config.Region cfg
           else Region (mem s))
        +:+ "/agentv2/sync" in
      Api.newRequestError backend "POST" url = None ->
      probes (events r) = callName <$> collected.2
      /\ requests (events r) = [("POST", url)]
      /\ take 2 (states (events r)) = [SyncStateRunning; SyncStateRunning]).

(** A sync that is not forced is let through by the throttle: from the
    daemon and, for a registered agent, from the command line, it is the run
    of the pipeline, and it does what [entersSync] says. The command builds
    its osquery client first. *)
Definition letThrough (writeFile : nat -> option error) (clock : Clock)
  (h : Osquery.Host) (backend : Api.Backend) (cfg : Config.Config)
  (osq : Osquery.Client) (verbose : bool) (s : Store) : Prop :=
  Cmd.performSync writeFile clock h backend cfg osq s
  = Cmd.performSyncPipeline writeFile clock h backend cfg osq s
  /\ entersSync writeFile backend cfg
       (Collector.GetSystemInfo h osq (Config.Version cfg)) s
       (Cmd.performSync writeFile clock h backend cfg osq s)
  /\ (AccessToken (mem s) ≠ EmptyString ->
      Cmd.runSync writeFile clock h backend cfg false verbose s
      = Cmd.runSyncPipeline writeFile clock h backend cfg false verbose s
      /\ forall client,
           Osquery.NewClientWithVerbose h (Config.OsqueryPath cfg) verbose
           = Ok client ->
           entersSync writeFile backend cfg
             (Collector.GetSystemInfo h client (Config.Version cfg)) s
             (Cmd.runSync writeFile clock h backend cfg false verbose s)).

(** A stored timestamp that the store cannot use. *)
Definition unusable (clock : Clock) (stamp : string) : Prop :=
  stamp = EmptyString \/ parseRFC3339 clock stamp = None.

End Trace.

(** ** Vocabulary of the runs of the TypeScript agent *)

Module TsTrace.

Import Ts.

Definition requests (t : list Event) : list (string * string) :=
  omap (fun e => match e with
                 | EvRequest method url _ _ => Some (method, url)
                 | _ => None
                 end) t.

Definition written (t : list Event) : list CliConfig :=
  omap (fun e => match e with EvWrite doc => Some doc | _ => None end) t.

Definition states (t : list Event) : list (option SyncState) :=
  syncState <$> written t.

Definition isRunning (doc : CliConfig) : bool :=
  match syncState doc with Some RUNNING => true | _ => false end.

(** A request is sent before any document in state [RUNNING] is written. *)
Fixpoint sentBeforeRunning (t : list Event) : bool :=
  match t with
  | [] => false
  | EvRequest _ _ _ _ :: _ => true
  | EvWrite doc :: rest => if isRunning doc then false else sentBeforeRunning rest
  | _ :: rest => sentBeforeRunning rest
  end.

End TsTrace.

(** ** Vocabulary of the path validation *)

Module PathSpec.

Import Ts.

(** The shell metacharacters the validation refuses. *)
Definition forbidden : list ascii := list_ascii_of_string ";&|`$(){}[]<>!".

(** The three reasons to refuse a binary path, on the normalized path. *)
Definition rejected (node : Node) (osqueryiBinaryPath : string) : Prop :=
  let normalizedPath := normalize node osqueryiBinaryPath in
  basename node normalizedPath ≠ "osqueryi"
  \/ (exists a, a ∈ forbidden /\ a ∈ list_ascii_of_string normalizedPath)
  \/ existsSync node normalizedPath = false.

End PathSpec.

(** ** Vocabulary of the exchanges with the backend *)

Module ApiSpec.

Import Wire.

(** A reply the client refuses: the transport failed, the status is not
    among the accepted ones, or the body does not decode. *)
Definition refused {A} (accepted : list Z) (reply : result (Response A)) : Prop :=
  match reply with
  | Err _ => True
  | Ok resp => StatusCode resp ∉ accepted \/ is_ok (decoded resp) = false
  end.

(** A reply the client accepts, with the body it decodes to. *)
Definition answers {A} (accepted : list Z) (reply : result (Response A))
  (a : A) : Prop :=
  exists resp,
    reply = Ok resp /\ StatusCode resp ∈ accepted /\ decoded resp = Ok a.

(** A call that fails and leaves the store as it was: nothing is written,
    in memory or to the file, and at most one request was sent. *)
Definition untouched {A} (r : result A * Datastore.Store * list Datastore.Event)
  (s : Datastore.Store) : Prop :=
  is_ok (outcome r) = false /\ final r = s
  /\ Trace.written (events r) = []
  /\ length (Trace.requests (events r)) <= 1.

(** The document after a sync the backend accepted: the compliance data
    and the time of the last check are those of the answer, whatever they
    are; the list of antivirus services is replaced only by a list that is
    not empty. *)
Definition afterSync (syncResp : SyncResponse) (d : Datastore.DataStore)
  : Datastore.DataStore :=
  let d :=
    Datastore.with_LastCheckedAt (LastCheckedAt (SyncData syncResp))
      (Datastore.with_ComplianceData (Some (Datastore.DSyncResponse syncResp)) d) in
  match SyncWinAvServicesMatchList syncResp with
  | Some (name :: names) =>
    Datastore.with_WinAvServicesMatchList (Some (name :: names)) d
  | _ => d
  end.

(** The document after a registration the backend accepted: the time of
    the last check is replaced only by one that is not empty. *)
Definition afterRegister (agentResp : AgentV2Response) (d : Datastore.DataStore)
  : Datastore.DataStore :=
  if str_eqb (LastCheckedAt agentResp) EmptyString then d
  else Datastore.with_LastCheckedAt (LastCheckedAt agentResp) d.

End ApiSpec.

(** ** Vocabulary of the GNOME settings probes *)

Module GsettingsSpec.

(** The shell line that runs [gsettings] in the desktop session of [user]. *)
Definition asUser (user args : string) : string :=
  "uid=$(id -u " +:+ user +:+ ") && sudo -u " +:+ user
  +:+ " env XDG_RUNTIME_DIR=/run/user/$uid DBUS_SESSION_BUS_ADDRESS=unix:path=/run/user/$uid/bus gsettings "
  +:+ args.

End GsettingsSpec.

(** ** Vocabulary of the snapshot of a Linux machine *)

Module SnapshotSpec.

(** The facts of a Linux snapshot that are there whatever the probes
    answer. *)
Definition alwaysReported : list string :=
  ["antivirusStatus"; "autoUpdateSettings"; "screenLockStatus";
   "locationServices"; "screenLockSettings"].

End SnapshotSpec.

(** ** Invariants of the store along a computation *)

Module Invariant.

Import Datastore.

(** [m] keeps [P]: started in a store where [P] holds, it ends, with a value
    or with an error, in a store where [P] holds. *)
Definition keeps {A} (P : Store -> Prop) (m : M Store Event A) : Prop :=
  forall s, P s -> P (final (m s)).


End Invariant.

(** ** Vocabulary of the scheduler *)

Module SchedulerSpec.

Import Scheduler.

(** The registry of the scheduler and the entries of cron agree: every
    registered job has its entry, every entry belongs to a registered job,
    no two jobs share an entry, and the ids in use have been handed out by
    the counter of cron. *)
Definition consistent {Action} (s : Scheduler Action) : Prop :=
  (forall id entryID, jobs s !! id = Some entryID ->
     is_Some (cronEntries s !! entryID))
  /\ (forall entryID, is_Some (cronEntries s !! entryID) ->
        exists id, jobs s !! id = Some entryID)
  /\ (forall id1 id2 entryID,
        jobs s !! id1 = Some entryID -> jobs s !! id2 = Some entryID ->
        id1 = id2)
  /\ (forall entryID, is_Some (cronEntries s !! entryID) ->
        (0 < entryID <= cronNextID s)%Z)
  /\ (0 <= cronNextID s)%Z.

(** The scheduler after the entry of [id], if any, has left cron. *)
Definition cleared {Action} (id : string) (s : Scheduler Action)
  : Scheduler Action :=
  match jobs s !! id with
  | Some entryID =>
    {| cronEntries := delete entryID (cronEntries s);
       cronNextID := cronNextID s; cronRunning := cronRunning s;
       jobs := jobs s; running := running s |}
  | None => s
  end.

(** The scheduler after the job [id] has been scheduled, or scheduled
    anew, with [spec] and [action]. *)
Definition scheduled {Action} (id spec : string) (action : Action)
  (s : Scheduler Action) : Scheduler Action :=
  {| cronEntries :=
       <[(cronNextID s + 1)%Z := {| Schedule := spec; Job := action |}]>
         (cronEntries (cleared id s));
     cronNextID := (cronNextID s + 1)%Z; cronRunning := cronRunning s;
     jobs := <[id := (cronNextID s + 1)%Z]> (jobs s); running := running s |}.

End SchedulerSpec.

(** ** Concrete machines for the examples *)

Module Fixture.

Import Datastore Osquery.

Definition tables0 : UnicodeTables :=
  {| tableLetter := fun _ => false; tableDigit := fun _ => false |}.

Definition noResult : QueryResult :=
  {| DrataAgentVersion := EmptyString; Platform := EmptyString;
     ManualRun := false; RawQueryResults := ∅ |}.

Definition noIdentifiers : AgentDeviceIdentifiers :=
  {| HardwareSerial := EmptyString; BoardSerial := EmptyString; Mac := EmptyString |}.

(** A Linux machine given by its environment, its files and its programs. *)
Definition machine (env : string -> string) (stat : string -> bool)
  (exec : string -> list string -> Output)
  (unmarshal : string -> result (option (list Row))) : Host :=
  {| GOOS := "linux";
     Getenv := env;
     Stat := stat;
     IsDir := fun _ => false;
     LookPath := fun _ => Ok "/usr/bin/osqueryi";
     Join := fun l => foldr (fun a b => a +:+ "/" +:+ b) EmptyString l;
     Exec := exec;
     Unmarshal := unmarshal;
     Unicode := tables0;
     getMacOSSystemInfo := fun _ => (noResult, []);
     getWindowsSystemInfo := fun _ => (noResult, []);
     getMacOSDeviceIdentifiers := (noIdentifiers, []);
     getWindowsDeviceIdentifiers := (noIdentifiers, []) |}.

Definition client : Client :=
  {| binaryPath := "/usr/bin/osqueryi"; platform := PlatformLinux; verbose := false |}.

(** A bare machine: no environment, no file, every program fails. *)
Definition bare : Host :=
  machine (fun _ => EmptyString) (fun _ => false) (fun _ _ => ExitError EmptyString)
    (fun _ => Err "unexpected end of JSON input").

(** [SUDO_USER=root], [LOGNAME=alice]. *)
Definition sudoRoot : Host :=
  machine (fun k => if str_eqb k "SUDO_USER" then "root"
                    else if str_eqb k "LOGNAME" then "alice" else EmptyString)
    (fun _ => false) (fun _ _ => ExitError EmptyString)
    (fun _ => Err "unexpected end of JSON input").

(** A Fedora machine known by its release file only. *)
Definition fedora : Host :=
  machine (fun _ => EmptyString) (fun p => str_eqb p "/etc/fedora-release")
    (fun _ _ => ExitError EmptyString) (fun _ => Err "unexpected end of JSON input").

(** Two Debian machines where GNOME Software answers [false]; on the first
    the unattended-upgrades file is there, on the second it is not. *)
Definition gnomeSaysFalse (name : string) (args : list string) : bool :=
  str_eqb name "sh"
  && match args with
     | [_; command] => str_eqb command LinuxPlain.downloadUpdates
     | _ => false
     end.

Definition asksUnattended (args : list string) : bool :=
  match args with
  | [_; sql] => str_eqb sql LinuxPlain.unattendedUpgrades
  | _ => false
  end.

Definition debianWithFile : Host :=
  machine (fun _ => EmptyString) (fun _ => false)
    (fun name args =>
       if gnomeSaysFalse name args then Stdout "false"
       else if asksUnattended args then Stdout "[{passed:1}]"
       else ExitError EmptyString)
    (fun out => if str_eqb out "[{passed:1}]"
                then Ok (Some [ {[ "passed" := VStr "1" ]} ])
                else Err "unexpected end of JSON input").

Definition debianWithoutFile : Host :=
  machine (fun _ => EmptyString) (fun _ => false)
    (fun name args =>
       if gnomeSaysFalse name args then Stdout "false"
       else if asksUnattended args then Stdout "[{passed:0}]"
       else ExitError EmptyString)
    (fun out => if str_eqb out "[{passed:0}]"
                then Ok (Some [ {[ "passed" := VStr "0" ]} ])
                else Err "unexpected end of JSON input").

End Fixture.

(** ** Concrete stores, clocks and backends for the examples *)

Module Scenario.

Import Config Osquery Wire Datastore.

(** A disk that takes every write. *)
Definition diskOk : nat -> option error := fun _ => None.

(** A clock that knows one timestamp, [minutes] minutes and [hours] hours
    old. *)
Definition clockAt (minutes hours : Z) : Clock :=
  {| Instant := unit;
     parseRFC3339 := fun s =>
       if str_eqb s "2024-01-01T00:00:00Z" then Some tt else None;
     minutesSince := fun _ => minutes;
     hoursSince := fun _ => hours;
     nowRFC3339 := "2024-01-02T00:00:00Z" |}.

Definition reply {A} (status : Z) (a : A) : result (Response A) :=
  Ok {| StatusCode := status; body := EmptyString; asError := None;
        decoded := Ok a |}.

Definition me : MeResponse :=
  {| Wire.ID := 7; Wire.EntryID := "e7"; Wire.Email := "alice@example.com";
     Wire.FirstName := "Alice"; Wire.LastName := "Doe"; Wire.JobTitle := EmptyString;
     Wire.AvatarURL := EmptyString; Wire.Roles := []; Wire.DrataTermsAgreedAt := EmptyString;
     Wire.CreatedAt := EmptyString; Wire.UpdatedAt := EmptyString;
     Wire.Signature := EmptyString; Wire.Language := "en" |}.

Definition agentAck : AgentV2Response :=
  {| Wire.LastCheckedAt := "2024-01-02T00:00:01Z"; Data := VNil;
     Wire.WinAvServicesMatchList := None |}.

(** A backend that accepts everything. *)
Definition backendOk : Api.Backend :=
  {| Api.newRequestError := fun _ _ => None;
     Api.postMagicLink := fun _ => reply 201 {| Wire.AccessToken := "secret" |};
     Api.getUsersMe := reply 200 me;
     Api.postRegister := fun _ => reply 201 agentAck;
     Api.postSync := fun _ =>
       reply 201 {| SyncData := agentAck; SyncWinAvServicesMatchList := None |};
     Api.getInit := reply 200 {| InitWinAvServicesMatchList := Some ["MsMpEng"] |} |}.

(** A backend that exchanges the token, then fails on the profile. *)
Definition backendProfileDown : Api.Backend :=
  {| Api.newRequestError := fun _ _ => None;
     Api.postMagicLink := fun _ => reply 201 {| Wire.AccessToken := "secret" |};
     Api.getUsersMe := Err "context deadline exceeded";
     Api.postRegister := fun _ => reply 201 agentAck;
     Api.postSync := fun _ =>
       reply 201 {| SyncData := agentAck; SyncWinAvServicesMatchList := None |};
     Api.getInit := reply 200 {| InitWinAvServicesMatchList := Some ["MsMpEng"] |} |}.

Definition fresh : Store :=
  {| mem := Datastore.empty; disk := Datastore.empty; writes := 0 |}.

(** A registered agent whose last sync, five minutes ago, is recorded as
    still running. *)
Definition registeredDoc (state : string) : DataStore :=
  {| Datastore.UUID := "0b4a"; Datastore.AppVersion := "3.9.0-cli";
     Datastore.AccessToken := "secret";
     Datastore.User_ := None; Datastore.SyncState := state;
     Datastore.LastCheckedAt := EmptyString;
     Datastore.LastSyncAttemptedAt := "2024-01-01T00:00:00Z";
     Datastore.ComplianceData := None;
     Datastore.WinAvServicesMatchList := Some ["MsMpEng"];
     Datastore.Region := "NA" |}.

Definition registered (state : string) : Store :=
  {| mem := registeredDoc state; disk := registeredDoc state; writes := 0 |}.

End Scenario.

Module TsScenario.

Import Ts.

Definition noResult : QueryResult :=
  {| drataAgentVersion := VERSION; platform := "LINUX"; manualRun := false;
     rawQueryResults := ∅ |}.

(** A machine, a disk and a backend where everything works; [init] is the
    answer to the request for the initialization data and [profile] the
    answer to the request for the user. *)
Definition node
  (init : result (option AgentInitializationDataResponseDto))
  (profile : result (option MeResponseDto)) : Node :=
  {| writeFileSync := fun _ => None;
     TARGET_ENV := EmptyString;
     randomUUID := "7c1d";
     nowISO := "2024-01-02T00:00:00.000Z";
     postMagicLink := fun _ => Ok (Some {| authAccessToken := Some "secret" |});
     getUsersMe := profile;
     postRegister := Ok (Some {| regLastCheckedAt := Some "2024-01-02T00:00:01Z" |});
     postSync := fun _ =>
       Ok (Some {| data := Some (Some "2024-01-02T00:00:01Z");
                   syncWinAvServicesMatchList := Some ["MsMpEng"] |});
     getInit := init;
     getSystemInfo := noResult;
     normalize := fun p => p;
     basename := fun p => p;
     existsSync := fun _ => true;
     execFile := fun _ _ => Ok "[]";
     trim := TrimSpace |}.

Definition initOk : result (option AgentInitializationDataResponseDto) :=
  Ok (Some {| initWinAvServicesMatchList := Some ["MsMpEng"] |}).

Definition profileOk : result (option MeResponseDto) :=
  Ok (Some {| meId := 7; meEmail := "alice@example.com";
              meFirstName := "Alice"; meLastName := "Doe" |}).

(** A registered agent that has not fetched its initialization data. *)
Definition registeredConfig : CliConfig :=
  {| uuid := Some "0b4a"; appVersion := Some VERSION;
     accessToken := Some "secret"; user := None; syncState := Some SUCCESS;
     lastCheckedAt := None; lastSyncAttemptedAt := None;
     winAvServicesMatchList := None; region := Some "NA" |}.

Definition registered : Helper :=
  {| config := registeredConfig; file := registeredConfig; writes := 0 |}.

Definition fresh : Helper :=
  {| config := emptyConfig; file := emptyConfig; writes := 0 |}.

End TsScenario.

(** ** Further machines, disks and backends for the examples *)

Module Example.

Import Config Osquery Wire Datastore.

(** A backend that cannot be reached. *)
Definition backendDown : Api.Backend :=
  {| Api.newRequestError := fun _ _ => None;
     Api.postMagicLink := fun _ => Err "connection refused";
     Api.getUsersMe := Err "connection refused";
     Api.postRegister := fun _ => Err "connection refused";
     Api.postSync := fun _ => Err "connection refused";
     Api.getInit := Err "connection refused" |}.

(** A backend whose answers carry neither the time of the last check nor a
    list of antivirus services. *)
Definition backendTerse : Api.Backend :=
  {| Api.newRequestError := fun _ _ => None;
     Api.postMagicLink := fun _ =>
       Scenario.reply 201 {| Wire.AccessToken := "secret" |};
     Api.getUsersMe := Scenario.reply 200 Scenario.me;
     Api.postRegister := fun _ =>
       Scenario.reply 201 {| Wire.LastCheckedAt := EmptyString; Data := VNil;
                             Wire.WinAvServicesMatchList := None |};
     Api.postSync := fun _ =>
       Scenario.reply 201
         {| SyncData := {| Wire.LastCheckedAt := EmptyString; Data := VNil;
                           Wire.WinAvServicesMatchList := None |};
            SyncWinAvServicesMatchList := None |};
     Api.getInit :=
       Scenario.reply 200 {| InitWinAvServicesMatchList := Some [] |} |}.



(** A registered agent whose last sync succeeded. *)
Definition syncedDoc : DataStore :=
  with_LastCheckedAt "2024-01-01T00:00:00Z" (Scenario.registeredDoc "SUCCESS").

Definition synced : Store :=
  {| mem := syncedDoc; disk := syncedDoc; writes := 0 |}.

(** A registered agent that has no initialization data yet. *)
Definition unreadyDoc : DataStore :=
  with_WinAvServicesMatchList None (Scenario.registeredDoc "SUCCESS").

Definition unready : Store :=
  {| mem := unreadyDoc; disk := unreadyDoc; writes := 0 |}.

End Example.

(** ** A scheduler for the examples *)

Module SchedulerExample.

Import Scheduler.

(** A parser that refuses a step of zero, as [*/0] in the hours field. *)
Definition parseSpec (spec : string) : option error :=
  if str_eqb spec "0 0 */0 * * *"
  then Some "step of range should be a positive number: */0"
  else None.

(** The scheduler of the daemon after [ScheduleJob("sync", 2, syncAction)];
    the action is given by its name. *)
Definition daemon : Scheduler string :=
  final (ScheduleJob parseSpec "sync" 2 "syncAction" NewScheduler).

End SchedulerExample.

(** ** The probe writer *)

Import Datastore Osquery Spec.

#[local] Arguments wbind : simpl never.
#[local] Arguments RunCommand : simpl never.
#[local] Arguments RunQuery : simpl never.
#[local] Arguments queryFirst : simpl never.
#[local] Arguments runGsettingsCommand : simpl never.
#[local] Arguments getDesktopSessionUser : simpl never.

Lemma wbind_fst {A B} (m : W A) (k : A -> W B) : (wbind m k).1 = (k m.1).1.
Proof.
  unfold wbind. destruct m as [a t1]. cbn [fst]. by destruct (k a).
Qed.

Lemma wbind_snd {A B} (m : W A) (k : A -> W B) :
  (wbind m k).2 = m.2 ++ (k m.1).2.
Proof.
  unfold wbind. destruct m as [a t1]. cbn [fst snd]. by destruct (k a).
Qed.

(** ** UTF-8: an ASCII byte is always a rune of its own *)

Lemma in_range_lo lo hi b : in_range lo hi b = true -> (lo <= b)%Z.
Proof. unfold in_range. intros [H _]%andb_prop. lia. Qed.

Lemma DecodeRune_conts a tl :
  conts ((DecodeRuneInString (String a tl)).2 - 1) tl.
Proof.
  unfold DecodeRuneInString.
  repeat (case_match; simpl; try done);
    repeat match goal with
           | H : _ && _ = true |- _ => apply andb_prop in H as [? ?]
           | H : in_range ?lo _ _ = true |- _ => apply in_range_lo in H
           end; repeat split; try done; try lia.
Qed.

Lemma DecodeRune_ascii a tl :
  (byte_of a < 128)%Z -> DecodeRuneInString (String a tl) = (byte_of a, 1).
Proof. intros H. unfold DecodeRuneInString. case_match; [done|lia]. Qed.

Lemma ascii_in_chunks pre : forall skip a post,
  (byte_of a < 128)%Z -> conts skip (pre +:+ String a post) ->
  byte_of a ∈ (chunks_from skip (pre +:+ String a post)).*1.
Proof.
  induction pre as [|b pre IH]; intros skip a post Ha Hc.
  - change (EmptyString +:+ String a post) with (String a post) in *.
    destruct skip as [|k]; [|simpl in Hc; lia].
    cbn [chunks_from]. rewrite DecodeRune_ascii by done. cbn. left.
  - change (String b pre +:+ String a post)
      with (String b (pre +:+ String a post)) in *.
    destruct skip as [|k].
    + cbn [chunks_from].
      pose proof (DecodeRune_conts b (pre +:+ String a post)) as Hd.
      destruct (DecodeRuneInString _) as [r size]. cbn [snd] in Hd.
      rewrite fmap_cons. right. by apply IH.
    + cbn [chunks_from]. apply IH; [done|]. by destruct Hc.
Qed.

Lemma ascii_in_runes pre a post :
  (byte_of a < 128)%Z -> byte_of a ∈ runes (pre +:+ String a post).
Proof. intros. apply ascii_in_chunks; [done|]. by destruct (pre +:+ _). Qed.

(** ** The Linux collectors, fact by fact *)

Section Adapter.
Variable h : Host.
Variable c : Client.

Lemma answersb_spec command : answersb h c command = true <-> answers h c command.
Proof.
  unfold answersb, answers, nonEmpty, str_eqb.
  destruct (RunCommand h c command).1 as [out|e].
  - destruct (String.eqb_spec out EmptyString); naive_solver.
  - naive_solver.
Qed.

Lemma isValidSessionUser_spec user :
  isValidSessionUser h user = true <->
  user ≠ EmptyString /\ user ≠ "root"
  /\ forall r, r ∈ runes user -> sessionChar h r = true.
Proof.
  unfold isValidSessionUser, str_eqb.
  destruct (String.eqb_spec user EmptyString) as [->|Hne]; [naive_solver|].
  destruct (String.eqb_spec user "root") as [->|Hnr]; [naive_solver|].
  cbn [orb]. rewrite forallb_forall. split.
  - intros H. split_and!; [done..|]. intros r Hr. apply H. by apply list_elem_of_In.
  - intros (_ & _ & H) r Hr. apply H. by apply list_elem_of_In.
Qed.

Lemma injection_rejected pre post :
  isValidSessionUser h (pre +:+ ";rm -rf" +:+ post) = false.
Proof.
  destruct (isValidSessionUser h _) eqn:E; [|done].
  apply isValidSessionUser_spec in E as (_ & _ & H).
  specialize (H 59%Z).
  assert (sessionChar h 59%Z = false) as Hf by reflexivity.
  rewrite H in Hf; [done|].
  change (";rm -rf" +:+ post) with (String ";" ("rm -rf" +:+ post)).
  by apply (ascii_in_runes pre ";"%char).
Qed.

Lemma getDesktopSessionUser_value :
  (getDesktopSessionUser h c).1 =
    if isValidSessionUser h (TrimSpace (Getenv h "SUDO_USER"))
    then TrimSpace (Getenv h "SUDO_USER")
    else if isValidSessionUser h (TrimSpace (Getenv h "LOGNAME"))
    then TrimSpace (Getenv h "LOGNAME")
    else if isValidSessionUser h (TrimSpace (Getenv h "USER"))
    then TrimSpace (Getenv h "USER")
    else match (RunCommand h c "logname").1 with
         | Ok output =>
           if isValidSessionUser h (TrimSpace output) then TrimSpace output
           else EmptyString
         | Err _ => EmptyString
         end.
Proof.
  unfold getDesktopSessionUser. cbn [firstValid].
  destruct (isValidSessionUser h (TrimSpace (Getenv h "SUDO_USER"))); [done|].
  destruct (isValidSessionUser h (TrimSpace (Getenv h "LOGNAME"))); [done|].
  destruct (isValidSessionUser h (TrimSpace (Getenv h "USER"))); [done|].
  rewrite wbind_fst. cbn [wret fst]. by destruct (RunCommand h c "logname").1.
Qed.

Lemma getDesktopSessionUser_events :
  (getDesktopSessionUser h c).2 =
    if isValidSessionUser h (TrimSpace (Getenv h "SUDO_USER"))
       || isValidSessionUser h (TrimSpace (Getenv h "LOGNAME"))
       || isValidSessionUser h (TrimSpace (Getenv h "USER"))
    then [] else [Command "logname"].
Proof.
  unfold getDesktopSessionUser. cbn [firstValid].
  destruct (isValidSessionUser h (TrimSpace (Getenv h "SUDO_USER"))); [done|].
  destruct (isValidSessionUser h (TrimSpace (Getenv h "LOGNAME"))); [done|].
  destruct (isValidSessionUser h (TrimSpace (Getenv h "USER"))); [done|].
  by rewrite wbind_snd.
Qed.

(** *** Lookups that a fact leaves alone *)

Lemma osVersion_other m k :
  k ≠ "osVersion" -> (Linux.osVersion h c m).1 !! k = m !! k.
Proof.
  intros. unfold Linux.osVersion. rewrite wbind_fst. cbn [wret fst].
  destruct (found _); [by rewrite lookup_insert_ne|done].
Qed.

Lemma hardwareSerial_other m k :
  k ≠ "hwSerial" -> (Linux.hardwareSerial h c m).1 !! k = m !! k.
Proof.
  intros. unfold Linux.hardwareSerial. rewrite wbind_fst. cbn [wret fst].
  destruct (found _); [by rewrite lookup_insert_ne|done].
Qed.

Lemma hardwareModel_other m k :
  k ≠ "hwModel" -> (Linux.hardwareModel h c m).1 !! k = m !! k.
Proof.
  intros. unfold Linux.hardwareModel. rewrite wbind_fst. cbn [wret fst].
  destruct (found _); [by rewrite lookup_insert_ne|done].
Qed.

Lemma systemInformation_other m k :
  k ∉ ["localHostName"; "hostName"; "computerName"; "boardModel"; "boardSerial"] ->
  (Linux.systemInformation h c m).1 !! k = m !! k.
Proof.
  intros Hk. unfold Linux.systemInformation. rewrite wbind_fst. cbn [wret fst].
  destruct (found _); [|done].
  rewrite !lookup_insert_ne; [done|..]; intros ?; subst k; apply Hk; set_solver.
Qed.

Lemma firewallStatus_other m k :
  k ≠ "firewallStatus" -> (Linux.firewallStatus h c m).1 !! k = m !! k.
Proof.
  intros. unfold Linux.firewallStatus.
  destruct (isRPMBasedDistro h); rewrite wbind_fst; cbn [wret fst].
  - destruct (succeeded _); [by rewrite lookup_insert_ne|done].
  - destruct (found _); [by rewrite lookup_insert_ne|done].
Qed.

Lemma applicationList_other m k :
  k ≠ "appList" -> (Linux.applicationList h c m).1 !! k = m !! k.
Proof.
  intros. unfold Linux.applicationList. rewrite wbind_fst. cbn [wret fst].
  destruct (RunQuery h c _).1; [by rewrite lookup_insert_ne|done].
Qed.

Lemma antivirusCheck_other m k :
  k ≠ "antivirusStatus" -> (Linux.antivirusCheck h c m).1 !! k = m !! k.
Proof.
  intros. unfold Linux.antivirusCheck. rewrite wbind_fst. cbn [wret fst].
  by rewrite lookup_insert_ne.
Qed.

Lemma browserExtensions_other m k :
  k ≠ "browserExtensions" -> (Linux.browserExtensions h c m).1 !! k = m !! k.
Proof.
  intros. unfold Linux.browserExtensions. rewrite !wbind_fst. cbn [wret fst].
  by rewrite lookup_insert_ne.
Qed.

Lemma macAddress_other m k :
  k ≠ "macAddress" -> (Linux.macAddress h c m).1 !! k = m !! k.
Proof.
  intros. unfold Linux.macAddress. rewrite !wbind_fst. cbn [wret fst].
  destruct (found _); [by rewrite lookup_insert_ne|done].
Qed.

Lemma autoUpdate_other m k :
  k ≠ "autoUpdateEnabled" -> k ≠ "autoUpdateSettings" ->
  (Linux.autoUpdate h c m).1 !! k = m !! k.
Proof.
  intros. unfold Linux.autoUpdate. rewrite !wbind_fst.
  destruct (succeeded _) as [out|]; [destruct (str_eqb out "true")|];
    rewrite wbind_fst; cbn [wret fst]; rewrite ?lookup_insert_ne; done.
Qed.

Lemma screenLockStatus_other m k :
  k ≠ "screenLockStatus" -> (Linux.screenLockStatus h c m).1 !! k = m !! k.
Proof.
  intros. unfold Linux.screenLockStatus. rewrite !wbind_fst. cbn [wret fst].
  by rewrite lookup_insert_ne.
Qed.

Lemma locationServices_other m k :
  k ≠ "locationServices" -> (Linux.locationServices h c m).1 !! k = m !! k.
Proof.
  intros. unfold Linux.locationServices. rewrite !wbind_fst. cbn [wret fst].
  by rewrite lookup_insert_ne.
Qed.

Lemma screenLockSettings_other m k :
  k ≠ "screenLockSettings" -> (Linux.screenLockSettings h c m).1 !! k = m !! k.
Proof.
  intros. unfold Linux.screenLockSettings. rewrite !wbind_fst. cbn [wret fst].
  by rewrite lookup_insert_ne.
Qed.

(** *** Antivirus *)

Lemma flatpakLoop_passed scopes av :
  (Linux.flatpakLoop h c scopes av).1 !! "passed" =
  if existsb (answersb h c) scopes.*2 then Some (VBool true) else av !! "passed".
Proof.
  revert av. induction scopes as [|[label command] rest IH]; intros av; [done|].
  cbn [Linux.flatpakLoop fmap list_fmap existsb snd]. rewrite wbind_fst.
  unfold answersb at 1.
  destruct (nonEmpty (RunCommand h c command).1) eqn:E; cbn [orb wret fst].
  - by rewrite lookup_insert_eq.
  - apply IH.
Qed.

Lemma antivirusStatus_passed :
  (Linux.antivirusStatus h c).1 !! "passed" =
  Some (VBool (existsb (answersb h c)
                 (Linux.clamavProbe h :: Linux.flatpakScopes.*2))).
Proof.
  unfold Linux.antivirusStatus. rewrite wbind_fst, flatpakLoop_passed.
  cbn [existsb].
  destruct (answersb h c (Linux.clamavProbe h)) eqn:E; unfold answersb in E;
    destruct (nonEmpty (RunCommand h c (Linux.clamavProbe h)).1); try discriminate.
  - rewrite lookup_insert_eq. by destruct (existsb _ _).
  - rewrite lookup_singleton_eq. by destruct (existsb _ _).
Qed.

Lemma collect_antivirus :
  (Linux.collect h c).1 !! "antivirusStatus"
  = Some (VMap (Linux.antivirusStatus h c).1).
Proof.
  unfold Linux.collect. rewrite !wbind_fst.
  rewrite screenLockSettings_other, locationServices_other,
    screenLockStatus_other, autoUpdate_other, macAddress_other,
    browserExtensions_other by done.
  unfold Linux.antivirusCheck. rewrite wbind_fst. cbn [wret fst].
  by rewrite lookup_insert_eq.
Qed.

Lemma packageProbe_passed key command av :
  key ≠ "passed" ->
  (LinuxPlain.packageProbe h c key command av).1 !! "passed" =
  if answersb h c command then Some (VBool true) else av !! "passed".
Proof.
  intros. unfold LinuxPlain.packageProbe, answersb. rewrite wbind_fst.
  cbn [wret fst]. destruct (nonEmpty _); [by rewrite lookup_insert_eq|done].
Qed.

Lemma plain_antivirusStatus_passed :
  (LinuxPlain.antivirusStatus h c).1 !! "passed" =
  Some (VBool (existsb (answersb h c)
                 [LinuxPlain.clamtkProbe h; LinuxPlain.clamavProbe h;
                  LinuxPlain.flatpakProbe])).
Proof.
  unfold LinuxPlain.antivirusStatus. rewrite !wbind_fst.
  rewrite !packageProbe_passed by done. rewrite lookup_singleton_eq.
  cbn [existsb]. by repeat destruct (answersb h c _).
Qed.
End Adapter.

Section AutoUpdate.
Variable h : Host.
Variable c : Client.

Lemma diagnostic_value key command settings :
  (Linux.diagnostic h c key command settings).1
  = settings ++ entry h c key command.
Proof.
  unfold Linux.diagnostic, entry. rewrite wbind_fst. cbn [wret fst].
  destruct (RunCommand h c command).1; [done|by rewrite app_nil_r].
Qed.

Lemma rpmDiagnostics_value settings :
  (Linux.rpmDiagnostics h c settings).1
  = settings ++ entries h c rpmDiagnosticCommands.
Proof.
  unfold Linux.rpmDiagnostics. rewrite !wbind_fst, !diagnostic_value.
  unfold entries. cbn [flat_map rpmDiagnosticCommands fst snd].
  by rewrite app_nil_r, <- !app_assoc.
Qed.

Lemma aptDiagnostics_value settings :
  (Linux.aptDiagnostics h c settings).1
  = settings ++ entries h c aptDiagnosticCommands.
Proof.
  unfold Linux.aptDiagnostics. rewrite !wbind_fst, !diagnostic_value.
  unfold entries. cbn [flat_map aptDiagnosticCommands fst snd].
  by rewrite app_nil_r, <- !app_assoc.
Qed.

(** The session-aware collector: only the GNOME Software probe decides. *)
Lemma autoUpdate_enabled m :
  (Linux.autoUpdate h c m).1 !! "autoUpdateEnabled" =
  match (runGsettingsCommand h c Linux.downloadUpdates).1 with
  | Ok output =>
    if str_eqb output "true" then Some passed1 else m !! "autoUpdateEnabled"
  | Err _ => m !! "autoUpdateEnabled"
  end.
Proof.
  unfold Linux.autoUpdate. rewrite !wbind_fst.
  destruct (runGsettingsCommand h c Linux.downloadUpdates).1 as [out|e];
    cbn [succeeded]; [destruct (str_eqb out "true")|];
    rewrite wbind_fst; cbn [wret fst];
    rewrite lookup_insert_ne by done; [by rewrite lookup_insert_eq|done..].
Qed.

Lemma autoUpdate_settings m :
  (Linux.autoUpdate h c m).1 !! "autoUpdateSettings" =
  Some (VList
    (match (runGsettingsCommand h c Linux.downloadUpdates).1 with
     | Ok output => [VMap {[ "gnomeSoftwareDownloadUpdates" := VStr output ]}]
     | Err _ => []
     end
     ++ entries h c (if isRPMBasedDistro h then rpmDiagnosticCommands
                     else aptDiagnosticCommands))).
Proof.
  unfold Linux.autoUpdate. rewrite !wbind_fst.
  destruct (runGsettingsCommand h c Linux.downloadUpdates).1 as [out|e];
    cbn [succeeded]; [destruct (str_eqb out "true")|];
    rewrite wbind_fst; cbn [wret fst]; rewrite lookup_insert_eq;
    destruct (isRPMBasedDistro h);
    by rewrite ?rpmDiagnostics_value, ?aptDiagnostics_value.
Qed.

Lemma collect_autoUpdateEnabled :
  (Linux.collect h c).1 !! "autoUpdateEnabled"
  = enabledBy (runGsettingsCommand h c Linux.downloadUpdates).1.
Proof.
  unfold Linux.collect. rewrite !wbind_fst.
  rewrite screenLockSettings_other, locationServices_other,
    screenLockStatus_other by done.
  rewrite autoUpdate_enabled.
  rewrite macAddress_other, browserExtensions_other, antivirusCheck_other,
    applicationList_other, firewallStatus_other by done.
  rewrite systemInformation_other by set_solver.
  rewrite hardwareModel_other, hardwareSerial_other, osVersion_other by done.
  by rewrite lookup_empty.
Qed.

Lemma collect_autoUpdateSettings :
  (Linux.collect h c).1 !! "autoUpdateSettings" =
  Some (VList
    (match (runGsettingsCommand h c Linux.downloadUpdates).1 with
     | Ok output => [VMap {[ "gnomeSoftwareDownloadUpdates" := VStr output ]}]
     | Err _ => []
     end
     ++ entries h c (if isRPMBasedDistro h then rpmDiagnosticCommands
                     else aptDiagnosticCommands))).
Proof.
  unfold Linux.collect. rewrite !wbind_fst.
  rewrite screenLockSettings_other, locationServices_other,
    screenLockStatus_other by done.
  apply autoUpdate_settings.
Qed.

(** *** The variant without session lookup *)

Lemma plain_antivirusCheck_other m k :
  k ≠ "antivirusStatus" -> (LinuxPlain.antivirusCheck h c m).1 !! k = m !! k.
Proof.
  intros. unfold LinuxPlain.antivirusCheck. rewrite wbind_fst. cbn [wret fst].
  by rewrite lookup_insert_ne.
Qed.

Lemma plain_autoUpdate_other m k :
  k ≠ "autoUpdateEnabled" -> k ≠ "autoUpdateSettings" ->
  (LinuxPlain.autoUpdate h c m).1 !! k = m !! k.
Proof.
  intros. unfold LinuxPlain.autoUpdate, LinuxPlain.autoUpdateRPM,
    LinuxPlain.autoUpdateDebian.
  destruct (isRPMBasedDistro h); rewrite !wbind_fst.
  - destruct (succeeded _) as [out|]; [destruct (str_eqb out "true")|];
      rewrite !wbind_fst; cbn [wret fst]; rewrite ?lookup_insert_ne; done.
  - destruct (found _); cbn [wret fst]; rewrite ?lookup_insert_ne; done.
Qed.

Lemma plain_screenLockStatus_other m k :
  k ≠ "screenLockStatus" -> (LinuxPlain.screenLockStatus h c m).1 !! k = m !! k.
Proof.
  intros. unfold LinuxPlain.screenLockStatus. rewrite !wbind_fst. cbn [wret fst].
  by rewrite lookup_insert_ne.
Qed.

Lemma plain_locationServices_other m k :
  k ≠ "locationServices" -> (LinuxPlain.locationServices h c m).1 !! k = m !! k.
Proof.
  intros. unfold LinuxPlain.locationServices. rewrite !wbind_fst. cbn [wret fst].
  by rewrite lookup_insert_ne.
Qed.

Lemma plain_screenLockSettings_other m k :
  k ≠ "screenLockSettings" ->
  (LinuxPlain.screenLockSettings h c m).1 !! k = m !! k.
Proof.
  intros. unfold LinuxPlain.screenLockSettings. rewrite !wbind_fst.
  cbn [wret fst]. by rewrite lookup_insert_ne.
Qed.

Lemma plain_collect_antivirus :
  (LinuxPlain.collect h c).1 !! "antivirusStatus"
  = Some (VMap (LinuxPlain.antivirusStatus h c).1).
Proof.
  unfold LinuxPlain.collect. rewrite !wbind_fst.
  rewrite plain_screenLockSettings_other, plain_locationServices_other,
    plain_screenLockStatus_other, plain_autoUpdate_other, macAddress_other,
    browserExtensions_other by done.
  unfold LinuxPlain.antivirusCheck. rewrite wbind_fst. cbn [wret fst].
  by rewrite lookup_insert_eq.
Qed.

Lemma plain_autoUpdate_enabled m :
  (LinuxPlain.autoUpdate h c m).1 !! "autoUpdateEnabled" =
  if isRPMBasedDistro h then
    match (RunCommand h c LinuxPlain.downloadUpdates).1 with
    | Ok output =>
      if str_eqb output "true" then Some passed1 else m !! "autoUpdateEnabled"
    | Err _ => m !! "autoUpdateEnabled"
    end
  else
    match found (queryFirst h c LinuxPlain.unattendedUpgrades).1 with
    | Some result => Some (VMap result)
    | None => m !! "autoUpdateEnabled"
    end.
Proof.
  unfold LinuxPlain.autoUpdate, LinuxPlain.autoUpdateRPM,
    LinuxPlain.autoUpdateDebian.
  destruct (isRPMBasedDistro h); rewrite !wbind_fst.
  - destruct (RunCommand h c LinuxPlain.downloadUpdates).1 as [out|e];
      cbn [succeeded]; [destruct (str_eqb out "true")|];
      rewrite !wbind_fst; cbn [wret fst];
      rewrite lookup_insert_ne by done; [by rewrite lookup_insert_eq|done..].
  - destruct (found _); cbn [wret fst]; rewrite lookup_insert_ne by done;
      [by rewrite lookup_insert_eq|done].
Qed.

Lemma plain_collect_autoUpdateEnabled :
  (LinuxPlain.collect h c).1 !! "autoUpdateEnabled" =
  if isRPMBasedDistro h
  then enabledBy (RunCommand h c LinuxPlain.downloadUpdates).1
  else VMap <$> found (queryFirst h c LinuxPlain.unattendedUpgrades).1.
Proof.
  unfold LinuxPlain.collect. rewrite !wbind_fst.
  rewrite plain_screenLockSettings_other, plain_locationServices_other,
    plain_screenLockStatus_other by done.
  rewrite plain_autoUpdate_enabled.
  rewrite macAddress_other, browserExtensions_other, plain_antivirusCheck_other,
    applicationList_other, firewallStatus_other by done.
  rewrite systemInformation_other by set_solver.
  rewrite hardwareModel_other, hardwareSerial_other, osVersion_other by done.
  rewrite lookup_empty. unfold enabledBy.
  destruct (isRPMBasedDistro h); [done|]. by destruct (found _).
Qed.
Lemma plain_autoUpdate_settings m :
  (LinuxPlain.autoUpdate h c m).1 !! "autoUpdateSettings" =
  Some (VList
    (if isRPMBasedDistro h then
       entries h c (take 1 rpmDiagnosticCommands)
       ++ match (RunCommand h c LinuxPlain.downloadUpdates).1 with
          | Ok output => [VMap {[ "gnomeSoftwareDownloadUpdates" := VStr output ]}]
          | Err _ => []
          end
       ++ entries h c (drop 1 rpmDiagnosticCommands)
     else entries h c aptDiagnosticCommands)).
Proof.
  unfold LinuxPlain.autoUpdate, LinuxPlain.autoUpdateRPM,
    LinuxPlain.autoUpdateDebian.
  destruct (isRPMBasedDistro h); rewrite !wbind_fst.
  - rewrite diagnostic_value.
    destruct (RunCommand h c LinuxPlain.downloadUpdates).1 as [out|e];
      cbn [succeeded]; [destruct (str_eqb out "true")|];
      rewrite !wbind_fst; cbn [wret fst]; rewrite lookup_insert_eq;
      rewrite !diagnostic_value; unfold entries;
      cbn [take drop flat_map rpmDiagnosticCommands fst snd app];
      by rewrite ?app_nil_r, <- ?app_assoc.
  - destruct (found _); cbn [wret fst]; rewrite lookup_insert_eq;
      by rewrite aptDiagnostics_value.
Qed.

Lemma plain_collect_autoUpdateSettings :
  (LinuxPlain.collect h c).1 !! "autoUpdateSettings" =
  Some (VList
    (if isRPMBasedDistro h then
       entries h c (take 1 rpmDiagnosticCommands)
       ++ match (RunCommand h c LinuxPlain.downloadUpdates).1 with
          | Ok output => [VMap {[ "gnomeSoftwareDownloadUpdates" := VStr output ]}]
          | Err _ => []
          end
       ++ entries h c (drop 1 rpmDiagnosticCommands)
     else entries h c aptDiagnosticCommands)).
Proof.
  unfold LinuxPlain.collect. rewrite !wbind_fst.
  rewrite plain_screenLockSettings_other, plain_locationServices_other,
    plain_screenLockStatus_other by done.
  apply plain_autoUpdate_settings.
Qed.
End AutoUpdate.

(** *** Which probes run *)

Section Dispatch.
Variable h : Host.
Variable c : Client.

Lemma gsettings_outside rpm args :
  Forall (fun e => inFamily rpm e = false) (runGsettingsCommand h c args).2.
Proof.
  unfold runGsettingsCommand. rewrite wbind_snd, getDesktopSessionUser_events.
  apply Forall_app. split.
  - destruct (_ || _); [constructor|]. constructor; [|constructor].
    by destruct rpm.
  - destruct (str_eqb _ _).
    + constructor; [|constructor]. destruct rpm; vm_compute; reflexivity.
    + rewrite wbind_snd. apply Forall_app. split.
      * constructor; [|constructor]. destruct rpm; vm_compute; reflexivity.
      * destruct (RunCommand h c _).1; [constructor|].
        constructor; [|constructor]. destruct rpm; vm_compute; reflexivity.
Qed.

Lemma firewallStatus_events m :
  (Linux.firewallStatus h c m).2 =
  if isRPMBasedDistro h then [Command "systemctl is-active firewalld"]
  else [Query "SELECT COUNT(*) AS passed FROM augeas WHERE path = '/etc/ufw/ufw.conf' AND label = 'ENABLED' AND value = 'yes'"].
Proof. unfold Linux.firewallStatus. by destruct (isRPMBasedDistro h). Qed.

Lemma applicationList_events m :
  (Linux.applicationList h c m).2 =
  [Query (if isRPMBasedDistro h then "SELECT name, version FROM rpm_packages"
            else "SELECT name, version FROM deb_packages")].
Proof. reflexivity. Qed.

Lemma flatpakLoop_outside rpm scopes av :
  Forall (fun sc => inFamily rpm (Command sc.2) = false) scopes ->
  Forall (fun e => inFamily rpm e = false) (Linux.flatpakLoop h c scopes av).2.
Proof.
  revert av. induction scopes as [|[label command] rest IH]; intros av Hsc;
    [constructor|].
  apply Forall_cons in Hsc as [Hhd Htl].
  cbn [Linux.flatpakLoop]. rewrite wbind_snd. apply Forall_app. split.
  - by constructor.
  - destruct (nonEmpty _); [constructor|]. by apply IH.
Qed.

Lemma antivirusCheck_events m :
  exists rest, (Linux.antivirusCheck h c m).2 = Command (Linux.clamavProbe h) :: rest.
Proof.
  unfold Linux.antivirusCheck, Linux.antivirusStatus. rewrite !wbind_snd.
  eexists. reflexivity.
Qed.

Lemma diagnostic_events key command settings :
  (Linux.diagnostic h c key command settings).2 = [Command command].
Proof. reflexivity. Qed.

Lemma autoUpdate_events m :
  (Linux.autoUpdate h c m).2 =
  (runGsettingsCommand h c Linux.downloadUpdates).2
  ++ (Command <$> (if isRPMBasedDistro h then rpmDiagnosticCommands
                  else aptDiagnosticCommands).*2).
Proof.
  unfold Linux.autoUpdate. rewrite wbind_snd. f_equal.
  destruct (succeeded _) as [out|]; [destruct (str_eqb out "true")|];
    rewrite wbind_snd; cbn [wret snd]; rewrite app_nil_r;
    unfold Linux.rpmDiagnostics, Linux.aptDiagnostics;
    destruct (isRPMBasedDistro h); by rewrite !wbind_snd.
Qed.

(** Every probe of the collector lies outside the other family's set. *)
Lemma collect_outside :
  Forall (fun e => inFamily (negb (isRPMBasedDistro h)) e = false)
    (Linux.collect h c).2.
Proof.
  unfold Linux.collect. rewrite !wbind_snd.
  rewrite firewallStatus_events, applicationList_events, autoUpdate_events.
  unfold Linux.antivirusCheck, Linux.antivirusStatus, Linux.browserExtensions,
    Linux.browserProbe, Linux.screenLockStatus, Linux.delayProbe,
    Linux.locationServices, Linux.screenLockSettings, Linux.settingProbe,
    Linux.clamavProbe.
  rewrite !wbind_snd.
  repeat first
    [ apply Forall_nil_2
    | apply Forall_app_2
    | apply gsettings_outside
    | apply flatpakLoop_outside; destruct (isRPMBasedDistro h); by repeat constructor
    | progress cbn [wret snd]
    | match goal with
      | |- Forall _ (if Stat h ?p then _ else _).2 => destruct (Stat h p)
      | |- Forall _ (wbind _ _).2 => rewrite wbind_snd
      end ];
    destruct (isRPMBasedDistro h); repeat constructor.
Qed.

Lemma collect_runs_family :
  (forall command, command ∈ familyCommands (isRPMBasedDistro h) ->
                   Command command ∈ (Linux.collect h c).2)
  /\ (forall sql, sql ∈ familyQueries (isRPMBasedDistro h) ->
                  Query sql ∈ (Linux.collect h c).2).
Proof.
  unfold Linux.collect. rewrite !wbind_snd.
  rewrite firewallStatus_events, applicationList_events, autoUpdate_events.
  match goal with
  | |- context [(Linux.antivirusCheck h c ?m).2] =>
    destruct (antivirusCheck_events m) as [rest ->]
  end.
  unfold Linux.clamavProbe, familyCommands, familyQueries.
  destruct (isRPMBasedDistro h);
    [ let l := eval vm_compute in (Command <$> rpmDiagnosticCommands.*2) in
      change (Command <$> rpmDiagnosticCommands.*2) with l
    | let l := eval vm_compute in (Command <$> aptDiagnosticCommands.*2) in
      change (Command <$> aptDiagnosticCommands.*2) with l ];
    cbv beta iota;
    (split; intros x Hx; vm_compute in Hx;
     repeat (apply elem_of_cons in Hx as [->|Hx]);
     first [by apply elem_of_nil in Hx | find_mem]).
Qed.
End Dispatch.

(** *** Which probes run, in the collector without session lookup *)

Section PlainDispatch.
Variable h : Host.
Variable c : Client.

Lemma plain_antivirusCheck_events m :
  (LinuxPlain.antivirusCheck h c m).2 =
  [Command (LinuxPlain.clamtkProbe h); Command (LinuxPlain.clamavProbe h);
   Command LinuxPlain.flatpakProbe].
Proof.
  unfold LinuxPlain.antivirusCheck, LinuxPlain.antivirusStatus,
    LinuxPlain.packageProbe.
  by rewrite !wbind_snd.
Qed.

Lemma plain_autoUpdate_events m :
  (LinuxPlain.autoUpdate h c m).2 =
  if isRPMBasedDistro h
  then [Command "systemctl is-enabled dnf-automatic.timer || systemctl is-enabled yum-cron";
        Command LinuxPlain.downloadUpdates;
        Command "dnf history list --last 10 || yum history list last 10";
        Command "cat /etc/dnf/automatic.conf || cat /etc/yum/yum-cron.conf";
        Command "rpm -q --last | head -20"]
  else Query LinuxPlain.unattendedUpgrades :: (Command <$> aptDiagnosticCommands.*2).
Proof.
  unfold LinuxPlain.autoUpdate. destruct (isRPMBasedDistro h).
  - unfold LinuxPlain.autoUpdateRPM. rewrite !wbind_snd.
    destruct (succeeded _) as [out|]; by rewrite !wbind_snd.
  - unfold LinuxPlain.autoUpdateDebian, Linux.aptDiagnostics, queryFirst.
    by rewrite !wbind_snd.
Qed.

Lemma plain_tail_events m :
  (LinuxPlain.screenLockStatus h c m).2
    = [Command "gsettings get org.gnome.desktop.session idle-delay"]
  /\ (LinuxPlain.locationServices h c m).2
     = [Command "gsettings get org.gnome.system.location enabled"]
  /\ (LinuxPlain.screenLockSettings h c m).2
     = [Command "gsettings list-recursively org.gnome.settings-daemon.plugins.power";
        Command "gsettings list-recursively org.gnome.desktop.screensaver";
        Command "gsettings list-recursively org.gnome.desktop.session"].
Proof.
  unfold LinuxPlain.screenLockStatus, LinuxPlain.locationServices,
    LinuxPlain.screenLockSettings, LinuxPlain.settingProbe.
  by rewrite !wbind_snd.
Qed.

(** Every probe of the collector lies outside the other family's set. *)
Lemma plain_collect_outside :
  Forall (fun e => inPlainFamily (negb (isRPMBasedDistro h)) e = false)
    (LinuxPlain.collect h c).2.
Proof.
  unfold LinuxPlain.collect. rewrite !wbind_snd.
  rewrite firewallStatus_events, applicationList_events,
    plain_antivirusCheck_events, plain_autoUpdate_events.
  repeat match goal with
         | |- context [(LinuxPlain.screenLockStatus h c ?m).2] =>
           destruct (plain_tail_events m) as (-> & _ & _)
         | |- context [(LinuxPlain.locationServices h c ?m).2] =>
           destruct (plain_tail_events m) as (_ & -> & _)
         | |- context [(LinuxPlain.screenLockSettings h c ?m).2] =>
           destruct (plain_tail_events m) as (_ & _ & ->)
         end.
  unfold Linux.browserExtensions, Linux.browserProbe, LinuxPlain.clamtkProbe,
    LinuxPlain.clamavProbe, Linux.osVersion, Linux.hardwareSerial,
    Linux.hardwareModel, Linux.systemInformation, Linux.macAddress, queryFirst.
  rewrite !wbind_snd.
  repeat first
    [ apply Forall_nil_2
    | apply Forall_app_2
    | progress cbn [wret snd]
    | match goal with
      | |- Forall _ (if Stat h ?p then _ else _).2 => destruct (Stat h p)
      | |- Forall _ (wbind _ _).2 => rewrite wbind_snd
      end ];
    destruct (isRPMBasedDistro h); repeat constructor.
Qed.

Lemma plain_collect_runs_family :
  (forall command, command ∈ plainFamilyCommands (isRPMBasedDistro h) ->
                   Command command ∈ (LinuxPlain.collect h c).2)
  /\ (forall sql, sql ∈ plainFamilyQueries (isRPMBasedDistro h) ->
                  Query sql ∈ (LinuxPlain.collect h c).2).
Proof.
  unfold LinuxPlain.collect. rewrite !wbind_snd.
  rewrite firewallStatus_events, applicationList_events,
    plain_antivirusCheck_events, plain_autoUpdate_events.
  unfold LinuxPlain.clamtkProbe, LinuxPlain.clamavProbe, plainFamilyCommands,
    plainFamilyQueries, LinuxPlain.downloadUpdates, LinuxPlain.unattendedUpgrades.
  destruct (isRPMBasedDistro h);
    [ 
    | let l := eval vm_compute in (Command <$> aptDiagnosticCommands.*2) in
      change (Command <$> aptDiagnosticCommands.*2) with l ];
    cbv beta iota;
    (split; intros x Hx; vm_compute in Hx;
     repeat (apply elem_of_cons in Hx as [->|Hx]);
     first [by apply elem_of_nil in Hx | find_mem]).
Qed.
End PlainDispatch.

(** ** The Linux platform adapter: statements *)

Section Snapshot.
Variable h : Host.
Variable c : Client.

Lemma getLinuxSystemInfo_value version :
  (Linux.getLinuxSystemInfo h c version).1 =
  Ok {| DrataAgentVersion := version; Platform := PlatformLinux;
        ManualRun := false; RawQueryResults := (Linux.collect h c).1 |}.
Proof. unfold Linux.getLinuxSystemInfo. by rewrite wbind_fst. Qed.

Lemma plain_getLinuxSystemInfo_value version :
  (LinuxPlain.getLinuxSystemInfo h c version).1 =
  Ok {| DrataAgentVersion := version; Platform := PlatformLinux;
        ManualRun := false; RawQueryResults := (LinuxPlain.collect h c).1 |}.
Proof. unfold LinuxPlain.getLinuxSystemInfo. by rewrite wbind_fst. Qed.

Lemma existsb_answers l :
  existsb (answersb h c) l = true <-> exists p, p ∈ l /\ answers h c p.
Proof.
  rewrite existsb_exists. split; intros (p & Hin & Hp); exists p.
  - split; [by apply list_elem_of_In|by apply answersb_spec].
  - split; [by apply list_elem_of_In|by apply answersb_spec].
Qed.
End Snapshot.

(** C4. In the Linux snapshot the antivirus [passed] flag is [true] exactly
    when one of the installed-product probes answers with a non-empty output,
    and [false] otherwise. In the session-aware collector the probes are the
    package-manager query for clamav ([rpm -q clamav] or [dpkg -l clamav])
    and the flatpak listings of the system and user scopes; in the other
    collector they are the package-manager queries for clamtk and clamav and
    one flatpak listing. *)
Theorem antivirus_passed_iff_a_probe_answers
  (h : Host) (c : Client) (version : string) :
  (exists q status b,
      (Linux.getLinuxSystemInfo h c version).1 = Ok q
      /\ RawQueryResults q !! "antivirusStatus" = Some (VMap status)
      /\ status !! "passed" = Some (VBool b)
      /\ (b = true <->
          exists p, p ∈ antivirusProbes (isRPMBasedDistro h) /\ answers h c p))
  /\ (exists q status b,
      (LinuxPlain.getLinuxSystemInfo h c version).1 = Ok q
      /\ RawQueryResults q !! "antivirusStatus" = Some (VMap status)
      /\ status !! "passed" = Some (VBool b)
      /\ (b = true <->
          exists p, p ∈ plainAntivirusProbes (isRPMBasedDistro h)
                    /\ answers h c p)).
Proof.
  split.
  - eexists _, _, _. split; [apply getLinuxSystemInfo_value|].
    split; [apply collect_antivirus|].
    split; [apply antivirusStatus_passed|].
    replace (antivirusProbes (isRPMBasedDistro h))
      with (Linux.clamavProbe h :: Linux.flatpakScopes.*2)
      by (unfold antivirusProbes, Linux.clamavProbe;
          by destruct (isRPMBasedDistro h)).
    apply existsb_answers.
  - eexists _, _, _. split; [apply plain_getLinuxSystemInfo_value|].
    split; [apply plain_collect_antivirus|].
    split; [apply plain_antivirusStatus_passed|].
    replace (plainAntivirusProbes (isRPMBasedDistro h))
      with [LinuxPlain.clamtkProbe h; LinuxPlain.clamavProbe h;
            LinuxPlain.flatpakProbe]
      by (unfold plainAntivirusProbes, LinuxPlain.clamtkProbe,
            LinuxPlain.clamavProbe; by destruct (isRPMBasedDistro h)).
    apply existsb_answers.
Qed.

(** C5, as the claim states it, fails on the collector without session
    lookup: on two Debian machines where GNOME Software answers [false], the
    snapshot holds [autoUpdateEnabled] with the row of the
    unattended-upgrades file query, and the two snapshots differ with that
    row alone. *)
Lemma auto_update_not_by_gnome_alone :
  (RunCommand Fixture.debianWithFile Fixture.client LinuxPlain.downloadUpdates).1
    = Ok "false"
  /\ (RunCommand Fixture.debianWithoutFile Fixture.client
        LinuxPlain.downloadUpdates).1 = Ok "false"
  /\ (exists q, (LinuxPlain.getLinuxSystemInfo Fixture.debianWithFile
                   Fixture.client "3.9.0-cli").1 = Ok q
                /\ RawQueryResults q !! "autoUpdateEnabled"
                   = Some (VMap {[ "passed" := VStr "1" ]}))
  /\ (exists q, (LinuxPlain.getLinuxSystemInfo Fixture.debianWithoutFile
                   Fixture.client "3.9.0-cli").1 = Ok q
                /\ RawQueryResults q !! "autoUpdateEnabled"
                   = Some (VMap {[ "passed" := VStr "0" ]})).
Proof.
  split; [reflexivity|]. split; [reflexivity|].
  split; (eexists; split; [apply plain_getLinuxSystemInfo_value|]);
    cbn [RawQueryResults]; rewrite plain_collect_autoUpdateEnabled;
    vm_compute; reflexivity.
Qed.

(** C5, amended. In the session-aware collector [autoUpdateEnabled] is
    [{"passed": 1}] exactly when the GNOME Software probe ([gsettings get
    org.gnome.software download-updates], run for the session user) answers
    [true], and is absent otherwise, on both families; the other commands
    only add their output to [autoUpdateSettings]. In the collector without
    session lookup the same holds on an RPM-family machine; on a
    Debian-family machine [autoUpdateEnabled] is the row of the
    unattended-upgrades file query, the apt commands only add their output to
    [autoUpdateSettings], and the GNOME Software probe is not run. *)
Theorem auto_update_enabled_by_authoritative_probe
  (h : Host) (c : Client) (version : string) :
  (exists q,
      (Linux.getLinuxSystemInfo h c version).1 = Ok q
      /\ RawQueryResults q !! "autoUpdateEnabled"
         = enabledBy
             (runGsettingsCommand h c "get org.gnome.software download-updates").1
      /\ RawQueryResults q !! "autoUpdateSettings" =
         Some (VList
           (match (runGsettingsCommand h c
                     "get org.gnome.software download-updates").1 with
            | Ok output => [VMap {[ "gnomeSoftwareDownloadUpdates" := VStr output ]}]
            | Err _ => []
            end
            ++ entries h c (if isRPMBasedDistro h then rpmDiagnosticCommands
                            else aptDiagnosticCommands))))
  /\ (exists q,
      (LinuxPlain.getLinuxSystemInfo h c version).1 = Ok q
      /\ RawQueryResults q !! "autoUpdateEnabled" =
         (if isRPMBasedDistro h
          then enabledBy
                 (RunCommand h c
                    "gsettings get org.gnome.software download-updates").1
          else VMap <$> found
                 (queryFirst h c
                    "SELECT COUNT(*) AS passed FROM file WHERE path = '/etc/apt/apt.conf.d/50unattended-upgrades'").1)
      /\ RawQueryResults q !! "autoUpdateSettings" =
         Some (VList
           (if isRPMBasedDistro h then
              entries h c (take 1 rpmDiagnosticCommands)
              ++ match (RunCommand h c
                          "gsettings get org.gnome.software download-updates").1 with
                 | Ok output =>
                   [VMap {[ "gnomeSoftwareDownloadUpdates" := VStr output ]}]
                 | Err _ => []
                 end
              ++ entries h c (drop 1 rpmDiagnosticCommands)
            else entries h c aptDiagnosticCommands)))
  /\ (isRPMBasedDistro h = false ->
      Command "gsettings get org.gnome.software download-updates"
        ∉ (LinuxPlain.collect h c).2).
Proof.
  split; [|split].
  - eexists. split; [apply getLinuxSystemInfo_value|].
    split; [apply collect_autoUpdateEnabled|apply collect_autoUpdateSettings].
  - eexists. split; [apply plain_getLinuxSystemInfo_value|].
    split; [apply plain_collect_autoUpdateEnabled
           |apply plain_collect_autoUpdateSettings].
  - intros Hdeb Hin.
    pose proof (plain_collect_outside h c) as Hout.
    rewrite Forall_forall in Hout. apply Hout in Hin.
    rewrite Hdeb in Hin. vm_compute in Hin. done.
Qed.

Lemma auto_update_enabled_by_authoritative_probe_witness :
  Command "gsettings get org.gnome.software download-updates"
    ∉ (LinuxPlain.collect Fixture.debianWithFile Fixture.client).2.
Proof.
  destruct (auto_update_enabled_by_authoritative_probe Fixture.debianWithFile
              Fixture.client "3.9.0-cli") as (_ & _ & H).
  apply H. reflexivity.
Defined.

(** C6. The desktop session user is the first valid name among the trimmed
    [SUDO_USER], [LOGNAME] and [USER], and otherwise the trimmed output of
    [logname] when it is valid, the command being run only then; a name is
    valid when it is neither empty nor [root] and holds only letters, digits,
    [-] and [_]. With [SUDO_USER=root] and [LOGNAME=alice] the user is
    [alice]; a name containing [;rm -rf] is never valid. *)
Theorem session_user_resolution (h : Host) (c : Client) :
  (forall user,
      isValidSessionUser h user = true <->
      user ≠ EmptyString /\ user ≠ "root"
      /\ forall r, r ∈ runes user -> sessionChar h r = true)
  /\ (getDesktopSessionUser h c).1 =
     (if isValidSessionUser h (TrimSpace (Getenv h "SUDO_USER"))
      then TrimSpace (Getenv h "SUDO_USER")
      else if isValidSessionUser h (TrimSpace (Getenv h "LOGNAME"))
      then TrimSpace (Getenv h "LOGNAME")
      else if isValidSessionUser h (TrimSpace (Getenv h "USER"))
      then TrimSpace (Getenv h "USER")
      else match (RunCommand h c "logname").1 with
           | Ok output =>
             if isValidSessionUser h (TrimSpace output) then TrimSpace output
             else EmptyString
           | Err _ => EmptyString
           end)
  /\ (getDesktopSessionUser h c).2 =
     (if isValidSessionUser h (TrimSpace (Getenv h "SUDO_USER"))
         || isValidSessionUser h (TrimSpace (Getenv h "LOGNAME"))
         || isValidSessionUser h (TrimSpace (Getenv h "USER"))
      then [] else [Command "logname"])
  /\ (Getenv h "SUDO_USER" = "root" -> Getenv h "LOGNAME" = "alice" ->
      getDesktopSessionUser h c = ("alice", []))
  /\ (forall pre post, isValidSessionUser h (pre +:+ ";rm -rf" +:+ post) = false).
Proof.
  split; [apply isValidSessionUser_spec|].
  split; [apply getDesktopSessionUser_value|].
  split; [apply getDesktopSessionUser_events|].
  split; [|apply injection_rejected].
  intros Hsudo Hlogin.
  rewrite (surjective_pairing (getDesktopSessionUser h c)).
  rewrite getDesktopSessionUser_value, getDesktopSessionUser_events.
  rewrite Hsudo, Hlogin. reflexivity.
Qed.

Lemma session_user_resolution_witness :
  getDesktopSessionUser Fixture.sudoRoot Fixture.client = ("alice", []).
Proof.
  destruct (session_user_resolution Fixture.sudoRoot Fixture.client)
    as (_ & _ & _ & H & _).
  apply H; reflexivity.
Defined.

(** C8. A Linux machine is RPM-based exactly when one of the four markers
    exists; each of the two collectors then runs every probe of its RPM
    family and none of its Debian family, and the other way round when no
    marker exists. One release file is enough. *)
Theorem distro_dispatch (h : Host) (c : Client) :
  (isRPMBasedDistro h = true <-> exists p, p ∈ rpmMarkers /\ Stat h p = true)
  /\ runsFamily familyCommands familyQueries (isRPMBasedDistro h)
       (Linux.collect h c).2
  /\ runsFamily plainFamilyCommands plainFamilyQueries (isRPMBasedDistro h)
       (LinuxPlain.collect h c).2
  /\ (Stat h "/etc/redhat-release" = true \/ Stat h "/etc/fedora-release" = true ->
      isRPMBasedDistro h = true).
Proof.
  split.
  { unfold isRPMBasedDistro, rpmMarkers. split.
    - intros H. repeat case_match; try done;
        (eexists; split; [|eassumption]; find_mem).
    - intros (p & Hin & Hp).
      repeat (apply elem_of_cons in Hin as [->|Hin]);
        [by repeat case_match..|by apply elem_of_nil in Hin]. }
  split; [|split].
  - pose proof (collect_runs_family h c) as [Hc Hq].
    pose proof (collect_outside h c) as Hout. rewrite Forall_forall in Hout.
    split; [done|]. split; [done|]. split.
    + intros command Hin Hev. apply Hout in Hev. cbn [inFamily] in Hev.
      apply not_true_iff_false in Hev. apply Hev, existsb_exists.
      exists command. split; [by apply list_elem_of_In|apply String.eqb_refl].
    + intros sql Hin Hev. apply Hout in Hev. cbn [inFamily] in Hev.
      apply not_true_iff_false in Hev. apply Hev, existsb_exists.
      exists sql. split; [by apply list_elem_of_In|apply String.eqb_refl].
  - pose proof (plain_collect_runs_family h c) as [Hc Hq].
    pose proof (plain_collect_outside h c) as Hout. rewrite Forall_forall in Hout.
    split; [done|]. split; [done|]. split.
    + intros command Hin Hev. apply Hout in Hev. cbn [inPlainFamily] in Hev.
      apply not_true_iff_false in Hev. apply Hev, existsb_exists.
      exists command. split; [by apply list_elem_of_In|apply String.eqb_refl].
    + intros sql Hin Hev. apply Hout in Hev. cbn [inPlainFamily] in Hev.
      apply not_true_iff_false in Hev. apply Hev, existsb_exists.
      exists sql. split; [by apply list_elem_of_In|apply String.eqb_refl].
  - unfold isRPMBasedDistro. intros [H|H]; rewrite H; [done|by case_match].
Qed.

Lemma distro_dispatch_witness : isRPMBasedDistro Fixture.fedora = true.
Proof.
  destruct (distro_dispatch Fixture.fedora Fixture.client)
    as (_ & _ & _ & H).
  apply H. right. reflexivity.
Defined.

(** ** Reading the store *)

Import Config Trace.

#[local] Arguments bind : simpl never.
#[local] Arguments Collector.GetSystemInfo : simpl never.
#[local] Arguments Collector.GetAgentDeviceIdentifiers : simpl never.

Lemma bind_read {A B} (f : DataStore -> A) (k : A -> M Store Event B) s :
  bind (read f) k s = k (f (mem s)) s.
Proof.
  unfold bind, read. by destruct (k (f (mem s)) s) as [[r s2] t2].
Qed.

Lemma minutes_unusable clock s :
  unusable clock (LastSyncAttemptedAt (mem s)) ->
  MinutesSinceLastAttempt clock s = (Ok (-1)%Z, s, []).
Proof.
  unfold MinutesSinceLastAttempt, read, str_eqb. intros [H|H].
  - by rewrite H.
  - rewrite H. by destruct (String.eqb _ _).
Qed.

Lemma hours_unusable clock s :
  unusable clock (LastCheckedAt (mem s)) ->
  HoursSinceLastSuccess clock s = (Ok (-1)%Z, s, []).
Proof.
  unfold HoursSinceLastSuccess, read, str_eqb. intros [H|H].
  - by rewrite H.
  - rewrite H. by destruct (String.eqb _ _).
Qed.

Lemma read_inv {A} (f : DataStore -> A) s a s' t :
  read f s = (Ok a, s', t) -> a = f (mem s).
Proof. unfold read. by intros [= <- _ _]. Qed.

Section Throttle.
Variable writeFile : nat -> option error.
Variable clock : Clock.
Variable h : Host.
Variable backend : Api.Backend.
Variable cfg : Config.

Lemma performSync_running osq s :
  SyncState (mem s) = SyncStateRunning ->
  Cmd.performSync writeFile clock h backend cfg osq s
  = (Ok tt, s, [EvLog "Sync already in progress, skipping"]).
Proof.
  intros H. unfold Cmd.performSync, GetSyncState. rewrite bind_read, H.
  reflexivity.
Qed.

Lemma runSync_unregistered force verbose s :
  AccessToken (mem s) = EmptyString ->
  Cmd.runSync writeFile clock h backend cfg force verbose s
  = (Err "agent is not registered. Use 'drata-agent register' first", s, []).
Proof.
  intros H. unfold Cmd.runSync, IsRegistered. rewrite bind_read, H.
  reflexivity.
Qed.

Lemma registered_true s :
  AccessToken (mem s) ≠ EmptyString ->
  negb (negb (str_eqb (AccessToken (mem s)) EmptyString)) = false.
Proof.
  intros H. unfold str_eqb.
  by destruct (String.eqb_spec (AccessToken (mem s)) EmptyString).
Qed.

Lemma runSync_running verbose s :
  AccessToken (mem s) ≠ EmptyString ->
  SyncState (mem s) = SyncStateRunning ->
  Cmd.runSync writeFile clock h backend cfg false verbose s
  = (Err "sync is already in progress", s, []).
Proof.
  intros Hreg H. unfold Cmd.runSync, IsRegistered, GetSyncState.
  rewrite bind_read, registered_true by done. cbn [negb].
  rewrite bind_read, H. reflexivity.
Qed.

Lemma runSync_forced verbose s :
  AccessToken (mem s) ≠ EmptyString ->
  Cmd.runSync writeFile clock h backend cfg true verbose s
  = Cmd.runSyncPipeline writeFile clock h backend cfg true verbose s.
Proof.
  intros Hreg. unfold Cmd.runSync, IsRegistered.
  rewrite bind_read, registered_true by done. reflexivity.
Qed.

Lemma not_running s :
  SyncState (mem s) ≠ SyncStateRunning ->
  str_eqb (SyncState (mem s)) SyncStateRunning = false.
Proof.
  intros H. unfold str_eqb.
  by destruct (String.eqb_spec (SyncState (mem s)) SyncStateRunning).
Qed.

Lemma performSync_too_soon osq s minutes :
  SyncState (mem s) ≠ SyncStateRunning ->
  MinutesSinceLastAttempt clock s = (Ok minutes, s, []) ->
  (0 <= minutes < MinMinutesBetweenSyncs cfg)%Z ->
  Cmd.performSync writeFile clock h backend cfg osq s
  = (Ok tt, s,
     [EvLog ("Last sync attempt was " +:+ fmt_d minutes
             +:+ " minutes ago, skipping (min: "
             +:+ fmt_d (MinMinutesBetweenSyncs cfg) +:+ ")")]).
Proof.
  intros Hst Hmin Hrange. apply read_inv in Hmin.
  unfold Cmd.performSync, GetSyncState, MinutesSinceLastAttempt.
  rewrite bind_read, not_running by done. rewrite bind_read, <- Hmin.
  replace (0 <=? minutes)%Z with true by lia.
  replace (minutes <? MinMinutesBetweenSyncs cfg)%Z with true by lia.
  reflexivity.
Qed.

Lemma runSync_too_soon verbose s minutes :
  AccessToken (mem s) ≠ EmptyString ->
  SyncState (mem s) ≠ SyncStateRunning ->
  MinutesSinceLastAttempt clock s = (Ok minutes, s, []) ->
  (0 <= minutes < MinMinutesBetweenSyncs cfg)%Z ->
  Cmd.runSync writeFile clock h backend cfg false verbose s
  = (Err ("sync was attempted " +:+ fmt_d minutes +:+ " minutes ago. Wait "
          +:+ fmt_d (MinMinutesBetweenSyncs cfg - minutes)
          +:+ " more minutes or use --force"), s, []).
Proof.
  intros Hreg Hst Hmin Hrange. apply read_inv in Hmin.
  unfold Cmd.runSync, IsRegistered, GetSyncState, MinutesSinceLastAttempt.
  rewrite bind_read, registered_true by done. cbn [negb].
  rewrite bind_read, not_running by done. rewrite bind_read, <- Hmin.
  replace (0 <=? minutes)%Z with true by lia.
  replace (minutes <? MinMinutesBetweenSyncs cfg)%Z with true by lia.
  reflexivity.
Qed.

Lemma performSync_proceeds osq s minutes hours :
  SyncState (mem s) ≠ SyncStateRunning ->
  MinutesSinceLastAttempt clock s = (Ok minutes, s, []) ->
  HoursSinceLastSuccess clock s = (Ok hours, s, []) ->
  (minutes < 0 \/ MinMinutesBetweenSyncs cfg <= minutes)%Z ->
  (hours < 0 \/ MinHoursSinceLastSync cfg <= hours)%Z ->
  Cmd.performSync writeFile clock h backend cfg osq s
  = Cmd.performSyncPipeline writeFile clock h backend cfg osq s.
Proof.
  intros Hst Hmin Hhrs Hm Hh. apply read_inv in Hmin. apply read_inv in Hhrs.
  unfold Cmd.performSync, GetSyncState, MinutesSinceLastAttempt,
    HoursSinceLastSuccess.
  rewrite bind_read, not_running by done. rewrite bind_read, <- Hmin.
  replace ((0 <=? minutes)%Z && (minutes <? MinMinutesBetweenSyncs cfg)%Z)
    with false by (symmetry; apply andb_false_iff; lia).
  rewrite bind_read, <- Hhrs.
  replace ((0 <=? hours)%Z && (hours <? MinHoursSinceLastSync cfg)%Z)
    with false by (symmetry; apply andb_false_iff; lia).
  reflexivity.
Qed.

Lemma runSync_proceeds verbose s minutes hours :
  AccessToken (mem s) ≠ EmptyString ->
  SyncState (mem s) ≠ SyncStateRunning ->
  MinutesSinceLastAttempt clock s = (Ok minutes, s, []) ->
  HoursSinceLastSuccess clock s = (Ok hours, s, []) ->
  (minutes < 0 \/ MinMinutesBetweenSyncs cfg <= minutes)%Z ->
  (hours < 0 \/ MinHoursSinceLastSync cfg <= hours)%Z ->
  Cmd.runSync writeFile clock h backend cfg false verbose s
  = Cmd.runSyncPipeline writeFile clock h backend cfg false verbose s.
Proof.
  intros Hreg Hst Hmin Hhrs Hm Hh.
  apply read_inv in Hmin. apply read_inv in Hhrs.
  unfold Cmd.runSync, IsRegistered, GetSyncState, MinutesSinceLastAttempt,
    HoursSinceLastSuccess.
  rewrite bind_read, registered_true by done. cbn [negb].
  rewrite bind_read, not_running by done. rewrite bind_read, <- Hmin.
  replace ((0 <=? minutes)%Z && (minutes <? MinMinutesBetweenSyncs cfg)%Z)
    with false by (symmetry; apply andb_false_iff; lia).
  rewrite bind_read, <- Hhrs.
  replace ((0 <=? hours)%Z && (hours <? MinHoursSinceLastSync cfg)%Z)
    with false by (symmetry; apply andb_false_iff; lia).
  reflexivity.
Qed.
End Throttle.

(** ** The pipeline, step by step *)

Lemma bind_inv {S E A B} (m : M S E A) (k : A -> M S E B) s r s' t :
  bind m k s = (r, s', t) ->
  (exists e, m s = (Err e, s', t) /\ r = Err e)
  \/ (exists a s1 t1 t2,
        m s = (Ok a, s1, t1) /\ k a s1 = (r, s', t2) /\ t = t1 ++ t2).
Proof.
  unfold bind. destruct (m s) as [[[a|e] s1] t1].
  - destruct (k a s1) as [[r2 s2] t2] eqn:Hk. intros [= <- <- <-].
    right. by exists a, s1, t1, t2.
  - intros [= <- <- <-]. left. by exists e.
Qed.

Lemma wrap_inv {S E A} pre (m : M S E A) s r s' t :
  wrap pre m s = (r, s', t) ->
  exists r0, m s = (r0, s', t) /\ is_ok r = is_ok r0.
Proof.
  unfold wrap. destruct (m s) as [[[a|e] s1] t1]; intros [= <- <- <-]; by eexists.
Qed.

Lemma try_inv {S E A} (m : M S E A) s r s' t :
  try m s = (r, s', t) -> exists r0, m s = (r0, s', t) /\ r = Ok r0.
Proof.
  unfold try. destruct (m s) as [[r0 s1] t1]. intros [= <- <- <-]. by eexists.
Qed.

Lemma states_app t1 t2 : states (t1 ++ t2) = states t1 ++ states t2.
Proof. unfold states, written. by rewrite omap_app, fmap_app. Qed.

Lemma requests_app t1 t2 : requests (t1 ++ t2) = requests t1 ++ requests t2.
Proof. unfold requests. by rewrite omap_app. Qed.

Lemma states_probes (l : list Call) : states (EvProbe <$> l) = [].
Proof. by induction l. Qed.

Lemma replicate_snoc_app {A} (x : A) n m l :
  replicate n x ++ replicate m x ++ l = replicate (n + m) x ++ l.
Proof. by rewrite app_assoc, <- replicate_add. Qed.

Section Steps.
Variable writeFile : nat -> option error.
Hypothesis disk_works : forall n, writeFile n = None.

Lemma save_inv s r s' t :
  save writeFile s = (r, s', t) ->
  r = Ok tt /\ mem s' = mem s /\ disk s' = mem s /\ t = [EvWrite (mem s)].
Proof. unfold save. rewrite disk_works. by intros [= <- <- <-]. Qed.

Lemma set_inv f s r s' t :
  bind (assign f) (fun _ => save writeFile) s = (r, s', t) ->
  r = Ok tt /\ mem s' = f (mem s) /\ disk s' = f (mem s)
  /\ t = [EvWrite (f (mem s))].
Proof.
  intros [(e & H & _)|(a & s1 & t1 & t2 & H & Hs & ->)]%bind_inv; [done|].
  injection H as <- <- <-. by apply save_inv in Hs as (-> & -> & -> & ->).
Qed.

(** Updates that do not name the sync state leave it alone. *)
Lemma apply_update_state kv d :
  kv.1 ≠ "syncState" -> SyncState (apply_update kv d) = SyncState d.
Proof.
  destruct kv as [key value]. cbn [fst]. intros Hk. unfold apply_update, str_eqb.
  repeat (case_match; try done).
  by match goal with H : String.eqb key "syncState" = true |- _ =>
       apply String.eqb_eq in H end.
Qed.

Lemma foldr_update_state l d :
  Forall (fun kv => kv.1 ≠ "syncState") l ->
  SyncState (foldr apply_update d l) = SyncState d.
Proof.
  induction 1 as [|kv l Hkv _ IH]; [done|].
  cbn [foldr]. by rewrite apply_update_state.
Qed.

Variable backend : Api.Backend.
Variable cfg : Config.

Lemma doRequest_inv {A} method path (reply : result (Wire.Response A)) s r s' t :
  Api.doRequest backend cfg method path reply s = (r, s', t) ->
  s' = s /\ states t = [].
Proof.
  unfold Api.doRequest, GetRegion, GetUUID, GetAccessToken.
  rewrite bind_read. destruct (Api.newRequestError _ _ _).
  - by intros [= <- <- <-].
  - rewrite !bind_read. unfold bind, emit.
    destruct reply; by intros [= <- <- <-].
Qed.

(** The two requests of the pipeline keep the sync state, in memory and in
    every document they write. *)
Lemma GetInitData_inv s r s' t :
  Api.GetInitData writeFile backend cfg s = (r, s', t) ->
  SyncState (mem s') = SyncState (mem s)
  /\ exists k, states t = replicate k (SyncState (mem s)).
Proof.
  unfold Api.GetInitData.
  intros [(e & H & _)|(resp & s1 & t1 & t2 & H & Hk & ->)]%bind_inv.
  - apply wrap_inv in H as (? & H & _).
    apply doRequest_inv in H as [-> Ht]. split; [done|]. exists 0. by rewrite Ht.
  - apply wrap_inv in H as (? & H & _).
    apply doRequest_inv in H as [-> Ht]. rewrite states_app, Ht. cbn [app].
    destruct (negb _); [injection Hk as <- <- <-; split; [done|by exists 0]|].
    destruct (Wire.decoded resp);
      [|injection Hk as <- <- <-; split; [done|by exists 0]].
    apply bind_inv in Hk as [(e & H & _)|(u & s2 & t3 & t4 & H & Hk & ->)].
    + destruct (bool_decide _); [|done].
      apply wrap_inv in H as (? & H & _).
      apply set_inv in H as (_ & -> & _ & ->). split; [done|]. by exists 1.
    + injection Hk as <- <- <-. rewrite app_nil_r.
      destruct (bool_decide _).
      * apply wrap_inv in H as (? & H & _).
        apply set_inv in H as (_ & -> & _ & ->). split; [done|]. by exists 1.
      * injection H as <- <- <-. split; [done|]. by exists 0.
Qed.

Lemma Sync_inv q s r s' t :
  Api.Sync writeFile backend cfg q s = (r, s', t) ->
  SyncState (mem s') = SyncState (mem s)
  /\ exists k, states t = replicate k (SyncState (mem s)).
Proof.
  unfold Api.Sync.
  intros [(e & H & _)|(resp & s1 & t1 & t2 & H & Hk & ->)]%bind_inv.
  - apply wrap_inv in H as (? & H & _).
    apply doRequest_inv in H as [-> Ht]. split; [done|]. exists 0. by rewrite Ht.
  - apply wrap_inv in H as (? & H & _).
    apply doRequest_inv in H as [-> Ht]. rewrite states_app, Ht. cbn [app].
    destruct (negb _ && _); [injection Hk as <- <- <-; split; [done|by exists 0]|].
    destruct (Wire.decoded resp) as [syncResp|];
      [|injection Hk as <- <- <-; split; [done|by exists 0]].
    assert (forall updates : gmap string Dyn,
               updates !! "syncState" = None ->
               forall s2 r2 t2,
                 Update writeFile updates s = (r2, s2, t2) ->
                 SyncState (mem s2) = SyncState (mem s)
                 /\ states t2 = [SyncState (mem s)]) as Hupd.
    { intros updates Hnone s2 r2 t3 Hu. unfold Update in Hu.
      apply set_inv in Hu as (_ & -> & _ & ->).
      assert (SyncState (foldr apply_update (mem s) (map_to_list updates))
              = SyncState (mem s)) as Hst.
      { apply foldr_update_state, Forall_forall. intros [key v] Hin.
        apply elem_of_map_to_list in Hin. cbn [fst]. intros ->. congruence. }
      split; [done|]. cbn. by rewrite Hst. }
    apply bind_inv in Hk as [(e & H & _)|(u & s2 & t3 & t4 & H & Hk & ->)].
    + apply wrap_inv in H as (? & H & _).
      apply Hupd in H as [-> ->]; [split; [done|by exists 1]|].
      by destruct (bool_decide _).
    + injection Hk as <- <- <-. rewrite app_nil_r.
      apply wrap_inv in H as (? & H & _).
      apply Hupd in H as [-> ->]; [split; [done|by exists 1]|].
      by destruct (bool_decide _).
Qed.
End Steps.

Section Pipeline.
Variable writeFile : nat -> option error.
Hypothesis disk_works : forall n, writeFile n = None.
Variable clock : Clock.
Variable h : Host.
Variable backend : Api.Backend.
Variable cfg : Config.

Lemma wrap_set_inv pre f s r s' t :
  wrap pre (bind (assign f) (fun _ => save writeFile)) s = (r, s', t) ->
  r = Ok tt /\ mem s' = f (mem s) /\ disk s' = f (mem s)
  /\ t = [EvWrite (f (mem s))].
Proof.
  intros (r0 & H & Hok)%wrap_inv.
  apply (set_inv _ disk_works) in H as (-> & -> & -> & ->).
  by destruct r as [[]|].
Qed.

(** The error branch of the daemon: the state is set to [ERROR], then the
    error is returned. *)
Lemma daemon_fails_inv msg s r s' t :
  bind (try (SetSyncState writeFile SyncStateError))
    (fun _ => throw msg) s = (r, s', t) ->
  r = @Err unit msg /\ SyncState (mem s') = SyncStateError
  /\ disk s' = mem s' /\ states t = [SyncStateError].
Proof.
  intros [(e & H & _)|(a & s1 & t1 & t2 & H & Hk & ->)]%bind_inv.
  - by apply try_inv in H as (? & _ & [=]).
  - apply try_inv in H as (r0 & H & [= ->]). injection Hk as <- <- <-.
    apply (set_inv _ disk_works) in H as (_ & Hm & Hd & ->).
    rewrite Hm, Hd. by rewrite app_nil_r.
Qed.

(** The error branch of the command: the same, with a warning that is
    printed only if the write fails. *)
Lemma command_fails_inv msg s r s' t :
  bind (Cmd.markError writeFile) (fun _ => throw msg) s = (r, s', t) ->
  r = @Err unit msg /\ SyncState (mem s') = SyncStateError
  /\ disk s' = mem s' /\ states t = [SyncStateError].
Proof.
  unfold Cmd.markError.
  intros [(e & H & _)|(a & s1 & t1 & t2 & H & Hk & ->)]%bind_inv.
  - apply bind_inv in H as [(e' & H & _)|(a & s1 & t1 & t2 & H & Hk & ->)].
    + by apply try_inv in H as (? & _ & [=]).
    + apply try_inv in H as (r0 & H & [= ->]).
      apply (set_inv _ disk_works) in H as (-> & _). done.
  - injection Hk as <- <- <-.
    apply bind_inv in H as [(e' & H & _)|(a' & s2 & t3 & t4 & H & Hk & ->)].
    + by apply try_inv in H as (? & _ & [=]).
    + apply try_inv in H as (r0 & H & [= ->]).
      apply (set_inv _ disk_works) in H as (-> & Hm & Hd & ->).
      injection Hk as <- <- <-. rewrite Hm, Hd. by rewrite !app_nil_r.
Qed.

(** With a disk that works, a run of the daemon's pipeline persists
    [RUNNING] at least twice (the state, then the attempt time), keeps
    [RUNNING] in every later document, and ends with one write of [SUCCESS]
    when the run succeeds and of [ERROR] when it fails. *)
Lemma performSyncPipeline_settles osq s r s' t :
  Cmd.performSyncPipeline writeFile clock h backend cfg osq s = (r, s', t) ->
  exists k,
    2 <= k
    /\ states t = replicate k SyncStateRunning ++ [SyncState (mem s')]
    /\ disk s' = mem s'
    /\ SyncState (mem s')
       = if is_ok r then SyncStateSuccess else SyncStateError.
Proof.
  unfold Cmd.performSyncPipeline, SetSyncState, SetLastSyncAttemptedAt,
    IsInitDataReady, Cmd.logPrintln.
  intros [(e1 & H & _)|(a1 & s1 & t1 & u1 & H & Hk & ->)]%bind_inv;
    [by apply wrap_set_inv in H as (? & _)|].
  apply wrap_set_inv in H as (_ & Hm1 & _ & ->).
  apply bind_inv in Hk as [(e2 & H & _)|(a2 & s2 & t2 & u2 & H & Hk & ->)];
    [by apply wrap_set_inv in H as (? & _)|].
  apply wrap_set_inv in H as (_ & Hm2 & _ & ->).
  assert (SyncState (mem s2) = SyncStateRunning) as Hrun by by rewrite Hm2, Hm1.
  rewrite !states_app.
  change (states [EvWrite (with_SyncState SyncStateRunning (mem s))])
    with [SyncStateRunning].
  replace (states [EvWrite _]) with [SyncStateRunning]
    by (by cbn; rewrite Hm1).
  clear Hm1 Hm2 s s1 a1 a2.
  apply bind_inv in Hk as [(e3 & H & _)|(a3 & s3 & t3 & u3 & H & Hk & ->)];
    [done|]. injection H as <- <- <-.
  rewrite bind_read in Hk.
  apply bind_inv in Hk as [(e4 & H & ->)|(a4 & s4 & t4 & u4 & H & Hk & ->)].
  { (* the initialization data cannot be fetched *)
    destruct (negb _); [|done].
    apply bind_inv in H as [(e5 & H & _)|(a5 & s5 & t5 & u5 & H & Hk & ->)];
      [done|]. injection H as <- <- <-.
    apply bind_inv in Hk as [(e6 & H & _)|(r6 & s6 & t6 & u6 & H & Hk & ->)];
      [by apply try_inv in H as (? & _ & [=])|].
    apply try_inv in H as (r0 & H & [= ->]).
    apply (GetInitData_inv _ disk_works) in H as (Hst & k & Hk1).
    destruct r0 as [?|e0]; [done|].
    apply daemon_fails_inv in Hk as (_ & He & Hd & Ht).
    exists (2 + k). split; [lia|]. rewrite !states_app, Hk1, Ht, He, Hrun.
    split; [|done]. cbn [states written omap fmap list_fmap app].
    by rewrite replicate_add. }
  assert (exists k, states t4 = replicate k SyncStateRunning
                    /\ SyncState (mem s4) = SyncStateRunning) as (k1 & Hk1 & Hrun4).
  { destruct (negb _); [|injection H as <- <- <-; by exists 0].
    apply bind_inv in H as [(e5 & H & _)|(a5 & s5 & t5 & u5 & H & Hk' & ->)];
      [done|]. injection H as <- <- <-.
    apply bind_inv in Hk' as [(e6 & H & _)|(r6 & s6 & t6 & u6 & H & Hk' & ->)];
      [by apply try_inv in H as (? & _ & [=])|].
    apply try_inv in H as (r0 & H & [= ->]).
    apply (GetInitData_inv _ disk_works) in H as (Hst & k & Hk1).
    destruct r0 as [?|e0].
    - injection Hk' as <- <- <-. exists k.
      rewrite !states_app, Hk1, Hrun, app_nil_r. split; [done|congruence].
    - by apply daemon_fails_inv in Hk' as (? & _). }
  clear H Hrun s2.
  apply bind_inv in Hk as [(e7 & H & _)|(a7 & s7 & t7 & u7 & H & Hk & ->)];
    [done|]. injection H as <- <- <-.
  apply bind_inv in Hk as [(e8 & H & _)|(q & s8 & t8 & u8 & H & Hk & ->)];
    [done|]. injection H as _ <- <-.
  destruct q as [queryResult|e].
  2:{ apply daemon_fails_inv in Hk as (-> & He & Hd & Ht).
      exists (2 + k1). split; [lia|].
      rewrite !states_app, Hk1, Ht, He, states_probes. split; [|done].
      cbn [states written omap fmap list_fmap app].
      by rewrite replicate_add. }
  apply bind_inv in Hk as [(e9 & H & _)|(a9 & s9 & t9 & u9 & H & Hk & ->)];
    [done|]. injection H as <- <- <-.
  apply bind_inv in Hk as [(e10 & H & _)|(r10 & s10 & t10 & u10 & H & Hk & ->)];
    [by apply try_inv in H as (? & _ & [=])|].
  apply try_inv in H as (r0 & H & [= ->]).
  apply (Sync_inv _ disk_works) in H as (Hst & k2 & Hk2).
  rewrite Hrun4 in Hk2, Hst.
  destruct r0 as [?|e0].
  - apply bind_inv in Hk as [(e11 & H & _)|(a11 & s11 & t11 & u11 & H & Hk & ->)];
      [by apply wrap_set_inv in H as (? & _)|].
    apply wrap_set_inv in H as (_ & Hm & Hd & ->). injection Hk as <- <- <-.
    exists (2 + k1 + k2). split; [lia|].
    rewrite !states_app, Hk1, Hk2, states_probes, Hm, Hd. split; [|done].
    cbn [states written omap fmap list_fmap app SyncState with_SyncState].
    by rewrite app_nil_r, !replicate_add, <- !app_assoc.
  - apply daemon_fails_inv in Hk as (-> & He & Hd & Ht).
    exists (2 + k1 + k2). split; [lia|].
    rewrite !states_app, Hk1, Hk2, Ht, He, states_probes. split; [|done].
    cbn [states written omap fmap list_fmap app].
    by rewrite !replicate_add, <- !app_assoc.
Qed.

(** The same for the command: when the osquery client cannot be built the
    run stops before any write; otherwise it goes as the daemon's. *)
Lemma runSyncPipeline_settles force verbose s r s' t :
  Cmd.runSyncPipeline writeFile clock h backend cfg force verbose s = (r, s', t) ->
  (is_ok (NewClientWithVerbose h (OsqueryPath cfg) verbose) = false
   /\ is_ok r = false /\ s' = s /\ t = [])
  \/ exists k,
       2 <= k
       /\ states t = replicate k SyncStateRunning ++ [SyncState (mem s')]
       /\ disk s' = mem s'
       /\ SyncState (mem s')
          = if is_ok r then SyncStateSuccess else SyncStateError.
Proof.
  unfold Cmd.runSyncPipeline, SetSyncState, SetLastSyncAttemptedAt,
    IsInitDataReady, GetLastCheckedAt, Cmd.Println.
  intros [(e0 & H & ->)|(osq & s0 & t0 & u0 & H & Hk & ->)]%bind_inv.
  { left. unfold wrap in H. destruct (NewClientWithVerbose _ _ _); [done|].
    by injection H as _ <- <-. }
  right. unfold wrap in H.
  destruct (NewClientWithVerbose _ _ _); [|done]. injection H as _ <- <-.
  apply bind_inv in Hk as [(ev & H & _)|(av & sv & tv & uv & H & Hk & ->)].
  { destruct verbose; [|done]. unfold bind, emit in H. done. }
  assert (sv = s /\ states tv = []) as [-> Ht0].
  { destruct verbose; [|by injection H as _ <- <-].
    unfold bind, emit in H. by injection H as _ <- <-. }
  clear H. cbn [app]. rewrite states_app, Ht0. cbn [app].
  apply bind_inv in Hk as [(e1 & H & _)|(a1 & s1 & t1 & u1 & H & Hk & ->)];
    [by apply wrap_set_inv in H as (? & _)|].
  apply wrap_set_inv in H as (_ & Hm1 & _ & ->).
  apply bind_inv in Hk as [(e2 & H & _)|(a2 & s2 & t2 & u2 & H & Hk & ->)];
    [by apply wrap_set_inv in H as (? & _)|].
  apply wrap_set_inv in H as (_ & Hm2 & _ & ->).
  assert (SyncState (mem s2) = SyncStateRunning) as Hrun by by rewrite Hm2, Hm1.
  rewrite !states_app.
  change (states [EvWrite (with_SyncState SyncStateRunning (mem s))])
    with [SyncStateRunning].
  replace (states [EvWrite _]) with [SyncStateRunning]
    by (by cbn; rewrite Hm1).
  clear Hm1 Hm2 Ht0.
  apply bind_inv in Hk as [(e3 & H & _)|(a3 & s3 & t3 & u3 & H & Hk & ->)];
    [done|]. injection H as <- <- <-.
  rewrite bind_read in Hk.
  apply bind_inv in Hk as [(e4 & H & ->)|(a4 & s4 & t4 & u4 & H & Hk & ->)].
  { destruct (negb _); [|done].
    apply bind_inv in H as [(e5 & H & _)|(a5 & s5 & t5 & u5 & H & Hk & ->)];
      [done|]. injection H as <- <- <-.
    apply bind_inv in Hk as [(e6 & H & _)|(r6 & s6 & t6 & u6 & H & Hk & ->)];
      [by apply try_inv in H as (? & _ & [=])|].
    apply try_inv in H as (r0 & H & [= ->]).
    apply (GetInitData_inv _ disk_works) in H as (Hst & k & Hk1).
    destruct r0 as [?|e0]; [done|].
    apply command_fails_inv in Hk as (_ & He & Hd & Ht).
    exists (2 + k). split; [lia|]. rewrite !states_app, Hk1, Ht, He, Hrun.
    split; [|done]. cbn [states written omap fmap list_fmap app].
    by rewrite replicate_add. }
  assert (exists k, states t4 = replicate k SyncStateRunning
                    /\ SyncState (mem s4) = SyncStateRunning) as (k1 & Hk1 & Hrun4).
  { destruct (negb _); [|injection H as <- <- <-; by exists 0].
    apply bind_inv in H as [(e5 & H & _)|(a5 & s5 & t5 & u5 & H & Hk' & ->)];
      [done|]. injection H as <- <- <-.
    apply bind_inv in Hk' as [(e6 & H & _)|(r6 & s6 & t6 & u6 & H & Hk' & ->)];
      [by apply try_inv in H as (? & _ & [=])|].
    apply try_inv in H as (r0 & H & [= ->]).
    apply (GetInitData_inv _ disk_works) in H as (Hst & k & Hk1).
    destruct r0 as [?|e0].
    - injection Hk' as <- <- <-. exists k.
      rewrite !states_app, Hk1, Hrun, app_nil_r. split; [done|congruence].
    - by apply command_fails_inv in Hk' as (? & _). }
  clear H Hrun s2.
  apply bind_inv in Hk as [(e7 & H & _)|(a7 & s7 & t7 & u7 & H & Hk & ->)];
    [done|]. injection H as <- <- <-.
  apply bind_inv in Hk as [(e8 & H & _)|(q & s8 & t8 & u8 & H & Hk & ->)];
    [done|]. injection H as _ <- <-.
  destruct q as [queryResult|e].
  2:{ apply command_fails_inv in Hk as (-> & He & Hd & Ht).
      exists (2 + k1). split; [lia|].
      rewrite !states_app, Hk1, Ht, He, states_probes. split; [|done].
      cbn [states written omap fmap list_fmap app].
      by rewrite replicate_add. }
  apply bind_inv in Hk as [(e9 & H & _)|(a9 & s9 & t9 & u9 & H & Hk & ->)];
    [done|]. injection H as <- <- <-.
  apply bind_inv in Hk as [(e10 & H & _)|(r10 & s10 & t10 & u10 & H & Hk & ->)];
    [by apply try_inv in H as (? & _ & [=])|].
  apply try_inv in H as (r0 & H & [= ->]).
  apply (Sync_inv _ disk_works) in H as (Hst & k2 & Hk2).
  rewrite Hrun4 in Hk2, Hst.
  destruct r0 as [?|e0].
  - apply bind_inv in Hk as [(e11 & H & _)|(a11 & s11 & t11 & u11 & H & Hk & ->)];
      [by apply wrap_set_inv in H as (? & _)|].
    apply wrap_set_inv in H as (_ & Hm & Hd & ->).
    apply bind_inv in Hk as [(e12 & H & _)|(a12 & s12 & t12 & u12 & H & Hk & ->)];
      [done|]. injection H as <- <- <-.
    rewrite bind_read in Hk.
    assert (r = Ok tt /\ s' = s11 /\ states u12 = []) as (-> & -> & Hu).
    { destruct (negb _); by injection Hk as <- <- <-. }
    exists (2 + k1 + k2). split; [lia|].
    rewrite !states_app, Hk1, Hk2, states_probes, Hu, Hm, Hd. split; [|done].
    cbn [states written omap fmap list_fmap app SyncState with_SyncState].
    by rewrite !replicate_add, <- !app_assoc.
  - apply command_fails_inv in Hk as (-> & He & Hd & Ht).
    exists (2 + k1 + k2). split; [lia|].
    rewrite !states_app, Hk1, Hk2, Ht, He, states_probes. split; [|done].
    cbn [states written omap fmap list_fmap app].
    by rewrite !replicate_add, <- !app_assoc.
Qed.
End Pipeline.

(** *** [RUNNING] is written before the first request *)

Section RunningFirst.
Variable writeFile : nat -> option error.
Variable clock : Clock.
Variable h : Host.
Variable backend : Api.Backend.
Variable cfg : Config.

Lemma performSyncPipeline_running_first osq s :
  runningBeforeNetwork
    (events (Cmd.performSyncPipeline writeFile clock h backend cfg osq s)).
Proof.
  destruct (Cmd.performSyncPipeline _ _ _ _ _ _ _) as [[r s'] t] eqn:Hrun.
  cbn [events snd]. revert Hrun.
  unfold Cmd.performSyncPipeline, SetSyncState.
  intros [(e1 & H & _)|(a1 & s1 & t1 & u1 & H & Hk & ->)]%bind_inv.
  - left. apply wrap_inv in H as (r0 & H & _). revert H.
    unfold bind, assign, save. destruct (writeFile _); by intros [= _ _ <-].
  - apply wrap_inv in H as (r0 & H & Hok). revert H.
    unfold bind, assign, save. destruct (writeFile _); intros [= <- _ <-].
    + done.
    + right. eexists [], _, u1. done.
Qed.

Lemma runSyncPipeline_running_first force verbose s :
  runningBeforeNetwork
    (events (Cmd.runSyncPipeline writeFile clock h backend cfg force verbose s)).
Proof.
  destruct (Cmd.runSyncPipeline _ _ _ _ _ _ _ _) as [[r s'] t] eqn:Hrun.
  cbn [events snd]. revert Hrun.
  unfold Cmd.runSyncPipeline, SetSyncState, Cmd.Println.
  intros [(e0 & H & ->)|(osq & s0 & t0 & u0 & H & Hk & ->)]%bind_inv.
  { left. unfold wrap in H. destruct (NewClientWithVerbose _ _ _); [done|].
    by injection H as _ _ <-. }
  unfold wrap in H at 1.
  destruct (NewClientWithVerbose _ _ _); [|done]. injection H as _ <- <-.
  cbn [app].
  apply bind_inv in Hk as [(ev & H & _)|(av & sv & tv & uv & H & Hk & ->)].
  { destruct verbose; [|done]. unfold bind, emit in H. done. }
  assert (requests tv = []) as Ht0.
  { destruct verbose; [|by injection H as _ _ <-].
    unfold bind, emit in H. by injection H as _ _ <-. }
  clear H.
  apply bind_inv in Hk as [(e1 & H & _)|(a1 & s1 & t1 & u1 & H & Hk & ->)].
  - left. apply wrap_inv in H as (r0 & H & _). revert H.
    unfold bind, assign, save. destruct (writeFile _); intros [= _ _ <-];
      by rewrite requests_app, Ht0.
  - apply wrap_inv in H as (r0 & H & Hok). revert H.
    unfold bind, assign, save. destruct (writeFile _); intros [= <- _ <-].
    + done.
    + right. eexists tv, _, u1. done.
Qed.

Lemma performSync_running_first osq s :
  runningBeforeNetwork
    (events (Cmd.performSync writeFile clock h backend cfg osq s)).
Proof.
  unfold Cmd.performSync, GetSyncState, MinutesSinceLastAttempt,
    HoursSinceLastSuccess.
  rewrite bind_read. destruct (str_eqb _ _); [by left|].
  rewrite bind_read. destruct (_ && _); [by left|].
  rewrite bind_read. destruct (_ && _); [by left|].
  apply performSyncPipeline_running_first.
Qed.

Lemma runSync_running_first force verbose s :
  runningBeforeNetwork
    (events (Cmd.runSync writeFile clock h backend cfg force verbose s)).
Proof.
  unfold Cmd.runSync, IsRegistered, GetSyncState, MinutesSinceLastAttempt,
    HoursSinceLastSuccess.
  rewrite bind_read. destruct (negb _); [by left|].
  destruct (negb force); [|apply runSyncPipeline_running_first].
  rewrite bind_read. destruct (str_eqb _ _); [by left|].
  rewrite bind_read. destruct (_ && _); [by left|].
  rewrite bind_read. destruct (_ && _); [by left|].
  apply runSyncPipeline_running_first.
Qed.
End RunningFirst.

(** ** What a sync let through by the throttle does *)

Lemma bind_ok {S E A B} (m : M S E A) (k : A -> M S E B) s a s1 t1 :
  m s = (Ok a, s1, t1) ->
  bind m k s = (outcome (k a s1), final (k a s1), t1 ++ events (k a s1)).
Proof. intros H. unfold bind. rewrite H. by destruct (k a s1) as [[r s2] t2]. Qed.


Lemma events_bind_ok {S E A B} (m : M S E A) (k : A -> M S E B) s a s1 t1 :
  m s = (Ok a, s1, t1) -> events (bind m k s) = t1 ++ events (k a s1).
Proof. intros H. by rewrite (bind_ok _ _ _ _ _ _ H). Qed.

Lemma probes_app t1 t2 : probes (t1 ++ t2) = probes t1 ++ probes t2.
Proof. unfold probes. by rewrite omap_app. Qed.

Lemma written_app t1 t2 : written (t1 ++ t2) = written t1 ++ written t2.
Proof. unfold written. by rewrite omap_app. Qed.

Lemma probes_lift (l : list Call) : probes (EvProbe <$> l) = callName <$> l.
Proof.
  induction l as [|call l IH]; [done|].
  rewrite !fmap_cons, <- IH. by destruct call.
Qed.

Lemma requests_lift (l : list Call) : requests (EvProbe <$> l) = [].
Proof. by induction l. Qed.

Section Writes.
Variable writeFile : nat -> option error.


Lemma set_works pre f s :
  writeFile (writes s) = None ->
  wrap pre (bind (assign f) (fun _ => save writeFile)) s
  = (Ok tt, {| mem := f (mem s); disk := f (mem s); writes := S (writes s) |},
     [EvWrite (f (mem s))]).
Proof. intros H. unfold wrap, bind, assign, save. cbn. by rewrite H. Qed.

(** A setter sends nothing and probes nothing. *)
Lemma set_quiet f s :
  requests (events (bind (assign f) (fun _ => save writeFile) s)) = []
  /\ probes (events (bind (assign f) (fun _ => save writeFile) s)) = [].
Proof. unfold bind, assign, save. cbn. by destruct (writeFile _). Qed.
End Writes.

Section Enters.
Variable writeFile : nat -> option error.
Variable clock : Clock.
Variable h : Host.
Variable backend : Api.Backend.
Variable cfg : Config.

(** The URL a request of the agent goes to. *)
Let urlOf (s : Store) (path : string) : string :=
  APIHostURL (TargetEnv cfg)
    (if str_eqb (Datastore.Region (mem s)) EmptyString then Config.Region cfg
     else Datastore.Region (mem s))
  +:+ path.

Lemma doRequest_trace {A} method path (reply : result (Wire.Response A)) s :
  Api.newRequestError backend method (urlOf s path) = None ->
  exists r0,
    Api.doRequest backend cfg method path reply s
    = (r0, s, [EvRequest method (urlOf s path) (AccessToken (mem s)) (UUID (mem s))]).
Proof.
  intros Hnew. unfold Api.doRequest, GetRegion, GetUUID, GetAccessToken.
  rewrite bind_read. fold (urlOf s path). rewrite Hnew, !bind_read.
  unfold bind, emit. destruct reply; by eexists.
Qed.

Lemma Sync_trace q s :
  Api.newRequestError backend "POST" (urlOf s "/agentv2/sync") = None ->
  exists r s' t,
    Api.Sync writeFile backend cfg q s
    = (r, s', EvRequest "POST" (urlOf s "/agentv2/sync") (AccessToken (mem s))
                (UUID (mem s)) :: t)
    /\ requests t = [] /\ probes t = [].
Proof.
  intros Hnew. unfold Api.Sync.
  destruct (doRequest_trace "POST" "/agentv2/sync" (Api.postSync backend q) s Hnew)
    as [r0 Hd].
  unfold bind at 1. unfold wrap at 1. rewrite Hd.
  destruct r0 as [resp|e]; [|by eexists _, _, _].
  destruct (negb _ && _); [by eexists _, _, _|].
  destruct (Wire.decoded resp) as [syncResp|]; [|by eexists _, _, _].
  match goal with
  | |- context [bind (wrap ?pre (Update writeFile ?u)) ?k s] =>
    destruct (set_quiet writeFile
                (fun d => foldr apply_update d (map_to_list u)) s) as [Hq Hp];
    unfold bind at 1; unfold wrap at 1; unfold Update;
    destruct (bind (assign _) (fun _ => save writeFile) s) as [[[[]|e] s1] t1]
  end; cbn in Hq, Hp |- *; eexists _, _, _; (split; [reflexivity|]);
    by rewrite ?app_nil_r.
Qed.

(** After the upload, nothing more is sent or probed. *)
Lemma daemon_tail_quiet (r0 : result Wire.SyncResponse) s :
  let x :=
    match r0 with
    | Err e =>
      bind (try (SetSyncState writeFile SyncStateError))
        (fun _ => throw ("failed to sync: " +:+ e))
    | Ok _ =>
      bind (wrap "failed to update sync state"
              (SetSyncState writeFile SyncStateSuccess))
        (fun _ => Cmd.logPrintln (Cmd.checkMark +:+ " Sync completed successfully"))
    end s in
  requests (events x) = [] /\ probes (events x) = [].
Proof.
  destruct r0; cbn zeta;
    unfold SetSyncState, Cmd.logPrintln;
    unfold bind, try, wrap, assign, save, emit, throw;
    cbn; destruct (writeFile (writes s)); done.
Qed.

Lemma command_tail_quiet (r0 : result Wire.SyncResponse) s :
  let x :=
    match r0 with
    | Err e =>
      bind (Cmd.markError writeFile) (fun _ => throw ("failed to sync: " +:+ e))
    | Ok _ =>
      bind (wrap "failed to update sync state"
              (SetSyncState writeFile SyncStateSuccess))
        (fun _ =>
           bind (Cmd.Println (Cmd.checkMark +:+ " Sync completed successfully!"))
             (fun _ =>
                bind GetLastCheckedAt
                  (fun lastChecked =>
                     if negb (str_eqb lastChecked EmptyString)
                     then Cmd.Println ("Last successful sync: " +:+ lastChecked)
                     else ret tt)))
    end s in
  requests (events x) = [] /\ probes (events x) = [].
Proof.
  destruct r0; cbn zeta;
    unfold Cmd.markError, SetSyncState, GetLastCheckedAt, Cmd.Println;
    unfold bind, try, wrap, read, assign, save, emit, throw, ret;
    cbn; destruct (writeFile (writes s)); cbn; try done;
    by destruct (negb _).
Qed.

(** The steps of the two pipelines after the two writes, when the data are
    there and the collector returns a snapshot. *)
Lemma ready_steps s :
  WinAvServicesMatchList (mem s) ≠ None ->
  negb (bool_decide (is_Some (WinAvServicesMatchList (mem s)))) = false.
Proof.
  intros H. apply negb_false_iff, bool_decide_eq_true.
  by destruct (WinAvServicesMatchList (mem s)).
Qed.

Lemma performSyncPipeline_enters osq s :
  entersSync writeFile backend cfg
    (Collector.GetSystemInfo h osq (Version cfg)) s
    (Cmd.performSyncPipeline writeFile clock h backend cfg osq s).
Proof.
  split.
  - intros Hw. unfold Cmd.performSyncPipeline, SetSyncState.
    by rewrite (events_bind_ok _ _ _ _ _ _ (set_works writeFile _ _ s Hw)).
  - intros Hdisk Hready Hcol url Hnew.
    set (d1 := with_SyncState SyncStateRunning (mem s)).
    set (d2 := with_LastSyncAttemptedAt (nowRFC3339 clock) d1).
    set (s1 := {| mem := d1; disk := d1; writes := S (writes s) |}).
    set (s2 := {| mem := d2; disk := d2; writes := S (S (writes s)) |}).
    unfold Cmd.performSyncPipeline, SetSyncState, SetLastSyncAttemptedAt,
      IsInitDataReady, Cmd.logPrintln.
    rewrite (events_bind_ok _ _ _ _ _ _ (set_works writeFile _ _ s (Hdisk _))).
    rewrite (events_bind_ok _ _ _ _ _ _ (set_works writeFile _ _ s1 (Hdisk _))).
    fold d1 d2 s1 s2.
    rewrite (events_bind_ok _ _ _ tt s2 [EvLog "Starting sync..."]) by done.
    rewrite bind_read.
    rewrite (ready_steps s2) by done.
    rewrite (events_bind_ok _ _ _ tt s2 []) by done.
    rewrite (events_bind_ok _ _ _ tt s2 [EvLog "Collecting system information..."])
      by done.
    destruct (Collector.GetSystemInfo h osq (Version cfg)) as [[q|e] calls] eqn:Hc;
      [|done].
    rewrite (events_bind_ok _ _ _ (Ok q) s2 (EvProbe <$> calls)) by done.
    rewrite (events_bind_ok _ _ _ tt s2 [EvLog "Sending data to Drata..."]) by done.
    destruct (Sync_trace q s2 Hnew) as (r0 & s3 & t3 & Hsync & Hreq & Hpr).
    rewrite (events_bind_ok _ _ _ r0 s3
               (EvRequest "POST" (urlOf s2 "/agentv2/sync") (AccessToken (mem s2))
                  (UUID (mem s2)) :: t3))
      by (unfold try; by rewrite Hsync).
    destruct (daemon_tail_quiet r0 s3) as [Htq Htp].
    rewrite !probes_app, !requests_app, probes_lift, requests_lift.
    cbn zeta in Htq, Htp. unfold SetSyncState, Cmd.logPrintln in Htq, Htp.
    rewrite Htq, Htp. cbn [snd].
    unfold probes, requests in Hpr, Hreq.
    split; [|split]; cbn; rewrite ?Hpr, ?Hreq, ?app_nil_r; done.
Qed.

Lemma runSyncPipeline_enters force verbose osq s :
  NewClientWithVerbose h (OsqueryPath cfg) verbose = Ok osq ->
  entersSync writeFile backend cfg
    (Collector.GetSystemInfo h osq (Version cfg)) s
    (Cmd.runSyncPipeline writeFile clock h backend cfg force verbose s).
Proof.
  intros Hosq.
  set (banner :=
         if verbose
         then [EvPrint "Verbose mode enabled";
               EvPrint ("Platform: " +:+ platform osq);
               EvPrint ("Agent version: " +:+ Version cfg)]
         else []).
  assert (written banner = [] /\ probes banner = [] /\ requests banner = [])
    as (Hbw & Hbp & Hbr) by (subst banner; by destruct verbose).
  split.
  - intros Hw. unfold Cmd.runSyncPipeline, SetSyncState, Cmd.Println.
    rewrite (events_bind_ok _ _ _ osq s []) by (unfold wrap; by rewrite Hosq).
    rewrite (events_bind_ok _ _ _ tt s banner) by (subst banner; by destruct verbose).
    rewrite (events_bind_ok _ _ _ _ _ _ (set_works writeFile _ _ s Hw)).
    rewrite !written_app, Hbw. done.
  - intros Hdisk Hready Hcol url Hnew.
    set (d1 := with_SyncState SyncStateRunning (mem s)).
    set (d2 := with_LastSyncAttemptedAt (nowRFC3339 clock) d1).
    set (s1 := {| mem := d1; disk := d1; writes := S (writes s) |}).
    set (s2 := {| mem := d2; disk := d2; writes := S (S (writes s)) |}).
    unfold Cmd.runSyncPipeline, SetSyncState, SetLastSyncAttemptedAt,
      IsInitDataReady, GetLastCheckedAt, Cmd.Println.
    rewrite (events_bind_ok _ _ _ osq s []) by (unfold wrap; by rewrite Hosq).
    rewrite (events_bind_ok _ _ _ tt s banner) by (subst banner; by destruct verbose).
    rewrite (events_bind_ok _ _ _ _ _ _ (set_works writeFile _ _ s (Hdisk _))).
    rewrite (events_bind_ok _ _ _ _ _ _ (set_works writeFile _ _ s1 (Hdisk _))).
    fold d1 d2 s1 s2.
    rewrite (events_bind_ok _ _ _ tt s2
               [EvPrint "Syncing system information with Drata..."]) by done.
    rewrite bind_read.
    rewrite (ready_steps s2) by done.
    rewrite (events_bind_ok _ _ _ tt s2 []) by done.
    rewrite (events_bind_ok _ _ _ tt s2 [EvPrint "Collecting system information..."])
      by done.
    destruct (Collector.GetSystemInfo h osq (Version cfg)) as [[q|e] calls] eqn:Hc;
      [|done].
    rewrite (events_bind_ok _ _ _ (Ok q) s2 (EvProbe <$> calls)) by done.
    rewrite (events_bind_ok _ _ _ tt s2 [EvPrint "Sending data to Drata..."]) by done.
    destruct (Sync_trace (with_ManualRun force q) s2 Hnew)
      as (r0 & s3 & t3 & Hsync & Hreq & Hpr).
    rewrite (events_bind_ok _ _ _ r0 s3
               (EvRequest "POST" (urlOf s2 "/agentv2/sync") (AccessToken (mem s2))
                  (UUID (mem s2)) :: t3))
      by (unfold try; by rewrite Hsync).
    destruct (command_tail_quiet r0 s3) as [Htq Htp].
    rewrite !probes_app, !requests_app, probes_lift, requests_lift.
    cbn zeta in Htq, Htp.
    unfold SetSyncState, Cmd.Println, GetLastCheckedAt in Htq, Htp.
    rewrite Htq, Htp, Hbp, Hbr. cbn [snd].
    unfold probes, requests in Hpr, Hreq.
    split; [|split].
    + cbn. by rewrite Hpr, app_nil_r.
    + cbn. by rewrite Hreq.
    + unfold states. rewrite !written_app, Hbw. done.
Qed.
End Enters.

(** ** The throttle: statements *)

(** C1, as the claim states it, fails on the command-line sync: with the
    store in state [RUNNING], a forced [runSync] writes [RUNNING] again,
    probes the machine and uploads the snapshot. *)
Lemma forced_sync_runs_while_running :
  SyncState (mem (Scenario.registered "RUNNING")) = SyncStateRunning
  /\ (let r := Cmd.runSync Scenario.diskOk (Scenario.clockAt 5 (-1)) Fixture.bare
                 Scenario.backendOk DefaultConfig true false
                 (Scenario.registered "RUNNING") in
      outcome r = Ok tt
      /\ requests (events r) = [("POST", "https://agent.drata.com/agentv2/sync")]
      /\ head (probes (events r))
         = Some "SELECT name, version, platform FROM os_version"
      /\ states (events r) = ["RUNNING"; "RUNNING"; "RUNNING"; "SUCCESS"]).
Proof. vm_compute. repeat split; reflexivity. Qed.

(** C1, amended. With the store in state [RUNNING], the daemon's sync and a
    command-line sync without [--force] are refused: the store is left as it
    is, nothing is written, probed or sent; the daemon logs the skip and the
    command returns an error. A forced command-line sync skips the guard
    with the rest of the throttle and enters the pipeline. *)
Theorem running_sync_is_refused_unless_forced
  (writeFile : nat -> option error) (clock : Clock) (h : Host)
  (backend : Api.Backend) (cfg : Config) (osq : Client) (verbose : bool)
  (s : Store) :
  SyncState (mem s) = SyncStateRunning ->
  Cmd.performSync writeFile clock h backend cfg osq s
    = (Ok tt, s, [EvLog "Sync already in progress, skipping"])
  /\ (AccessToken (mem s) ≠ EmptyString ->
      Cmd.runSync writeFile clock h backend cfg false verbose s
        = (Err "sync is already in progress", s, [])
      /\ Cmd.runSync writeFile clock h backend cfg true verbose s
         = Cmd.runSyncPipeline writeFile clock h backend cfg true verbose s).
Proof.
  intros H. split; [by apply performSync_running|].
  intros Hreg. split; [by apply runSync_running|by apply runSync_forced].
Qed.

Lemma running_sync_is_refused_unless_forced_witness :
  Cmd.performSync Scenario.diskOk (Scenario.clockAt 5 (-1)) Fixture.bare
    Scenario.backendOk DefaultConfig Fixture.client (Scenario.registered "RUNNING")
  = (Ok tt, Scenario.registered "RUNNING",
     [EvLog "Sync already in progress, skipping"]).
Proof.
  apply (running_sync_is_refused_unless_forced Scenario.diskOk
           (Scenario.clockAt 5 (-1)) Fixture.bare Scenario.backendOk
           DefaultConfig Fixture.client false (Scenario.registered "RUNNING")).
  reflexivity.
Defined.

(** C2, as the claim states it, fails on the daemon: fifteen minutes being
    the minimum and the last attempt five minutes old, the line it logs
    names the five minutes and the minimum, not the ten minutes left. *)
Lemma daemon_skip_omits_remaining_wait :
  exists line,
    Cmd.performSync Scenario.diskOk (Scenario.clockAt 5 (-1)) Fixture.bare
      Scenario.backendOk DefaultConfig Fixture.client
      (Scenario.registered "SUCCESS")
    = (Ok tt, Scenario.registered "SUCCESS", [EvLog line])
    /\ Contains line (fmt_d (MinMinutesBetweenSyncs DefaultConfig - 5)) = false.
Proof. eexists. split; [vm_compute; reflexivity|vm_compute; reflexivity]. Qed.

(** C2, amended. A sync that is not forced, with the store not in state
    [RUNNING] and the last attempt at least zero and fewer than
    [MinMinutesBetweenSyncs] minutes old, skips: the store is left as it is,
    nothing is written, probed or sent. The command-line sync returns an
    error that gives the minutes left to wait; the daemon logs the minutes
    since the last attempt and the configured minimum. *)
Theorem recent_attempt_skips_sync
  (writeFile : nat -> option error) (clock : Clock) (h : Host)
  (backend : Api.Backend) (cfg : Config) (osq : Client) (verbose : bool)
  (s : Store) (minutes : Z) :
  SyncState (mem s) ≠ SyncStateRunning ->
  MinutesSinceLastAttempt clock s = (Ok minutes, s, []) ->
  (0 <= minutes < MinMinutesBetweenSyncs cfg)%Z ->
  Cmd.performSync writeFile clock h backend cfg osq s
    = (Ok tt, s,
       [EvLog ("Last sync attempt was " +:+ fmt_d minutes
               +:+ " minutes ago, skipping (min: "
               +:+ fmt_d (MinMinutesBetweenSyncs cfg) +:+ ")")])
  /\ (AccessToken (mem s) ≠ EmptyString ->
      Cmd.runSync writeFile clock h backend cfg false verbose s
        = (Err ("sync was attempted " +:+ fmt_d minutes +:+ " minutes ago. Wait "
                +:+ fmt_d (MinMinutesBetweenSyncs cfg - minutes)
                +:+ " more minutes or use --force"), s, [])).
Proof.
  intros Hst Hmin Hrange. split; [by apply performSync_too_soon|].
  intros Hreg. by apply runSync_too_soon.
Qed.

Lemma recent_attempt_skips_sync_witness :
  Cmd.runSync Scenario.diskOk (Scenario.clockAt 5 (-1)) Fixture.bare
    Scenario.backendOk DefaultConfig false false (Scenario.registered "SUCCESS")
  = (Err "sync was attempted 5 minutes ago. Wait 10 more minutes or use --force",
     Scenario.registered "SUCCESS", []).
Proof.
  apply (recent_attempt_skips_sync Scenario.diskOk (Scenario.clockAt 5 (-1))
           Fixture.bare Scenario.backendOk DefaultConfig Fixture.client false
           (Scenario.registered "SUCCESS") 5); [done|reflexivity|done|done].
Defined.

(** C10. A last-attempt (last-success) timestamp that is empty or does not
    parse makes [MinutesSinceLastAttempt] ([HoursSinceLastSuccess]) return
    [-1]; a sync that is not forced is then not held back by that timestamp,
    whatever the configured minimum. With the store not in state [RUNNING],
    the sync is let through when the last attempt is unusable and the hours
    throttle is open, when the last success is unusable and the minutes
    throttle is open, and when both timestamps are unusable: it persists
    [RUNNING], probes the machine and posts the snapshot, as a sync that was
    never attempted before does. *)
Theorem unusable_timestamp_disables_throttle
  (writeFile : nat -> option error) (clock : Clock) (h : Host)
  (backend : Api.Backend) (cfg : Config) (osq : Client) (verbose : bool)
  (s : Store) :
  (unusable clock (LastSyncAttemptedAt (mem s)) ->
   MinutesSinceLastAttempt clock s = (Ok (-1)%Z, s, []))
  /\ (unusable clock (LastCheckedAt (mem s)) ->
      HoursSinceLastSuccess clock s = (Ok (-1)%Z, s, []))
  /\ (unusable clock (LastSyncAttemptedAt (mem s)) ->
      SyncState (mem s) ≠ SyncStateRunning ->
      forall hours,
        HoursSinceLastSuccess clock s = (Ok hours, s, []) ->
        (hours < 0 \/ MinHoursSinceLastSync cfg <= hours)%Z ->
        letThrough writeFile clock h backend cfg osq verbose s)
  /\ (unusable clock (LastCheckedAt (mem s)) ->
      SyncState (mem s) ≠ SyncStateRunning ->
      forall minutes,
        MinutesSinceLastAttempt clock s = (Ok minutes, s, []) ->
        (minutes < 0 \/ MinMinutesBetweenSyncs cfg <= minutes)%Z ->
        letThrough writeFile clock h backend cfg osq verbose s)
  /\ (unusable clock (LastSyncAttemptedAt (mem s)) ->
      unusable clock (LastCheckedAt (mem s)) ->
      SyncState (mem s) ≠ SyncStateRunning ->
      letThrough writeFile clock h backend cfg osq verbose s).
Proof.
  assert (forall minutes hours,
             SyncState (mem s) ≠ SyncStateRunning ->
             MinutesSinceLastAttempt clock s = (Ok minutes, s, []) ->
             HoursSinceLastSuccess clock s = (Ok hours, s, []) ->
             (minutes < 0 \/ MinMinutesBetweenSyncs cfg <= minutes)%Z ->
             (hours < 0 \/ MinHoursSinceLastSync cfg <= hours)%Z ->
             letThrough writeFile clock h backend cfg osq verbose s) as Hopen.
  { intros minutes hours Hst Hmin Hhrs Hm Hh. unfold letThrough.
    rewrite (performSync_proceeds _ _ _ _ _ _ _ minutes hours) by done.
    split; [done|]. split; [apply performSyncPipeline_enters|].
    intros Hreg.
    rewrite (runSync_proceeds _ _ _ _ _ _ _ minutes hours) by done.
    split; [done|]. intros client Hclient.
    by apply runSyncPipeline_enters. }
  split; [apply minutes_unusable|]. split; [apply hours_unusable|].
  split; [|split].
  - intros Hu Hst hours Hh Hrange.
    apply (Hopen (-1)%Z hours); [done|by apply minutes_unusable|done|lia|done].
  - intros Hu Hst minutes Hm Hrange.
    apply (Hopen minutes (-1)%Z); [done|done|by apply hours_unusable|done|lia].
  - intros Hu Hc Hst.
    apply (Hopen (-1)%Z (-1)%Z);
      [done|by apply minutes_unusable|by apply hours_unusable|lia|lia].
Qed.

Lemma unusable_timestamp_disables_throttle_witness :
  let corrupt :=
    {| mem := with_LastSyncAttemptedAt "yesterday" (Scenario.registeredDoc "ERROR");
       disk := Scenario.registeredDoc "ERROR"; writes := 0 |} in
  let r := Cmd.performSync Scenario.diskOk (Scenario.clockAt 5 (-1)) Fixture.bare
             Scenario.backendOk DefaultConfig Fixture.client corrupt in
  head (written (events r)) = Some (with_SyncState "RUNNING" (mem corrupt))
  /\ head (probes (events r))
     = Some "SELECT name, version, platform FROM os_version"
  /\ requests (events r) = [("POST", "https://agent.drata.com/agentv2/sync")]
  /\ take 2 (states (events r)) = ["RUNNING"; "RUNNING"].
Proof.
  intros corrupt r.
  destruct (unusable_timestamp_disables_throttle Scenario.diskOk
              (Scenario.clockAt 5 (-1)) Fixture.bare Scenario.backendOk
              DefaultConfig Fixture.client false corrupt) as (_ & _ & _ & _ & H).
  destruct H as (_ & [H1 H2] & _); [by right|by left|done|].
  split; [by apply H1|].
  destruct H2 as (H2 & H3 & H4); [done|done|reflexivity|reflexivity|].
  split; [subst r; by rewrite H2|]. split; [exact H3|exact H4].
Defined.

(** ** The registration handshake *)

Section Login.
Variable writeFile : nat -> option error.
Variable backend : Api.Backend.
Variable cfg : Config.

(** The token exchange of the Go client writes the credential before it
    asks for the profile, and leaves it in the store when the profile
    request fails. *)
Lemma login_leaves_token token s resp authResp e :
  (forall method url, Api.newRequestError backend method url = None) ->
  Api.postMagicLink backend token = Ok resp ->
  (Wire.StatusCode resp = Api.StatusOK \/ Wire.StatusCode resp = Api.StatusCreated) ->
  Wire.decoded resp = Ok authResp ->
  Wire.AccessToken authResp ≠ EmptyString ->
  writeFile (writes s) = None ->
  Api.getUsersMe backend = Err e ->
  let r := Api.LoginWithMagicLink writeFile backend cfg token s in
  outcome r = Err ("failed to get user info: " +:+ e)
  /\ AccessToken (disk (final r)) = Wire.AccessToken authResp
  /\ AccessToken (mem (final r)) = Wire.AccessToken authResp.
Proof.
  intros Hnew Hpost Hstatus Hdec Htok Hw Hme r. subst r.
  unfold Api.LoginWithMagicLink, Api.GetMe, Api.doRequest, GetRegion, GetUUID,
    GetAccessToken, SetAccessToken, wrap, bind, read, emit, assign, save, throw,
    outcome, final.
  assert (negb (Wire.StatusCode resp =? Api.StatusOK)%Z
          && negb (Wire.StatusCode resp =? Api.StatusCreated)%Z = false) as Hst.
  { destruct Hstatus as [-> | ->]; reflexivity. }
  assert (negb (str_eqb (Wire.AccessToken authResp) EmptyString) = true) as Hne.
  { unfold str_eqb.
    by destruct (String.eqb_spec (Wire.AccessToken authResp) EmptyString). }
  rewrite !Hnew, Hpost. cbn. rewrite Hst, Hdec. cbn. rewrite Hne, Hw. cbn.
  rewrite !Hnew, Hme. cbn. done.
Qed.
End Login.

(** C9: the claim holds on the TypeScript agent and fails on the Go agent.
    A registration where the token is exchanged and the profile request then
    fails returns an error before any registration request, with the bearer
    credential written to the store and left there. *)
Theorem register_keeps_token_when_profile_fails :
  let r := Cmd.runRegister Scenario.diskOk Fixture.bare
             Scenario.backendProfileDown "7c1d" DefaultConfig "magic" "NA"
             Scenario.fresh in
  outcome r
    = Err "authentication failed: failed to get user info: context deadline exceeded"
  /\ requests (events r)
     = [("POST", "https://agent.drata.com/auth/magic-link/magic");
        ("GET", "https://agent.drata.com/users/me")]
  /\ AccessToken (disk (final r)) = "secret"
  /\ AccessToken (mem (final r)) = "secret".
Proof. vm_compute. repeat split; reflexivity. Qed.

(** The same failure on the TypeScript agent: [configure] clears the
    configuration, and no credential is left in the file. *)
Lemma ts_configure_clears_token_when_profile_fails :
  let r := Ts.configure
             (TsScenario.node TsScenario.initOk (Err "timeout of 300000ms exceeded"))
             "magic" "NA" TsScenario.fresh in
  TsTrace.requests (events r)
    = [("POST", "https://agent.drata.com/auth/magic-link/magic");
       ("GET", "https://agent.drata.com/users/me")]
  /\ Ts.accessToken (Ts.file (final r)) = None
  /\ Ts.accessToken (Ts.config (final r)) = None.
Proof. vm_compute. repeat split; reflexivity. Qed.

(** ** The order of the state write and the first request *)

(** On the Go agent the order is the claimed one. A sync that enters the
    pipeline, from the daemon or from the command line, writes [RUNNING]
    before its first request; on a disk that takes every write, the states
    written are [RUNNING], at least twice, and then one last state, which is
    [SUCCESS] when the sync returns nil and [ERROR] when it returns an
    error. The command can also stop before any write, when the osquery
    client cannot be built. *)
Lemma go_sync_writes_running_first_and_settles
  (writeFile : nat -> option error) (clock : Clock) (h : Host)
  (backend : Api.Backend) (cfg : Config) (osq : Client) (force verbose : bool)
  (s : Store) :
  let daemon := Cmd.performSyncPipeline writeFile clock h backend cfg osq s in
  let command := Cmd.runSyncPipeline writeFile clock h backend cfg force verbose s in
  runningBeforeNetwork (events daemon)
  /\ runningBeforeNetwork (events command)
  /\ ((forall n, writeFile n = None) ->
      (exists k,
         2 <= k
         /\ states (events daemon)
            = replicate k SyncStateRunning ++ [SyncState (mem (final daemon))]
         /\ disk (final daemon) = mem (final daemon)
         /\ SyncState (mem (final daemon))
            = if is_ok (outcome daemon) then SyncStateSuccess else SyncStateError)
      /\ ((is_ok (NewClientWithVerbose h (OsqueryPath cfg) verbose) = false
           /\ is_ok (outcome command) = false
           /\ final command = s /\ events command = [])
          \/ exists k,
               2 <= k
               /\ states (events command)
                  = replicate k SyncStateRunning ++ [SyncState (mem (final command))]
               /\ disk (final command) = mem (final command)
               /\ SyncState (mem (final command))
                  = if is_ok (outcome command) then SyncStateSuccess
                    else SyncStateError)).
Proof.
  intros daemon command.
  split; [apply performSyncPipeline_running_first|].
  split; [apply runSyncPipeline_running_first|].
  intros Hdisk. split.
  - subst daemon.
    destruct (Cmd.performSyncPipeline _ _ _ _ _ _ _) as [[r s'] t] eqn:Hrun.
    eapply performSyncPipeline_settles; [exact Hdisk|exact Hrun].
  - subst command.
    destruct (Cmd.runSyncPipeline _ _ _ _ _ _ _ _) as [[r s'] t] eqn:Hrun.
    eapply runSyncPipeline_settles; [exact Hdisk|exact Hrun].
Qed.

(** C3: the claim fails on the TypeScript agent. With the initialization
    data not yet fetched, [sync] sends the request for it before it writes
    the attempt time and the state [RUNNING]; when that request fails, the
    state goes to [ERROR] without having been [RUNNING]. *)
Theorem ts_sync_requests_before_running :
  (let r := Ts.sync (TsScenario.node TsScenario.initOk TsScenario.profileOk)
              false TsScenario.registered in
   outcome r = Ok tt
   /\ TsTrace.sentBeforeRunning (events r) = true
   /\ TsTrace.requests (events r)
      = [("GET", "https://agent.drata.com/agentv2/init");
         ("POST", "https://agent.drata.com/agentv2/sync")]
   /\ TsTrace.states (events r)
      = [Some Ts.SUCCESS; Some Ts.SUCCESS; Some Ts.RUNNING; Some Ts.RUNNING;
         Some Ts.SUCCESS])
  /\ (let r := Ts.sync (TsScenario.node (Err "Network Error") TsScenario.profileOk)
                 false TsScenario.registered in
      TsTrace.requests (events r) = [("GET", "https://agent.drata.com/agentv2/init")]
      /\ TsTrace.states (events r) = [Some Ts.ERROR]
      /\ Ts.lastSyncAttemptedAt (Ts.file (final r)) = None).
Proof. vm_compute. repeat split; reflexivity. Qed.

(** ** The validation of the osquery binary path *)

Lemma byte_of_inj a b : byte_of a = byte_of b -> a = b.
Proof.
  unfold byte_of. intros H%(inj Z.of_N).
  rewrite <- (ascii_N_embedding a), <- (ascii_N_embedding b). by rewrite H.
Qed.

Lemma hasUnsafeChar_spec s :
  Ts.hasUnsafeChar s = true <->
  exists a, a ∈ PathSpec.forbidden /\ a ∈ list_ascii_of_string s.
Proof.
  induction s as [|b s IH]; cbn [Ts.hasUnsafeChar list_ascii_of_string].
  - split; [done|]. intros (a & _ & Ha). by apply elem_of_nil in Ha.
  - rewrite orb_true_iff, IH, bool_decide_eq_true.
    change Ts.unsafeChars with (byte_of <$> PathSpec.forbidden).
    rewrite list_elem_of_fmap. split.
    + intros [(a & Hab & Ha)|(a & Ha & Hin)].
      * apply byte_of_inj in Hab as ->. exists a. split; [done|left].
      * exists a. split; [done|by right].
    + intros (a & Ha & Hin). apply elem_of_cons in Hin as [->|Hin].
      * left. by exists b.
      * right. by exists a.
Qed.

Section Validation.
Variable node : Ts.Node.

Lemma validate_rejected p s :
  PathSpec.rejected node p -> exists e, Ts.validateOsqueryPath node p s = (Err e, s, []).
Proof.
  unfold PathSpec.rejected, Ts.validateOsqueryPath, str_eqb.
  intros H.
  destruct (String.eqb_spec (Ts.basename node (Ts.normalize node p)) "osqueryi")
    as [Hb|Hb]; cbn [negb]; [|by eexists].
  destruct (Ts.hasUnsafeChar (Ts.normalize node p)) eqn:Hu; [by eexists|].
  destruct (Ts.existsSync node (Ts.normalize node p)) eqn:He; cbn [negb];
    [|by eexists].
  destruct H as [H|[H|H]]; [done| |done].
  apply hasUnsafeChar_spec in H. congruence.
Qed.

Lemma validate_accepted p s :
  ¬ PathSpec.rejected node p -> Ts.validateOsqueryPath node p s = (Ok tt, s, []).
Proof.
  unfold PathSpec.rejected, Ts.validateOsqueryPath, str_eqb.
  intros H.
  destruct (String.eqb_spec (Ts.basename node (Ts.normalize node p)) "osqueryi")
    as [Hb|Hb]; cbn [negb]; [|by destruct H; left].
  destruct (Ts.hasUnsafeChar (Ts.normalize node p)) eqn:Hu.
  { destruct H. right. left. by apply hasUnsafeChar_spec. }
  destruct (Ts.existsSync node (Ts.normalize node p)) eqn:He; cbn [negb]; [done|].
  destruct H. by right; right.
Qed.

Lemma validate_error p s e s' t :
  Ts.validateOsqueryPath node p s = (Err e, s', t) -> PathSpec.rejected node p.
Proof.
  unfold PathSpec.rejected, Ts.validateOsqueryPath, str_eqb.
  destruct (String.eqb_spec (Ts.basename node (Ts.normalize node p)) "osqueryi")
    as [Hb|Hb]; cbn [negb]; [|by left].
  destruct (Ts.hasUnsafeChar (Ts.normalize node p)) eqn:Hu.
  { intros _. right. left. by apply hasUnsafeChar_spec. }
  destruct (Ts.existsSync node (Ts.normalize node p)) eqn:He; cbn [negb];
    [discriminate|]. intros _. by right; right.
Qed.
End Validation.

(** C7. [runQuery] validates the binary path first, on the normalized path.
    The validation raises an error exactly when the base name is not
    [osqueryi], or the path holds one of the forbidden characters, or no
    file exists there; the binary is then not run. A path that passes is
    run, between double quotes, with the query as its argument. *)
Theorem osquery_path_is_validated_before_use
  (node : Ts.Node) (osqueryiBinaryPath query : string) (s : Ts.Helper) :
  ((exists e, Ts.validateOsqueryPath node osqueryiBinaryPath s = (Err e, s, []))
   <-> PathSpec.rejected node osqueryiBinaryPath)
  /\ (PathSpec.rejected node osqueryiBinaryPath ->
      exists e, Ts.runQuery node osqueryiBinaryPath query s = (Err e, s, []))
  /\ (¬ PathSpec.rejected node osqueryiBinaryPath ->
      Ts.validateOsqueryPath node osqueryiBinaryPath s = (Ok tt, s, [])
      /\ final (Ts.runQuery node osqueryiBinaryPath query s) = s
      /\ events (Ts.runQuery node osqueryiBinaryPath query s)
         = [Ts.EvExecFile (Ts.dquote +:+ osqueryiBinaryPath +:+ Ts.dquote) [query]]).
Proof.
  split; [split|split].
  - intros [e He]. by eapply validate_error.
  - apply validate_rejected.
  - intros H. destruct (validate_rejected node _ s H) as [e He].
    exists e. unfold Ts.runQuery, bind. by rewrite He.
  - intros H. split; [by apply validate_accepted|].
    unfold Ts.runQuery, Ts.promiseExecFile, bind, emit, ret, throw, final, events.
    rewrite validate_accepted by done. cbn.
    by destruct (Ts.execFile node _ _).
Qed.

Lemma osquery_path_is_validated_before_use_witness :
  exists e,
    Ts.runQuery (TsScenario.node TsScenario.initOk TsScenario.profileOk)
      "/usr/bin/osqueryi;id" "SELECT 1" TsScenario.fresh
    = (Err e, TsScenario.fresh, []).
Proof.
  destruct (osquery_path_is_validated_before_use
              (TsScenario.node TsScenario.initOk TsScenario.profileOk)
              "/usr/bin/osqueryi;id" "SELECT 1" TsScenario.fresh) as (_ & H & _).
  apply H. left. done.
Defined.

(** * Further properties of the code *)

(** ** The store: [Update] *)

Ltac split_key k :=
  repeat match goal with
         | |- context [String.eqb k ?lit] =>
           destruct (String.eqb_spec k lit) as [->|?]
         end.

(** Two entries with different keys can be applied in either order. *)
Lemma apply_update_comm k1 v1 k2 v2 d :
  k1 ≠ k2 ->
  apply_update (k1, v1) (apply_update (k2, v2) d)
  = apply_update (k2, v2) (apply_update (k1, v1) d).
Proof.
  intros Hne. unfold apply_update, str_eqb.
  split_key k1; split_key k2; try done; cbn;
    destruct v1, v2; reflexivity.
Qed.

Lemma foldl_as_foldr {A B} (f : A -> B -> B) (b : B) (l : list A) :
  foldl (fun acc x => f x acc) b l = foldr f b (reverse l).
Proof.
  revert b. induction l as [|x l IH]; intros b; [done|].
  cbn [foldl]. by rewrite IH, reverse_cons, foldr_app.
Qed.

(** The entries of a map can be applied in the order of any list that holds
    them. *)
Lemma foldr_apply_update_order (l1 l2 : list (string * Dyn)) d :
  NoDup l1.*1 -> l1 ≡ₚ l2 ->
  foldr apply_update d l1 = foldr apply_update d l2.
Proof.
  intros Hnd Hperm. apply (foldr_permutation eq); [solve_proper| |done].
  intros j1 [k1 v1] j2 [k2 v2] d0 Hj H1 H2. apply apply_update_comm.
  intros ->. apply Hj.
  eapply (NoDup_lookup l1.*1); [done| |];
    rewrite list_lookup_fmap; [by rewrite H1|by rewrite H2].
Qed.

(** X1. [Update] ranges over a Go map, whose order of iteration is not
    fixed: whatever the order in which the entries are met, the document
    assigned and written is the same. *)
Theorem Update_in_any_order (writeFile : nat -> option error)
  (updates : gmap string Dyn) (order : list (string * Dyn)) (s : Store) :
  order ≡ₚ map_to_list updates ->
  Update writeFile updates s
  = bind (assign (fun d => foldl (fun d kv => apply_update kv d) d order))
      (fun _ => save writeFile) s.
Proof.
  intros Hperm. unfold Update, bind, assign.
  assert (foldr apply_update (mem s) (map_to_list updates)
          = foldl (fun d kv => apply_update kv d) (mem s) order) as ->; [|done].
  rewrite (foldl_as_foldr apply_update).
  apply foldr_apply_update_order; [apply NoDup_fst_map_to_list|].
  by rewrite reverse_Permutation.
Qed.

Lemma Update_in_any_order_witness :
  let updates : gmap string Dyn :=
    {[ "lastCheckedAt" := DString "2024-01-02T00:00:01Z";
       "winAvServicesMatchList" := DStrings (Some ["MsMpEng"]);
       "syncState" := DSyncState "SUCCESS" ]} in
  Update Scenario.diskOk updates Scenario.fresh
  = bind (assign (fun d =>
            with_SyncState "SUCCESS"
              (with_WinAvServicesMatchList (Some ["MsMpEng"])
                 (with_LastCheckedAt "2024-01-02T00:00:01Z" d))))
      (fun _ => save Scenario.diskOk) Scenario.fresh.
Proof.
  intros updates.
  apply (Update_in_any_order Scenario.diskOk updates
           [("lastCheckedAt", DString "2024-01-02T00:00:01Z");
            ("winAvServicesMatchList", DStrings (Some ["MsMpEng"]));
            ("syncState", DSyncState "SUCCESS")] Scenario.fresh).
  apply NoDup_Permutation.
  - repeat constructor; set_solver.
  - apply NoDup_map_to_list.
  - intros [k v]. rewrite elem_of_map_to_list. subst updates.
    rewrite !elem_of_cons, elem_of_nil.
    rewrite !lookup_insert_Some, lookup_singleton_Some. naive_solver.
Defined.

(** ** A write that fails in the middle of a sync *)

Section FailedWrite.
Variable writeFile : nat -> option error.
Variable clock : Clock.
Variable h : Host.
Variable backend : Api.Backend.
Variable cfg : Config.



End FailedWrite.





(** ** The API client and the store *)

Section ApiStore.
Variable writeFile : nat -> option error.
Variable backend : Api.Backend.
Variable cfg : Config.

Lemma doRequest_unchanged {A} method path (reply : result (Wire.Response A)) s :
  final (Api.doRequest backend cfg method path reply s) = s
  /\ written (events (Api.doRequest backend cfg method path reply s)) = []
  /\ length (requests (events (Api.doRequest backend cfg method path reply s))) <= 1.
Proof.
  unfold Api.doRequest, GetRegion, GetUUID, GetAccessToken.
  rewrite bind_read. destruct (Api.newRequestError _ _ _);
    [cbn; repeat split; lia|].
  rewrite !bind_read. unfold bind, emit.
  destruct reply; cbn; repeat split; lia.
Qed.

Lemma doRequest_refused {A} method path (reply : result (Wire.Response A)) s e :
  reply = Err e ->
  is_ok (outcome (Api.doRequest backend cfg method path reply s)) = false.
Proof.
  intros ->. unfold Api.doRequest, GetRegion, GetUUID, GetAccessToken.
  rewrite bind_read. destruct (Api.newRequestError _ _ _); [done|].
  by rewrite !bind_read.
Qed.

(** The first step of every call: the request, with the error wrapped. When
    it returns a response, that response is the reply. *)
Lemma request_step {A} pre method path (reply : result (Wire.Response A)) s :
  let r := wrap pre (Api.doRequest backend cfg method path reply) s in
  final r = s /\ written (events r) = []
  /\ length (requests (events r)) <= 1
  /\ match outcome r with
     | Ok resp => reply = Ok resp
     | Err _ => True
     end.
Proof.
  intros r. subst r.
  destruct (doRequest_unchanged method path reply s) as (Hs & Hw & Hr).
  unfold wrap.
  destruct (Api.doRequest backend cfg method path reply s) as [[[resp|e] s1] t1] eqn:Hd;
    cbn in *; repeat split; auto.
  revert Hd. unfold Api.doRequest, GetRegion, GetUUID, GetAccessToken.
  rewrite bind_read. destruct (Api.newRequestError _ _ _); [done|].
  rewrite !bind_read. unfold bind, emit. destruct reply; cbn; congruence.
Qed.
End ApiStore.

Section Refused.
Import ApiSpec.
Variable writeFile : nat -> option error.
Variable backend : Api.Backend.
Variable cfg : Config.

Lemma refused_call {A B} pre method path (reply : result (Wire.Response A))
  (k : Wire.Response A -> M Store Event B) accepted s :
  refused accepted reply ->
  (forall resp s1,
      Wire.StatusCode resp ∉ accepted \/ is_ok (Wire.decoded resp) = false ->
      exists e, k resp s1 = (Err e, s1, [])) ->
  untouched (bind (wrap pre (Api.doRequest backend cfg method path reply)) k s) s.
Proof.
  intros Href Hk.
  destruct (request_step backend cfg pre method path reply s) as (Hs & Hw & Hr & Ho).
  unfold bind.
  destruct (wrap pre _ s) as [[[resp|e] s1] t1]; cbn in Hs, Hw, Hr, Ho; subst s1.
  - subst reply. destruct (Hk resp s Href) as [e ->].
    unfold untouched. cbn. rewrite app_nil_r. done.
  - by unfold untouched.
Qed.

Lemma not_accepted_one st :
  st ∉ [Api.StatusOK] -> negb (st =? Api.StatusOK)%Z = true.
Proof.
  intros H. apply negb_true_iff, Z.eqb_neq. intros ->. apply H. set_solver.
Qed.

Lemma not_accepted_two st :
  st ∉ [Api.StatusOK; Api.StatusCreated] ->
  negb (st =? Api.StatusOK)%Z && negb (st =? Api.StatusCreated)%Z = true.
Proof.
  intros H. apply andb_true_iff.
  split; apply negb_true_iff, Z.eqb_neq; intros ->; apply H; set_solver.
Qed.

Ltac refused_branch :=
  intros resp s1 [Hst|Hdec];
  [ first [ rewrite (not_accepted_one _ Hst) | rewrite (not_accepted_two _ Hst) ];
    by eexists
  | destruct (negb _); [by eexists|];
    destruct (Wire.decoded resp); [done|by eexists] ].

Lemma GetMe_refused s :
  refused [Api.StatusOK] (Api.getUsersMe backend) ->
  untouched (Api.GetMe writeFile backend cfg s) s.
Proof. intros H. apply (refused_call _ _ _ _ _ _ _ H). refused_branch. Qed.

Lemma LoginWithMagicLink_refused token s :
  refused [Api.StatusOK; Api.StatusCreated] (Api.postMagicLink backend token) ->
  untouched (Api.LoginWithMagicLink writeFile backend cfg token s) s.
Proof.
  intros H. apply (refused_call _ _ _ _ _ _ _ H).
  intros resp s1 [Hst|Hdec].
  - rewrite (not_accepted_two _ Hst). by eexists.
  - destruct (negb _ && _); [by eexists|].
    destruct (Wire.decoded resp); [done|by eexists].
Qed.

Lemma Register_refused identifiers s :
  refused [Api.StatusOK; Api.StatusCreated]
    (Api.postRegister backend identifiers) ->
  untouched (Api.Register writeFile backend cfg identifiers s) s.
Proof.
  intros H. apply (refused_call _ _ _ _ _ _ _ H).
  intros resp s1 [Hst|Hdec].
  - rewrite (not_accepted_two _ Hst). by eexists.
  - destruct (negb _ && _); [by eexists|].
    destruct (Wire.decoded resp); [done|by eexists].
Qed.

Lemma Sync_refused queryResult s :
  refused [Api.StatusOK; Api.StatusCreated] (Api.postSync backend queryResult) ->
  untouched (Api.Sync writeFile backend cfg queryResult s) s.
Proof.
  intros H. apply (refused_call _ _ _ _ _ _ _ H).
  intros resp s1 [Hst|Hdec].
  - rewrite (not_accepted_two _ Hst). by eexists.
  - destruct (negb _ && _); [by eexists|].
    destruct (Wire.decoded resp); [done|by eexists].
Qed.

Lemma GetInitData_refused s :
  refused [Api.StatusOK] (Api.getInit backend) ->
  untouched (Api.GetInitData writeFile backend cfg s) s.
Proof. intros H. apply (refused_call _ _ _ _ _ _ _ H). refused_branch. Qed.
End Refused.

(** X4. A call of the API client whose reply is refused (the transport
    fails, the status is not an accepted one, or the body does not decode)
    returns an error and leaves the store as it was: nothing is written, and
    no second request is sent. *)
Theorem refused_reply_leaves_store
  (writeFile : nat -> option error) (backend : Api.Backend) (cfg : Config)
  (token : string) (identifiers : AgentDeviceIdentifiers)
  (queryResult : QueryResult) (s : Store) :
  (ApiSpec.refused [Api.StatusOK; Api.StatusCreated]
     (Api.postMagicLink backend token) ->
   ApiSpec.untouched (Api.LoginWithMagicLink writeFile backend cfg token s) s)
  /\ (ApiSpec.refused [Api.StatusOK] (Api.getUsersMe backend) ->
      ApiSpec.untouched (Api.GetMe writeFile backend cfg s) s)
  /\ (ApiSpec.refused [Api.StatusOK; Api.StatusCreated]
        (Api.postRegister backend identifiers) ->
      ApiSpec.untouched (Api.Register writeFile backend cfg identifiers s) s)
  /\ (ApiSpec.refused [Api.StatusOK; Api.StatusCreated]
        (Api.postSync backend queryResult) ->
      ApiSpec.untouched (Api.Sync writeFile backend cfg queryResult s) s)
  /\ (ApiSpec.refused [Api.StatusOK] (Api.getInit backend) ->
      ApiSpec.untouched (Api.GetInitData writeFile backend cfg s) s).
Proof.
  split; [apply LoginWithMagicLink_refused|].
  split; [apply GetMe_refused|].
  split; [apply Register_refused|].
  split; [apply Sync_refused|apply GetInitData_refused].
Qed.

Lemma refused_reply_leaves_store_witness :
  ApiSpec.untouched
    (Api.Sync Scenario.diskOk Example.backendDown DefaultConfig Fixture.noResult
       (Scenario.registered "RUNNING"))
    (Scenario.registered "RUNNING").
Proof.
  apply (refused_reply_leaves_store Scenario.diskOk Example.backendDown
           DefaultConfig EmptyString Fixture.noIdentifiers Fixture.noResult
           (Scenario.registered "RUNNING")).
  exact I.
Defined.

(** *** What an accepted reply leaves in the store *)

Section Accepted.
Import ApiSpec.
Variable writeFile : nat -> option error.
Variable backend : Api.Backend.
Variable cfg : Config.
Hypothesis well_formed : forall method url, Api.newRequestError backend method url = None.

Lemma accepted_call {A B} pre method path (reply : result (Wire.Response A))
  (k : Wire.Response A -> M Store Event B) resp s :
  reply = Ok resp ->
  bind (wrap pre (Api.doRequest backend cfg method path reply)) k s
  = (outcome (k resp s), final (k resp s),
     [EvRequest method
        (APIHostURL (TargetEnv cfg)
           (if str_eqb (Datastore.Region (mem s)) EmptyString
            then Config.Region cfg else Datastore.Region (mem s)) +:+ path)
        (AccessToken (mem s)) (UUID (mem s))]
     ++ events (k resp s)).
Proof.
  intros ->. apply bind_ok.
  unfold wrap, Api.doRequest, GetRegion, GetUUID, GetAccessToken.
  rewrite bind_read, well_formed, !bind_read. unfold bind, emit. cbn.
  reflexivity.
Qed.

Lemma accepted_one st : st ∈ [Api.StatusOK] -> negb (st =? Api.StatusOK)%Z = false.
Proof. intros H. apply negb_false_iff, Z.eqb_eq. set_solver. Qed.

Lemma accepted_two st :
  st ∈ [Api.StatusOK; Api.StatusCreated] ->
  negb (st =? Api.StatusOK)%Z && negb (st =? Api.StatusCreated)%Z = false.
Proof.
  intros H. apply andb_false_iff.
  assert (st = Api.StatusOK \/ st = Api.StatusCreated) as [-> | ->] by set_solver;
    [by left|by right].
Qed.

(** The map of updates that [Sync] builds, applied. *)
Lemma Sync_updates_applied (syncResp : Wire.SyncResponse) d :
  let updates : gmap string Dyn :=
    {[ "complianceData" := DSyncResponse syncResp;
       "lastCheckedAt" := DString (Wire.LastCheckedAt (Wire.SyncData syncResp)) ]} in
  foldr apply_update d (map_to_list updates)
  = with_LastCheckedAt (Wire.LastCheckedAt (Wire.SyncData syncResp))
      (with_ComplianceData (Some (DSyncResponse syncResp)) d)
  /\ foldr apply_update d
       (map_to_list (<["winAvServicesMatchList" :=
                         DStrings (Wire.SyncWinAvServicesMatchList syncResp)]> updates))
     = with_WinAvServicesMatchList (Wire.SyncWinAvServicesMatchList syncResp)
         (with_LastCheckedAt (Wire.LastCheckedAt (Wire.SyncData syncResp))
            (with_ComplianceData (Some (DSyncResponse syncResp)) d)).
Proof.
  intros updates.
  assert (map_to_list updates
          ≡ₚ [("lastCheckedAt", DString (Wire.LastCheckedAt (Wire.SyncData syncResp)));
              ("complianceData", DSyncResponse syncResp)]) as Hperm.
  { subst updates. rewrite map_to_list_insert by done.
    rewrite map_to_list_singleton. apply perm_swap. }
  split.
  - by rewrite (foldr_apply_update_order _ _ _ (NoDup_fst_map_to_list _) Hperm).
  - rewrite (foldr_apply_update_order _
               (("winAvServicesMatchList",
                 DStrings (Wire.SyncWinAvServicesMatchList syncResp))
                :: [("lastCheckedAt",
                     DString (Wire.LastCheckedAt (Wire.SyncData syncResp)));
                    ("complianceData", DSyncResponse syncResp)]) _
               (NoDup_fst_map_to_list _)); [done|].
    rewrite map_to_list_insert by done. by rewrite Hperm.
Qed.

Lemma Sync_accepted queryResult syncResp s :
  writeFile (writes s) = None ->
  answers [Api.StatusOK; Api.StatusCreated]
    (Api.postSync backend queryResult) syncResp ->
  outcome (Api.Sync writeFile backend cfg queryResult s) = Ok syncResp
  /\ final (Api.Sync writeFile backend cfg queryResult s)
     = {| mem := afterSync syncResp (mem s); disk := afterSync syncResp (mem s);
          writes := S (writes s) |}.
Proof.
  intros Hw (resp & Hreply & Hst & Hdec). unfold Api.Sync.
  rewrite (accepted_call _ _ _ _ _ resp s Hreply). rewrite (accepted_two _ Hst), Hdec.
  unfold outcome, final. cbn [fst snd].
  set (updates := if bool_decide _ then _ else _).
  assert (foldr apply_update (mem s) (map_to_list updates)
          = afterSync syncResp (mem s)) as Hdoc.
  { subst updates. unfold afterSync, Wire.slice_len.
    destruct (Sync_updates_applied syncResp (mem s)) as [H1 H2].
    destruct (Wire.SyncWinAvServicesMatchList syncResp) as [[|name names]|] eqn:Hl;
      cbn [length bool_decide]; [done| |done].
    rewrite bool_decide_true by (cbn; lia). by rewrite <- Hl in *. }
  unfold Update.
  rewrite (bind_ok _ _ _ _ _ _ (set_works writeFile _ _ s Hw)).
  cbn. by rewrite Hdoc.
Qed.

Lemma Register_accepted identifiers agentResp s :
  writeFile (writes s) = None ->
  answers [Api.StatusOK; Api.StatusCreated]
    (Api.postRegister backend identifiers) agentResp ->
  outcome (Api.Register writeFile backend cfg identifiers s) = Ok agentResp
  /\ mem (final (Api.Register writeFile backend cfg identifiers s))
     = afterRegister agentResp (mem s)
  /\ disk (final (Api.Register writeFile backend cfg identifiers s))
     = if str_eqb (Wire.LastCheckedAt agentResp) EmptyString then disk s
       else afterRegister agentResp (mem s).
Proof.
  intros Hw (resp & Hreply & Hst & Hdec). unfold Api.Register.
  rewrite (accepted_call _ _ _ _ _ resp s Hreply). rewrite (accepted_two _ Hst), Hdec.
  unfold outcome, final, afterRegister. cbn [fst snd].
  destruct (str_eqb (Wire.LastCheckedAt agentResp) EmptyString); cbn [negb].
  - done.
  - unfold SetLastCheckedAt.
    by rewrite (bind_ok _ _ _ _ _ _ (set_works writeFile _ _ s Hw)).
Qed.

Lemma GetInitData_accepted initResp s :
  writeFile (writes s) = None ->
  answers [Api.StatusOK] (Api.getInit backend) initResp ->
  outcome (Api.GetInitData writeFile backend cfg s) = Ok initResp
  /\ (Wire.slice_len (Wire.InitWinAvServicesMatchList initResp) = 0 ->
      final (Api.GetInitData writeFile backend cfg s) = s
      /\ written (events (Api.GetInitData writeFile backend cfg s)) = [])
  /\ (0 < Wire.slice_len (Wire.InitWinAvServicesMatchList initResp) ->
      final (Api.GetInitData writeFile backend cfg s)
      = {| mem := with_WinAvServicesMatchList
                    (Wire.InitWinAvServicesMatchList initResp) (mem s);
           disk := with_WinAvServicesMatchList
                     (Wire.InitWinAvServicesMatchList initResp) (mem s);
           writes := S (writes s) |}).
Proof.
  intros Hw (resp & Hreply & Hst & Hdec). unfold Api.GetInitData.
  rewrite (accepted_call _ _ _ _ _ resp s Hreply). rewrite (accepted_one _ Hst), Hdec.
  unfold outcome, final, events. cbn [fst snd].
  destruct (bool_decide _) eqn:Hlen.
  - apply bool_decide_eq_true in Hlen. unfold SetWinAvServicesMatchList.
    rewrite (bind_ok _ _ _ _ _ _ (set_works writeFile _ _ s Hw)).
    split; [done|]. split; [lia|done].
  - apply bool_decide_eq_false in Hlen. cbn.
    split; [done|]. split; [|lia]. done.
Qed.
End Accepted.

(** X5. A sync the backend accepts stores the time of the last check of
    the answer whatever it is: an answer without one erases the time the
    store held, and the throttle on the hours since the last success is then
    open. A registration the backend accepts keeps the time the store held
    when the answer has none. *)
Theorem sync_replaces_last_check_register_keeps_it
  (writeFile : nat -> option error) (clock : Clock) (backend : Api.Backend)
  (cfg : Config) (queryResult : QueryResult)
  (identifiers : AgentDeviceIdentifiers) (s : Store) :
  (forall method url, Api.newRequestError backend method url = None) ->
  writeFile (writes s) = None ->
  (forall syncResp,
      ApiSpec.answers [Api.StatusOK; Api.StatusCreated]
        (Api.postSync backend queryResult) syncResp ->
      let r := Api.Sync writeFile backend cfg queryResult s in
      outcome r = Ok syncResp
      /\ mem (final r) = ApiSpec.afterSync syncResp (mem s)
      /\ disk (final r) = mem (final r)
      /\ LastCheckedAt (mem (final r))
         = Wire.LastCheckedAt (Wire.SyncData syncResp)
      /\ (Wire.LastCheckedAt (Wire.SyncData syncResp) = EmptyString ->
          HoursSinceLastSuccess clock (final r) = (Ok (-1)%Z, final r, [])))
  /\ (forall agentResp,
         ApiSpec.answers [Api.StatusOK; Api.StatusCreated]
           (Api.postRegister backend identifiers) agentResp ->
         let r := Api.Register writeFile backend cfg identifiers s in
         outcome r = Ok agentResp
         /\ mem (final r) = ApiSpec.afterRegister agentResp (mem s)
         /\ (Wire.LastCheckedAt agentResp = EmptyString ->
             LastCheckedAt (mem (final r)) = LastCheckedAt (mem s))).
Proof.
  intros Hwf Hw. split.
  - intros syncResp Hans r. subst r.
    destruct (Sync_accepted writeFile backend cfg Hwf queryResult syncResp s Hw Hans)
      as [Ho Hf].
    rewrite Ho, Hf. cbn [mem disk].
    assert (LastCheckedAt (ApiSpec.afterSync syncResp (mem s))
            = Wire.LastCheckedAt (Wire.SyncData syncResp)) as Hlc.
    { unfold ApiSpec.afterSync.
      by destruct (Wire.SyncWinAvServicesMatchList syncResp) as [[|? ?]|]. }
    split; [done|]. split; [done|]. split; [done|]. split; [done|].
    intros Hempty. apply hours_unusable. left. cbn [mem]. by rewrite Hlc.
  - intros agentResp Hans r. subst r.
    destruct (Register_accepted writeFile backend cfg Hwf identifiers agentResp s
                Hw Hans) as (Ho & Hm & _).
    rewrite Ho, Hm. split; [done|]. split; [done|].
    intros Hempty. unfold ApiSpec.afterRegister. by rewrite Hempty.
Qed.

Lemma sync_replaces_last_check_register_keeps_it_witness :
  LastCheckedAt (mem Example.synced) = "2024-01-01T00:00:00Z"
  /\ (let r := Api.Sync Scenario.diskOk Example.backendTerse DefaultConfig
                 Fixture.noResult Example.synced in
      LastCheckedAt (mem (final r)) = EmptyString).
Proof.
  split; [reflexivity|].
  destruct (sync_replaces_last_check_register_keeps_it Scenario.diskOk
              (Scenario.clockAt 5 1) Example.backendTerse DefaultConfig
              Fixture.noResult Fixture.noIdentifiers Example.synced)
    as [H _]; [done|done|].
  destruct (H {| Wire.SyncData :=
                   {| Wire.LastCheckedAt := EmptyString; Wire.Data := VNil;
                      Wire.WinAvServicesMatchList := None |};
                 Wire.SyncWinAvServicesMatchList := None |})
    as (_ & _ & _ & H4 & _); [|exact H4].
  eexists. split; [reflexivity|]. split; [|reflexivity].
  apply list_elem_of_further, list_elem_of_here.
Defined.

(** X6. The initialization data are stored only when the list of antivirus
    services of the answer is not empty. With an empty or missing list the
    call succeeds without a write, and a store that was not ready is still
    not ready, so that the next sync asks for the data again. *)
Theorem init_data_ready_only_with_a_list
  (writeFile : nat -> option error) (backend : Api.Backend) (cfg : Config)
  (s : Store) (initResp : Wire.InitDataResponse) :
  (forall method url, Api.newRequestError backend method url = None) ->
  writeFile (writes s) = None ->
  ApiSpec.answers [Api.StatusOK] (Api.getInit backend) initResp ->
  let r := Api.GetInitData writeFile backend cfg s in
  outcome r = Ok initResp
  /\ (Wire.slice_len (Wire.InitWinAvServicesMatchList initResp) = 0 ->
      final r = s /\ written (events r) = []
      /\ (WinAvServicesMatchList (mem s) = None ->
          IsInitDataReady (final r) = (Ok false, final r, [])))
  /\ (0 < Wire.slice_len (Wire.InitWinAvServicesMatchList initResp) ->
      WinAvServicesMatchList (mem (final r))
      = Wire.InitWinAvServicesMatchList initResp
      /\ disk (final r) = mem (final r)
      /\ IsInitDataReady (final r) = (Ok true, final r, [])).
Proof.
  intros Hwf Hw Hans r. subst r.
  destruct (GetInitData_accepted writeFile backend cfg Hwf initResp s Hw Hans)
    as (Ho & Hempty & Hfull).
  split; [done|]. split.
  - intros Hlen. destruct (Hempty Hlen) as [-> ->].
    split; [done|]. split; [done|].
    intros Hnone. unfold IsInitDataReady, read. by rewrite Hnone.
  - intros Hlen. rewrite (Hfull Hlen). cbn [mem disk].
    split; [done|]. split; [done|].
    unfold IsInitDataReady, read. cbn [mem].
    destruct (Wire.InitWinAvServicesMatchList initResp); [done|].
    cbn in Hlen. lia.
Qed.

Lemma init_data_ready_only_with_a_list_witness :
  let r := Api.GetInitData Scenario.diskOk Example.backendTerse DefaultConfig
             Example.unready in
  final r = Example.unready
  /\ IsInitDataReady (final r) = (Ok false, final r, []).
Proof.
  intros r.
  destruct (init_data_ready_only_with_a_list Scenario.diskOk Example.backendTerse
              DefaultConfig Example.unready
              {| Wire.InitWinAvServicesMatchList := Some [] |})
    as (_ & H & _); [done|done| |].
  { eexists. split; [reflexivity|]. split; [|reflexivity].
    apply list_elem_of_here. }
  destruct H as (H1 & _ & H3); [reflexivity|].
  split; [exact H1|]. apply H3. reflexivity.
Defined.

(** ** The GNOME settings probes *)

Section Gsettings.
Variable h : Host.
Variable c : Client.

Lemma session_user_empty_or_valid :
  (getDesktopSessionUser h c).1 = EmptyString
  \/ isValidSessionUser h (getDesktopSessionUser h c).1 = true.
Proof.
  rewrite getDesktopSessionUser_value.
  destruct (isValidSessionUser h (TrimSpace (Getenv h "SUDO_USER"))) eqn:H1;
    [by right|].
  destruct (isValidSessionUser h (TrimSpace (Getenv h "LOGNAME"))) eqn:H2;
    [by right|].
  destruct (isValidSessionUser h (TrimSpace (Getenv h "USER"))) eqn:H3;
    [by right|].
  destruct (RunCommand h c "logname").1 as [output|]; [|by left].
  destruct (isValidSessionUser h (TrimSpace output)) eqn:H4; [by right|by left].
Qed.

Lemma runGsettingsCommand_value args :
  (runGsettingsCommand h c args).1 =
  let user := (getDesktopSessionUser h c).1 in
  if str_eqb user EmptyString then (RunCommand h c ("gsettings " +:+ args)).1
  else match (RunCommand h c (GsettingsSpec.asUser user args)).1 with
       | Ok output => Ok output
       | Err _ => (RunCommand h c ("gsettings " +:+ args)).1
       end.
Proof.
  unfold runGsettingsCommand. rewrite wbind_fst. cbn zeta.
  destruct (str_eqb _ _); [done|]. rewrite wbind_fst.
  change (String.append "uid=$(id -u " _) with
    (GsettingsSpec.asUser (getDesktopSessionUser h c).1 args).
  by destruct (RunCommand h c _).1.
Qed.

Lemma runGsettingsCommand_events args :
  (runGsettingsCommand h c args).2 =
  let user := (getDesktopSessionUser h c).1 in
  (getDesktopSessionUser h c).2
  ++ (if str_eqb user EmptyString then [Command ("gsettings " +:+ args)]
      else Command (GsettingsSpec.asUser user args)
           :: (if is_ok (RunCommand h c (GsettingsSpec.asUser user args)).1
               then [] else [Command ("gsettings " +:+ args)])).
Proof.
  unfold runGsettingsCommand. rewrite wbind_snd. cbn zeta. f_equal.
  destruct (str_eqb _ _); [done|]. rewrite wbind_snd.
  change (String.append "uid=$(id -u " _) with
    (GsettingsSpec.asUser (getDesktopSessionUser h c).1 args).
  by destruct (RunCommand h c _).1.
Qed.

Lemma runGsettingsCommand_calls args call :
  call ∈ (runGsettingsCommand h c args).2 ->
  call = Command "logname"
  \/ call = Command ("gsettings " +:+ args)
  \/ exists user,
       isValidSessionUser h user = true
       /\ call = Command (GsettingsSpec.asUser user args).
Proof.
  rewrite runGsettingsCommand_events, getDesktopSessionUser_events. cbn zeta.
  intros [Hin|Hin]%elem_of_app.
  - left. destruct (_ || _); [by apply elem_of_nil in Hin|].
    by apply list_elem_of_singleton in Hin.
  - right. destruct (str_eqb _ _) eqn:Huser.
    + left. by apply list_elem_of_singleton in Hin.
    + destruct session_user_empty_or_valid as [Hempty|Hvalid];
        [by rewrite Hempty in Huser|].
      apply elem_of_cons in Hin as [->|Hin]; [right; eauto|].
      left. destruct (is_ok _); [by apply elem_of_nil in Hin|].
      by apply list_elem_of_singleton in Hin.
Qed.
End Gsettings.

Lemma append_same_length (a b x y : string) :
  String.length a = String.length b -> a +:+ x = b +:+ y -> a = b.
Proof.
  revert b. induction a as [|ch a IH]; intros [|ch' b] Hlen Heq; try done.
  cbn in Hlen, Heq. injection Heq as -> Heq. f_equal. apply IH; [lia|done].
Qed.

Lemma length_append (a b : string) :
  String.length (a +:+ b) = String.length a + String.length b.
Proof. induction a as [|ch a IH]; simpl; [done|by f_equal]. Qed.

Lemma asUser_inj user1 user2 args :
  GsettingsSpec.asUser user1 args = GsettingsSpec.asUser user2 args ->
  user1 = user2.
Proof.
  intros Heq. unfold GsettingsSpec.asUser in Heq.
  assert (String.length user1 = String.length user2) as Hlen.
  { apply (f_equal String.length) in Heq.
    rewrite !length_append in Heq. lia. }
  cbn in Heq. injection Heq as Heq.
  eapply append_same_length; [exact Hlen|exact Heq].
Qed.

(** X7. [runGsettingsCommand] puts a user name into a shell line only when
    the name is valid (not empty, not [root], made of letters, digits, [-]
    and [_]): every command it runs is [logname], the plain [gsettings]
    line, or the [sudo -u] line for such a name. The answer is that of the
    session line when it succeeds, and that of the plain line otherwise. *)
Theorem gsettings_runs_as_valid_user_only (h : Host) (c : Client) (args : string) :
  (forall call, call ∈ (runGsettingsCommand h c args).2 ->
     call = Command "logname"
     \/ call = Command ("gsettings " +:+ args)
     \/ exists user,
          user ≠ EmptyString /\ user ≠ "root"
          /\ (forall r, r ∈ runes user -> sessionChar h r = true)
          /\ call = Command (GsettingsSpec.asUser user args))
  /\ (runGsettingsCommand h c args).1 =
     (let user := (getDesktopSessionUser h c).1 in
      if str_eqb user EmptyString then (RunCommand h c ("gsettings " +:+ args)).1
      else match (RunCommand h c (GsettingsSpec.asUser user args)).1 with
           | Ok output => Ok output
           | Err _ => (RunCommand h c ("gsettings " +:+ args)).1
           end)
  /\ (forall pre post,
        Command (GsettingsSpec.asUser (pre +:+ ";rm -rf" +:+ post) args)
          ∉ (runGsettingsCommand h c args).2).
Proof.
  split; [|split; [apply runGsettingsCommand_value|]].
  - intros call [->|[->|(user & Hvalid & ->)]]%runGsettingsCommand_calls;
      [by left|by right; left|].
    right; right. exists user.
    apply isValidSessionUser_spec in Hvalid as (? & ? & ?). done.
  - intros pre post [Heq|[Heq|(user & Hvalid & Heq)]]%runGsettingsCommand_calls;
      [done|done|].
    assert (GsettingsSpec.asUser (pre +:+ ";rm -rf" +:+ post) args
            = GsettingsSpec.asUser user args) as Heq' by congruence.
    apply asUser_inj in Heq'. subst user.
    by rewrite injection_rejected in Hvalid.
Qed.

Lemma gsettings_runs_as_valid_user_only_witness :
  Command (GsettingsSpec.asUser "x;rm -rf /"
             "get org.gnome.desktop.session idle-delay")
    ∉ (runGsettingsCommand Fixture.sudoRoot Fixture.client
         "get org.gnome.desktop.session idle-delay").2.
Proof.
  destruct (gsettings_runs_as_valid_user_only Fixture.sudoRoot Fixture.client
              "get org.gnome.desktop.session idle-delay") as (_ & _ & H).
  exact (H "x" " /").
Defined.

(** ** A client the agent built always collects *)

Section Built.
Variable h : Host.

Lemma NewClientWithVerbose_platform path verbose client :
  NewClientWithVerbose h path verbose = Ok client ->
  detectPlatform h = Ok (platform client).
Proof.
  unfold NewClientWithVerbose. destruct (detectPlatform h) as [p|e]; [|done].
  destruct (str_eqb path EmptyString).
  - destruct (findOsqueryBinary h); [|done]. by intros [= <-].
  - by intros [= <-].
Qed.

Lemma detectPlatform_known p :
  detectPlatform h = Ok p ->
  p ∈ [PlatformMacOS; PlatformWindows; PlatformLinux]
  /\ (GOOS h = "linux" -> p = PlatformLinux).
Proof.
  unfold detectPlatform, str_eqb.
  destruct (String.eqb_spec (GOOS h) "darwin") as [->|_].
  { intros [= <-]. split; [set_solver|done]. }
  destruct (String.eqb_spec (GOOS h) "windows") as [->|_].
  { intros [= <-]. split; [set_solver|done]. }
  destruct (String.eqb_spec (GOOS h) "linux") as [->|_]; [|done].
  intros [= <-]. split; [set_solver|done].
Qed.

Lemma collect_always_reported c k :
  k ∈ SnapshotSpec.alwaysReported -> is_Some ((Linux.collect h c).1 !! k).
Proof.
  unfold SnapshotSpec.alwaysReported. rewrite !elem_of_cons, elem_of_nil.
  intros [->|[->|[->|[->|[->|[]]]]]].
  - by rewrite collect_antivirus.
  - by rewrite collect_autoUpdateSettings.
  - unfold Linux.collect. rewrite !wbind_fst.
    rewrite screenLockSettings_other, locationServices_other by done.
    unfold Linux.screenLockStatus. rewrite !wbind_fst. cbn [wret fst].
    by rewrite lookup_insert_eq.
  - unfold Linux.collect. rewrite !wbind_fst.
    rewrite screenLockSettings_other by done.
    unfold Linux.locationServices. rewrite !wbind_fst. cbn [wret fst].
    by rewrite lookup_insert_eq.
  - unfold Linux.collect. rewrite !wbind_fst.
    unfold Linux.screenLockSettings. rewrite !wbind_fst. cbn [wret fst].
    by rewrite lookup_insert_eq.
Qed.

Lemma GetSystemInfo_known c version :
  platform c ∈ [PlatformMacOS; PlatformWindows; PlatformLinux] ->
  is_ok (Collector.GetSystemInfo h c version).1 = true
  /\ is_ok (Collector.GetAgentDeviceIdentifiers h c).1 = true.
Proof.
  rewrite !elem_of_cons, elem_of_nil.
  unfold Collector.GetSystemInfo, Collector.GetAgentDeviceIdentifiers.
  intros [->|[->|[->|[]]]]; cbn [str_eqb String.eqb Ascii.eqb Bool.eqb
    PlatformMacOS PlatformWindows PlatformLinux];
    rewrite ?wbind_fst; cbn [wret fst is_ok]; try done.
  rewrite getLinuxSystemInfo_value. split; [done|].
  unfold Linux.getLinuxDeviceIdentifiers. rewrite !wbind_fst.
  by destruct (found _).
Qed.
End Built.

(** X8. A client built by [NewClientWithVerbose] knows its platform, so the
    [unsupported platform] branch of the two dispatchers is never taken: the
    collection of the snapshot and of the device identifiers returns a value
    whatever the probes answer (the macOS and Windows collectors have a
    single return, without error). On Linux the snapshot carries the agent
    version and always holds the facts of [alwaysReported]. A daemon sync
    that enters the pipeline with its initialization data and a disk that
    takes every write therefore always posts its snapshot. *)
Theorem built_client_always_collects (h : Host) (path : string)
  (verbose : bool) (client : Client) (version : string) :
  NewClientWithVerbose h path verbose = Ok client ->
  platform client ∈ [PlatformMacOS; PlatformWindows; PlatformLinux]
  /\ (exists q, (Collector.GetSystemInfo h client version).1 = Ok q
        /\ (GOOS h = "linux" ->
            DrataAgentVersion q = version /\ Platform q = PlatformLinux
            /\ forall k, k ∈ SnapshotSpec.alwaysReported ->
                         is_Some (RawQueryResults q !! k)))
  /\ (exists i, (Collector.GetAgentDeviceIdentifiers h client).1 = Ok i)
  /\ (forall writeFile clock backend cfg s,
        (forall n, writeFile n = None) ->
        WinAvServicesMatchList (mem s) ≠ None ->
        let url :=
          APIHostURL (TargetEnv cfg)
            (if str_eqb (Datastore.Region (mem s)) EmptyString
             then Config.Region cfg else Datastore.Region (mem s))
          +:+ "/agentv2/sync" in
        Api.newRequestError backend "POST" url = None ->
        requests (events (Cmd.performSyncPipeline writeFile clock h backend
                            cfg client s))
        = [("POST", url)]).
Proof.
  intros Hbuilt.
  apply NewClientWithVerbose_platform in Hbuilt.
  apply detectPlatform_known in Hbuilt as [Hknown Hlinux].
  split; [done|]. split; [|split].
  - destruct (GetSystemInfo_known h client version Hknown) as [Hq _].
    destruct (Collector.GetSystemInfo h client version).1 as [q|] eqn:Hrun;
      [|done].
    exists q. split; [done|]. intros Hgoos.
    unfold Collector.GetSystemInfo in Hrun. rewrite (Hlinux Hgoos) in Hrun.
    cbn in Hrun. rewrite getLinuxSystemInfo_value in Hrun.
    injection Hrun as <-. cbn [DrataAgentVersion Platform RawQueryResults].
    split; [done|]. split; [done|]. apply collect_always_reported.
  - destruct (GetSystemInfo_known h client version Hknown) as [_ Hi].
    destruct (Collector.GetAgentDeviceIdentifiers h client).1; [eauto|done].
  - intros writeFile clock backend cfg s Hdisk Hready url Hnew.
    destruct (performSyncPipeline_enters writeFile clock h backend cfg client s)
      as [_ Henters].
    destruct (GetSystemInfo_known h client (Version cfg) Hknown) as [Hq _].
    by destruct (Henters Hdisk Hready Hq Hnew) as (_ & Hreq & _).
Qed.

Lemma built_client_always_collects_witness :
  exists q,
    (Collector.GetSystemInfo Fixture.bare Fixture.client "3.9.0-cli").1 = Ok q
    /\ is_Some (RawQueryResults q !! "screenLockStatus").
Proof.
  destruct (built_client_always_collects Fixture.bare "/usr/bin/osqueryi" false
              Fixture.client "3.9.0-cli") as (_ & (q & Hq & Hkeys) & _);
    [reflexivity|].
  exists q. split; [exact Hq|].
  destruct Hkeys as (_ & _ & Hkeys); [reflexivity|].
  apply Hkeys. unfold SnapshotSpec.alwaysReported.
  apply list_elem_of_further, list_elem_of_further, list_elem_of_here.
Defined.

(** ** A registration that stops half way *)






(** *** The credential, once stored, stays *)

Section Keeps.
Import Invariant.
Context {A B : Type}.
Variable P : Store -> Prop.



Lemma keeps_try (m : M Store Event A) : keeps P m -> keeps P (try m).
Proof.
  intros Hm s Hs. specialize (Hm s Hs). unfold try.
  by destruct (m s) as [[r s1] t1].
Qed.



Lemma keeps_read (f : DataStore -> A) : keeps P (read f).
Proof. by intros s Hs. Qed.

End Keeps.

Section KeepsToken.
Import Invariant.
Variable writeFile : nat -> option error.
Variable backend : Api.Backend.
Variable cfg : Config.
Variable token : string.





End KeepsToken.

Section HalfRegistered.
Variable writeFile : nat -> option error.
Variable h : Host.
Variable backend : Api.Backend.
Variable newUUID : string.
Variable cfg : Config.






End HalfRegistered.



(** ** The TypeScript [sync] command has no throttle *)

Section TsSync.
Variable node : Ts.Node.

Lemma ts_sync_events verbose s hostUrl :
  Ts.truthy (Ts.accessToken (Ts.config s)) = true ->
  Ts.truthy (Ts.uuid (Ts.config s)) = true ->
  is_Some (Ts.winAvServicesMatchList (Ts.config s)) ->
  (forall n, Ts.writeFileSync node n = None) ->
  (forall s', Ts.resolveBaseUrl node (Ts.region (Ts.config s)) s'
              = (Ok hostUrl, s', [])) ->
  let attempted :=
    Ts.with_lastSyncAttemptedAt (Some (Ts.nowISO node)) (Ts.config s) in
  exists bearer correlation tail,
    events (Ts.sync node verbose s)
    = Ts.EvConsole "Running sync..."
      :: Ts.EvWrite attempted
      :: Ts.EvWrite (Ts.with_syncState (Some Ts.RUNNING) attempted)
      :: (if verbose then [Ts.EvConsole "Querying system information..."] else [])
      ++ Ts.EvCollect
      :: (if verbose
          then [Ts.EvConsole "System info collected. Sending to Drata..."]
          else [])
      ++ Ts.EvRequest "POST" (hostUrl +:+ "/agentv2/sync") bearer correlation
      :: tail
    /\ TsTrace.requests tail = [].
Proof.
  intros Hreg Huuid Hready Hdisk Hurl attempted. subst attempted.
  assert (bool_decide (is_Some (Ts.winAvServicesMatchList (Ts.config s))) = true)
    as Hlist by by apply bool_decide_eq_true.
  unfold Ts.sync, Ts.apiSync, Ts.request, Ts.isRegistered, Ts.isInitDataReady,
    Ts.get, Ts.set, Ts.assign, Ts.writeConfig, Ts.console, Ts.exit,
    bind, try, emit, ret, throw, events.
  destruct (Ts.postSync node _) as [[[[checked|] matchList]|]|e];
    destruct verbose;
    repeat (rewrite ?Hreg, ?Huuid, ?Hlist, ?Hdisk, ?Hurl;
            cbn -[Ts.resolveBaseUrl Ts.truthy]);
    (eexists _, _, _; split; [reflexivity|reflexivity]).
Qed.
End TsSync.

(** X10. The [sync] command of the TypeScript agent has neither a
    single-run guard nor a throttle: for a registered agent that has its
    initialization data, whatever the sync state and the time of the last
    attempt in the configuration, and [RUNNING] with an attempt just made
    among them, it writes the attempt time and [RUNNING], collects the
    snapshot and posts it. *)
Theorem ts_sync_runs_whatever_the_state (node : Ts.Node) (verbose : bool)
  (s : Ts.Helper) (hostUrl : string) :
  Ts.truthy (Ts.accessToken (Ts.config s)) = true ->
  Ts.truthy (Ts.uuid (Ts.config s)) = true ->
  is_Some (Ts.winAvServicesMatchList (Ts.config s)) ->
  (forall n, Ts.writeFileSync node n = None) ->
  (forall s', Ts.resolveBaseUrl node (Ts.region (Ts.config s)) s'
              = (Ok hostUrl, s', [])) ->
  let r := Ts.sync node verbose s in
  let attempted :=
    Ts.with_lastSyncAttemptedAt (Some (Ts.nowISO node)) (Ts.config s) in
  TsTrace.requests (events r) = [("POST", hostUrl +:+ "/agentv2/sync")]
  /\ Ts.EvCollect ∈ events r
  /\ take 2 (TsTrace.written (events r))
     = [attempted; Ts.with_syncState (Some Ts.RUNNING) attempted].
Proof.
  intros Hreg Huuid Hready Hdisk Hurl r attempted. subst r attempted.
  destruct (ts_sync_events node verbose s hostUrl Hreg Huuid Hready Hdisk Hurl)
    as (bearer & correlation & tail & -> & Htail).
  unfold TsTrace.requests in Htail |- *.
  destruct verbose; cbn; rewrite Htail; (split; [done|]); (split; [|done]);
    repeat first [apply list_elem_of_here | apply list_elem_of_further].
Qed.

Lemma ts_sync_runs_whatever_the_state_witness :
  let running :=
    Ts.with_lastSyncAttemptedAt (Some "2024-01-02T00:00:00.000Z")
      (Ts.with_syncState (Some Ts.RUNNING)
         (Ts.with_winAvServicesMatchList (Some ["MsMpEng"])
            TsScenario.registeredConfig)) in
  let r := Ts.sync (TsScenario.node TsScenario.initOk TsScenario.profileOk) false
             {| Ts.config := running; Ts.file := running; Ts.writes := 0 |} in
  TsTrace.requests (events r) = [("POST", "https://agent.drata.com/agentv2/sync")]
  /\ Ts.EvCollect ∈ events r.
Proof.
  intros running r.
  destruct (ts_sync_runs_whatever_the_state
              (TsScenario.node TsScenario.initOk TsScenario.profileOk) false
              {| Ts.config := running; Ts.file := running; Ts.writes := 0 |}
              "https://agent.drata.com")
    as (H1 & H2 & _); [reflexivity|reflexivity|by eexists|done|done|].
  split; [exact H1|exact H2].
Defined.

(** X11. A sync of the TypeScript agent that the backend accepts takes the
    list of antivirus services and the time of the last check from the
    answer as they are: an answer without a list erases the list the agent
    held, and the agent, which was ready, has no initialization data any
    more and fetches them again at its next sync. (The Go agent keeps its
    list in that case.) *)
Theorem ts_sync_takes_list_from_answer (node : Ts.Node) (verbose : bool)
  (s : Ts.Helper) (hostUrl : string) (dto : Ts.AgentV2ResponseDto)
  (checked : option string) :
  Ts.truthy (Ts.accessToken (Ts.config s)) = true ->
  Ts.truthy (Ts.uuid (Ts.config s)) = true ->
  is_Some (Ts.winAvServicesMatchList (Ts.config s)) ->
  (forall n, Ts.writeFileSync node n = None) ->
  (forall s', Ts.resolveBaseUrl node (Ts.region (Ts.config s)) s'
              = (Ok hostUrl, s', [])) ->
  Ts.postSync node
    {| Ts.drataAgentVersion := Ts.drataAgentVersion (Ts.getSystemInfo node);
       Ts.platform := Ts.platform (Ts.getSystemInfo node);
       Ts.manualRun := true;
       Ts.rawQueryResults := Ts.rawQueryResults (Ts.getSystemInfo node) |}
  = Ok (Some dto) ->
  Ts.data dto = Some checked ->
  let r := Ts.sync node verbose s in
  outcome r = Ok tt
  /\ Ts.winAvServicesMatchList (Ts.config (final r))
     = Ts.syncWinAvServicesMatchList dto
  /\ Ts.lastCheckedAt (Ts.config (final r)) = checked
  /\ Ts.syncState (Ts.config (final r)) = Some Ts.SUCCESS
  /\ Ts.file (final r) = Ts.config (final r)
  /\ (Ts.syncWinAvServicesMatchList dto = None ->
      Ts.isInitDataReady (final r) = (Ok false, final r, [])).
Proof.
  intros Hreg Huuid Hready Hdisk Hurl Hpost Hdata r. subst r.
  assert (bool_decide (is_Some (Ts.winAvServicesMatchList (Ts.config s))) = true)
    as Hlist by by apply bool_decide_eq_true.
  unfold Ts.sync, Ts.apiSync, Ts.request, Ts.isRegistered, Ts.isInitDataReady,
    Ts.get, Ts.set, Ts.assign, Ts.writeConfig, Ts.console, Ts.exit,
    bind, try, emit, ret, throw, outcome, final.
  destruct verbose;
    repeat (rewrite ?Hreg, ?Huuid, ?Hlist, ?Hdisk, ?Hurl, ?Hpost, ?Hdata;
            cbn -[Ts.resolveBaseUrl Ts.truthy]);
    (split; [done|]); (split; [done|]); (split; [done|]); (split; [done|]);
    (split; [done|]); by intros ->.
Qed.

Lemma ts_sync_takes_list_from_answer_witness :
  let ready :=
    Ts.with_winAvServicesMatchList (Some ["MsMpEng"]) TsScenario.registeredConfig in
  let node :=
    {| Ts.writeFileSync := fun _ => None; Ts.TARGET_ENV := EmptyString;
       Ts.randomUUID := "7c1d"; Ts.nowISO := "2024-01-02T00:00:00.000Z";
       Ts.postMagicLink := fun _ => Err "unused"; Ts.getUsersMe := Err "unused";
       Ts.postRegister := Err "unused";
       Ts.postSync := fun _ =>
         Ok (Some {| Ts.data := Some (Some "2024-01-02T00:00:01Z");
                     Ts.syncWinAvServicesMatchList := None |});
       Ts.getInit := Err "unused"; Ts.getSystemInfo := TsScenario.noResult;
       Ts.normalize := fun p => p; Ts.basename := fun p => p;
       Ts.existsSync := fun _ => true; Ts.execFile := fun _ _ => Ok "[]";
       Ts.trim := TrimSpace |} in
  let r := Ts.sync node false
             {| Ts.config := ready; Ts.file := ready; Ts.writes := 0 |} in
  outcome r = Ok tt
  /\ Ts.winAvServicesMatchList (Ts.file (final r)) = None.
Proof.
  intros ready node r.
  destruct (ts_sync_takes_list_from_answer node false
              {| Ts.config := ready; Ts.file := ready; Ts.writes := 0 |}
              "https://agent.drata.com"
              {| Ts.data := Some (Some "2024-01-02T00:00:01Z");
                 Ts.syncWinAvServicesMatchList := None |}
              (Some "2024-01-02T00:00:01Z"))
    as (H1 & H2 & _ & _ & H5 & _);
    [reflexivity|reflexivity|by eexists|done|done|reflexivity|reflexivity|].
  split; [exact H1|]. fold r in H2, H5. by rewrite H5, H2.
Defined.

(** ** The scheduler and its registry *)

Section SchedulerProofs.
Import Scheduler SchedulerSpec.
Context {Action : Type}.
Variable parseSpec : string -> option error.

Lemma ScheduleJob_run id intervalHours action (s : Scheduler Action) :
  ScheduleJob parseSpec id intervalHours action s =
  let spec := "0 0 */" +:+ fmt_d intervalHours +:+ " * * *" in
  match parseSpec spec with
  | Some e =>
    (Err ("failed to schedule job " +:+ id +:+ ": " +:+ e), cleared id s, [])
  | None =>
    (Ok tt, scheduled id spec action s,
     [EvLog ("Scheduled job '" +:+ id +:+ "' to run every "
             +:+ fmt_d intervalHours +:+ " hours")])
  end.
Proof.
  unfold ScheduleJob, cleared, scheduled, cleared, bind, get, try, cronAddFunc,
    cronRemove, setJob, logPrintf, emit, ret, throw.
  cbn zeta. destruct (jobs s !! id); cbn; by destruct (parseSpec _).
Qed.

Lemma ScheduleJobWithMinutes_run id intervalMinutes action
  (s : Scheduler Action) :
  ScheduleJobWithMinutes parseSpec id intervalMinutes action s =
  let spec := "0 */" +:+ fmt_d intervalMinutes +:+ " * * * *" in
  match parseSpec spec with
  | Some e =>
    (Err ("failed to schedule job " +:+ id +:+ ": " +:+ e), cleared id s, [])
  | None =>
    (Ok tt, scheduled id spec action s,
     [EvLog ("Scheduled job '" +:+ id +:+ "' to run every "
             +:+ fmt_d intervalMinutes +:+ " minutes")])
  end.
Proof.
  unfold ScheduleJobWithMinutes, cleared, scheduled, cleared, bind, get, try,
    cronAddFunc, cronRemove, setJob, logPrintf, emit, ret, throw.
  cbn zeta. destruct (jobs s !! id); cbn; by destruct (parseSpec _).
Qed.

Lemma cleared_lookup id (s : Scheduler Action) entryID :
  consistent s ->
  cronEntries (cleared id s) !! entryID =
  if bool_decide (jobs s !! id = Some entryID) then None
  else cronEntries s !! entryID.
Proof.
  intros (Hreg & Horphan & Hinj & Hids & Hpos). unfold cleared.
  destruct (jobs s !! id) as [old|] eqn:Hjob; cbn.
  - case_bool_decide as Hd.
    + injection Hd as ->. by rewrite lookup_delete_eq.
    + rewrite lookup_delete_ne; [done|congruence].
  - by rewrite bool_decide_false.
Qed.

Lemma consistent_scheduled id spec (action : Action) s :
  consistent s -> consistent (scheduled id spec action s).
Proof.
  intros Hs. pose proof Hs as (Hreg & Horphan & Hinj & Hids & Hpos).
  assert (forall id' e, jobs s !! id' = Some e -> e ≠ (cronNextID s + 1)%Z)
    as Hfresh.
  { intros id' e He%Hreg%Hids. lia. }
  unfold scheduled. split_and!; cbn.
  - intros id' e [[<- <-]|[Hne He]]%lookup_insert_Some.
    + by rewrite lookup_insert_eq.
    + rewrite lookup_insert_ne by (symmetry; by eapply Hfresh).
      rewrite cleared_lookup by done.
      rewrite bool_decide_false; [by eapply Hreg|].
      intros Hid. apply Hne. by eapply Hinj.
  - intros e [entry He]. apply lookup_insert_Some in He as [[<- _]|[Hne He]].
    + exists id. by rewrite lookup_insert_eq.
    + rewrite cleared_lookup in He by done.
      case_bool_decide as Hd; [done|].
      destruct (Horphan e) as [id' Hid']; [by eexists|].
      exists id'. rewrite lookup_insert_ne; [done|]. intros <-. done.
  - intros id1 id2 e [[<- <-]|[Hne1 H1]]%lookup_insert_Some
      [[<- He]|[Hne2 H2]]%lookup_insert_Some; try done.
    + by apply Hfresh in H2.
    + subst e. by apply Hfresh in H1.
    + by eapply Hinj.
  - intros e [entry He]. apply lookup_insert_Some in He as [[<- _]|[Hne He]].
    + lia.
    + rewrite cleared_lookup in He by done.
      case_bool_decide; [done|].
      destruct (Hids e) as [? ?]; [by eexists|]. lia.
  - lia.
Qed.

Lemma scheduled_next id spec (action : Action) s :
  consistent s ->
  GetNextRun id (scheduled id spec action s)
  = Some {| Schedule := spec; Job := action |}.
Proof.
  intros (_ & _ & _ & _ & Hpos). unfold GetNextRun, scheduled. cbn.
  rewrite !lookup_insert_eq.
  destruct (Z.eqb_spec (cronNextID s + 1) 0); [lia|done].
Qed.

Lemma scheduled_others id spec (action : Action) s id' :
  consistent s -> id' ≠ id ->
  GetNextRun id' (scheduled id spec action s) = GetNextRun id' s.
Proof.
  intros Hs Hne. pose proof Hs as (Hreg & _ & Hinj & Hids & _).
  unfold GetNextRun, scheduled. cbn. rewrite lookup_insert_ne by done.
  destruct (jobs s !! id') as [e|] eqn:He; [|done].
  rewrite lookup_insert_ne.
  - rewrite cleared_lookup by done. rewrite bool_decide_false; [done|].
    intros Hid. apply Hne. by eapply Hinj.
  - apply Hreg, Hids in He. lia.
Qed.

Lemma cleared_next id (s : Scheduler Action) :
  consistent s -> GetNextRun id (cleared id s) = None.
Proof.
  intros Hs. unfold GetNextRun.
  assert (jobs (cleared id s) = jobs s) as ->.
  { unfold cleared. by destruct (jobs s !! id). }
  destruct (jobs s !! id) as [e|] eqn:He; [|done].
  rewrite cleared_lookup by done. by rewrite bool_decide_true.
Qed.

Lemma cleared_inconsistent id (s : Scheduler Action) entryID :
  consistent s -> jobs s !! id = Some entryID -> ¬ consistent (cleared id s).
Proof.
  intros Hs He (Hreg & _). pose proof (cleared_lookup id s entryID Hs) as Hl.
  rewrite bool_decide_true in Hl by done.
  destruct (Hreg id entryID) as [entry Hentry].
  - unfold cleared. by rewrite He.
  - by rewrite Hl in Hentry.
Qed.

Lemma RemoveJob_run id (s : Scheduler Action) :
  RemoveJob id s =
  match jobs s !! id with
  | Some entryID =>
    (Ok tt,
     {| cronEntries := delete entryID (cronEntries s);
        cronNextID := cronNextID s; cronRunning := cronRunning s;
        jobs := delete id (jobs s); running := running s |},
     [EvLog (Action := Action) ("Removed job '" +:+ id +:+ "'")])
  | None => (Ok tt, s, [])
  end.
Proof.
  unfold RemoveJob, bind, get, cronRemove, deleteJob, logPrintf, emit, ret.
  by destruct (jobs s !! id).
Qed.

Lemma consistent_removed id (s : Scheduler Action) :
  consistent s -> consistent (final (RemoveJob id s)).
Proof.
  intros Hs. pose proof Hs as (Hreg & Horphan & Hinj & Hids & Hpos).
  rewrite RemoveJob_run. destruct (jobs s !! id) as [old|] eqn:Hold; [|done].
  unfold final. cbn [fst snd]. split_and!; cbn.
  - intros id' e [Hne He]%lookup_delete_Some.
    rewrite lookup_delete_ne; [by eapply Hreg|].
    intros <-. apply Hne. by eapply Hinj.
  - intros e [entry [Hne He]%lookup_delete_Some].
    destruct (Horphan e) as [id' Hid']; [by eexists|].
    exists id'. rewrite lookup_delete_ne; [done|]. intros <-. congruence.
  - intros id1 id2 e [_ H1]%lookup_delete_Some [_ H2]%lookup_delete_Some.
    by eapply Hinj.
  - intros e [entry [_ He]%lookup_delete_Some]. apply Hids. by eexists.
  - done.
Qed.

Lemma removed_next id (s : Scheduler Action) id' :
  consistent s ->
  GetNextRun id' (final (RemoveJob id s))
  = if bool_decide (id' = id) then None else GetNextRun id' s.
Proof.
  intros Hs. pose proof Hs as (Hreg & _ & Hinj & _).
  rewrite RemoveJob_run. unfold GetNextRun, final.
  destruct (jobs s !! id) as [old|] eqn:Hold; cbn [fst snd]; cbn.
  - case_bool_decide as Hd.
    + subst id'. by rewrite lookup_delete_eq.
    + rewrite lookup_delete_ne by done.
      destruct (jobs s !! id') as [e|] eqn:He; [|done].
      rewrite lookup_delete_ne; [done|].
      intros <-. apply Hd. by eapply Hinj.
  - case_bool_decide as Hd; [|done]. subst id'. by rewrite Hold.
Qed.
End SchedulerProofs.

(** The scheduler of the daemon, after its one call of [ScheduleJob], is
    consistent and holds one job. *)
Lemma scheduler_registry_consistent_example :
  SchedulerSpec.consistent SchedulerExample.daemon
  /\ Scheduler.JobCount SchedulerExample.daemon = 1.
Proof.
  split; [|reflexivity].
  unfold SchedulerExample.daemon. rewrite ScheduleJob_run. cbn zeta.
  change (SchedulerExample.parseSpec _) with (@None error).
  unfold final. cbn [fst snd]. apply consistent_scheduled.
  unfold SchedulerSpec.consistent, Scheduler.NewScheduler. cbn.
  split_and!; try done.
  - intros e [entry He]. by rewrite lookup_empty in He.
  - intros e [entry He]. by rewrite lookup_empty in He.
Qed.

(** X12. The registry of the scheduler and the entries of cron stay in
    step. A new scheduler is consistent; a call of [ScheduleJob] or
    [ScheduleJobWithMinutes] that returns nil and a call of [RemoveJob] keep
    it so. After a job is scheduled its next run is that of the new entry,
    the job count grows by one only for a new id, and [RemoveJob] leaves the
    job without a next run; in both cases every other job keeps its entry. *)
Theorem scheduler_registry_stays_consistent {Action : Type}
  (parseSpec : string -> option error) :
  SchedulerSpec.consistent (Scheduler.NewScheduler (Action := Action))
  /\ (forall (s : Scheduler.Scheduler Action) id intervalHours action,
        SchedulerSpec.consistent s ->
        let r := Scheduler.ScheduleJob parseSpec id intervalHours action s in
        outcome r = Ok tt ->
        SchedulerSpec.consistent (final r)
        /\ Scheduler.GetNextRun id (final r)
           = Some {| Scheduler.Schedule := "0 0 */" +:+ fmt_d intervalHours +:+ " * * *";
                     Scheduler.Job := action |}
        /\ Scheduler.JobCount (final r)
           = match Scheduler.jobs s !! id with
             | Some _ => Scheduler.JobCount s
             | None => S (Scheduler.JobCount s)
             end
        /\ forall id', id' ≠ id ->
             Scheduler.GetNextRun id' (final r) = Scheduler.GetNextRun id' s)
  /\ (forall (s : Scheduler.Scheduler Action) id intervalMinutes action,
        SchedulerSpec.consistent s ->
        let r := Scheduler.ScheduleJobWithMinutes parseSpec id intervalMinutes
                   action s in
        outcome r = Ok tt ->
        SchedulerSpec.consistent (final r)
        /\ Scheduler.GetNextRun id (final r)
           = Some {| Scheduler.Schedule :=
                       "0 */" +:+ fmt_d intervalMinutes +:+ " * * * *";
                     Scheduler.Job := action |}
        /\ forall id', id' ≠ id ->
             Scheduler.GetNextRun id' (final r) = Scheduler.GetNextRun id' s)
  /\ (forall (s : Scheduler.Scheduler Action) id,
        SchedulerSpec.consistent s ->
        let r := Scheduler.RemoveJob id s in
        SchedulerSpec.consistent (final r)
        /\ Scheduler.GetNextRun id (final r) = None
        /\ forall id', id' ≠ id ->
             Scheduler.GetNextRun id' (final r) = Scheduler.GetNextRun id' s).
Proof.
  split; [|split; [|split]].
  - unfold SchedulerSpec.consistent, Scheduler.NewScheduler. cbn.
    split_and!; try done.
    + intros e [entry He]. by rewrite lookup_empty in He.
    + intros e [entry He]. by rewrite lookup_empty in He.
  - intros s id n action Hs r Hok. subst r. rewrite ScheduleJob_run in *.
    cbn zeta in *. destruct (parseSpec _); [done|]. unfold final. cbn [fst snd].
    split; [by apply consistent_scheduled|].
    split; [by apply scheduled_next|].
    split; [|intros; by apply scheduled_others].
    unfold Scheduler.JobCount, SchedulerSpec.scheduled. cbn.
    rewrite map_size_insert. by destruct (Scheduler.jobs s !! id).
  - intros s id n action Hs r Hok. subst r.
    rewrite ScheduleJobWithMinutes_run in *.
    cbn zeta in *. destruct (parseSpec _); [done|]. unfold final. cbn [fst snd].
    split; [by apply consistent_scheduled|].
    split; [by apply scheduled_next|].
    intros; by apply scheduled_others.
  - intros s id Hs r. subst r. split; [by apply consistent_removed|].
    split.
    + rewrite removed_next by done. by rewrite bool_decide_true.
    + intros id' Hne. rewrite removed_next by done.
      by rewrite bool_decide_false.
Qed.

Lemma scheduler_registry_stays_consistent_witness :
  SchedulerSpec.consistent SchedulerExample.daemon
  /\ Scheduler.GetNextRun "sync" SchedulerExample.daemon
     = Some {| Scheduler.Schedule := "0 0 */2 * * *"; Scheduler.Job := "syncAction" |}.
Proof.
  destruct (scheduler_registry_stays_consistent (Action := string)
              SchedulerExample.parseSpec) as (Hnew & Hjob & _).
  destruct (Hjob Scheduler.NewScheduler "sync" 2%Z "syncAction" Hnew eq_refl)
    as (H1 & H2 & _).
  split; [exact H1|exact H2].
Defined.

(** X13. A job scheduled anew with a schedule that cron refuses is lost:
    [ScheduleJob] has removed the entry of the job before it asks cron for
    the new one, so it returns the error with the old entry gone, while the
    registry still lists the job. The job is counted, has no next run and
    never runs again, and the registry and cron are no longer in step. *)
Theorem failed_reschedule_drops_the_job {Action : Type}
  (parseSpec : string -> option error) (s : Scheduler.Scheduler Action)
  (id : string) (intervalHours : Z) (action : Action) (entryID : Z) (e : error) :
  SchedulerSpec.consistent s ->
  Scheduler.jobs s !! id = Some entryID ->
  parseSpec ("0 0 */" +:+ fmt_d intervalHours +:+ " * * *") = Some e ->
  let r := Scheduler.ScheduleJob parseSpec id intervalHours action s in
  outcome r = Err ("failed to schedule job " +:+ id +:+ ": " +:+ e)
  /\ is_Some (Scheduler.GetNextRun id s)
  /\ Scheduler.GetNextRun id (final r) = None
  /\ Scheduler.cronEntries (final r) = delete entryID (Scheduler.cronEntries s)
  /\ Scheduler.jobs (final r) = Scheduler.jobs s
  /\ Scheduler.JobCount (final r) = Scheduler.JobCount s
  /\ ¬ SchedulerSpec.consistent (final r).
Proof.
  intros Hs Hjob Hparse r. subst r. rewrite ScheduleJob_run. cbn zeta.
  rewrite Hparse. unfold outcome, final. cbn [fst snd].
  split; [done|]. split.
  { pose proof Hs as (Hreg & _ & _ & Hids & _).
    unfold Scheduler.GetNextRun. rewrite Hjob.
    destruct (Hreg id entryID Hjob) as [entry Hentry]. rewrite Hentry.
    destruct (Hids entryID) as [Hpos _]; [by eexists|].
    destruct (Z.eqb_spec entryID 0); [lia|by eexists]. }
  split; [by apply cleared_next|].
  split; [|split; [|split]].
  - unfold SchedulerSpec.cleared. by rewrite Hjob.
  - unfold SchedulerSpec.cleared. by rewrite Hjob.
  - unfold SchedulerSpec.cleared. by rewrite Hjob.
  - by eapply cleared_inconsistent.
Qed.

Lemma failed_reschedule_drops_the_job_witness :
  let r := Scheduler.ScheduleJob SchedulerExample.parseSpec "sync" 0
             "syncAction" SchedulerExample.daemon in
  outcome r
    = Err "failed to schedule job sync: step of range should be a positive number: */0"
  /\ Scheduler.GetNextRun "sync" (final r) = None
  /\ Scheduler.JobCount (final r) = 1.
Proof.
  intros r.
  destruct scheduler_registry_consistent_example as [Hdaemon _].
  destruct (failed_reschedule_drops_the_job SchedulerExample.parseSpec
              SchedulerExample.daemon "sync" 0 "syncAction" 1
              "step of range should be a positive number: */0")
    as (H1 & _ & H3 & _ & _ & H6 & _); [exact Hdaemon|reflexivity|reflexivity|].
  split; [exact H1|]. split; [exact H3|]. fold r in H6. by rewrite H6.
Defined.
